(** * ShiftORTools: the manual-edit engine of [src/frontend/app.js]

    A shallow embedding of the client-side logic that validates and issues
    manual edits (assign, unassign, move) of a monthly duty roster, keeps
    the per-month schedule cache and the undo stack, and the properties of
    that logic.

    The JavaScript module keeps its state in module-level variables and
    talks to the backend with [fetch].  Here the module variables are the
    fields of a record, every handler is a computation in a state-and-
    exception monad over that record, and the backend is an arbitrary
    function from the request (and the number of requests issued so far)
    to a response.  DOM construction and styling are left out; what a
    handler reports to the user is recorded as a list of notices.

    The hospital table and the calendar editor are covered as far as they
    decide what is stored: the day cells of the grid and their inputs, the
    rows the days are laid out in, the bulk setters, and the configuration
    that is saved.

    Conventions of the model:
    - every handler runs to completion before the next event is handled
      (one dialog or drag gesture at a time);
    - JavaScript objects used as maps are finite maps, so the enumeration
      order of [Object.keys] is not tracked;
    - capacities and counts are integers; the text of the limit field is
      read as the platform reads it when it is empty or an integer
      numeral ([integerField]), and the theorems that depend on the limit
      assume that it is;
    - a date is the ISO string the backend sends, and its day of the week
      is computed as the platform does, in local time. *)

From Stdlib Require Import ZArith Lia Ascii String DecimalString.
From Stdlib Require DecimalFacts DecimalPos.
From stdpp Require Import base option list gmap strings fin_maps.

Local Open Scope string_scope.
Local Open Scope list_scope.
Local Open Scope Z_scope.

(** ** The JavaScript platform: numbers, [Number(...)], [Date] *)

Module Js.

(** The numbers the modelled code handles are integers or [NaN]. *)
Inductive Num : Type :=
| NaN : Num
| Int (z : Z) : Num.

(** [n || d] for a number [n]: [NaN] and [0] are falsy. *)
Definition orElse (n : Num) (d : Z) : Z :=
  match n with
  | NaN => d
  | Int z => if z =? 0 then d else z
  end.

Definition digitOf (c : ascii) : option Z :=
  let n := Z.of_nat (nat_of_ascii c) in
  if (48 <=? n) && (n <=? 57) then Some (n - 48) else None.

Fixpoint digitsValue (acc : Z) (cs : list ascii) : option Z :=
  match cs with
  | [] => Some acc
  | c :: cs' =>
      match digitOf c with
      | Some d => digitsValue (10 * acc + d) cs'
      | None => None
      end
  end.

(** [Number(s)] for the text of a numeric input field.  The model covers
    the integer numerals (an optional sign and decimal digits) and the
    empty text, which is [0]; any other text is [NaN].  Fractions,
    exponents and surrounding blanks are outside the modelled domain:
    [exactNumber] below tells the texts inside it, and what is proved
    about the value of a text is proved for those. *)
Definition Number (s : string) : Num :=
  match list_ascii_of_string s with
  | [] => Int 0
  | c :: cs =>
      if Ascii.eqb c "-"%char then
        match cs with
        | [] => NaN
        | _ => match digitsValue 0 cs with Some v => Int (- v) | None => NaN end
        end
      else if Ascii.eqb c "+"%char then
        match cs with
        | [] => NaN
        | _ => match digitsValue 0 cs with Some v => Int v | None => NaN end
        end
      else match digitsValue 0 (c :: cs) with Some v => Int v | None => NaN end
  end.

(** The texts [Number] reads as the platform does: the empty text and the
    integer numerals, as long as a double holds the value exactly. *)
Definition exactNumber (s : string) : bool :=
  match Number s with
  | NaN => false
  | Int z => Z.abs z <=? 2 ^ 53
  end.

(** [String(n)]. *)
Definition toString (n : Num) : string :=
  match n with
  | NaN => "NaN"
  | Int z => NilZero.string_of_int (Z.to_int z)
  end.

Definition isLeap (y : Z) : bool :=
  ((y mod 4 =? 0) && negb (y mod 100 =? 0)) || (y mod 400 =? 0).

Definition daysInMonth (y m : Z) : Z :=
  if m =? 2 then (if isLeap y then 29 else 28)
  else if (m =? 4) || (m =? 6) || (m =? 9) || (m =? 11) then 30
  else 31.

(** The date-only ISO form [YYYY-MM-DD], the only form the backend sends.
    Anything else is an invalid date here. *)
Definition parseIsoDate (s : string) : option (Z * Z * Z) :=
  match list_ascii_of_string s with
  | [y1; y2; y3; y4; s1; m1; m2; s2; d1; d2] =>
      if Ascii.eqb s1 "-"%char && Ascii.eqb s2 "-"%char then
        match digitsValue 0 [y1; y2; y3; y4], digitsValue 0 [m1; m2],
              digitsValue 0 [d1; d2] with
        | Some y, Some m, Some d =>
            if (1 <=? m) && (m <=? 12) && (1 <=? d) && (d <=? daysInMonth y m)
            then Some (y, m, d) else None
        | _, _, _ => None
        end
      else None
  | _ => None
  end.

(** Days from 1970-01-01 to the given civil date (proleptic Gregorian). *)
Definition daysFromCivil (y m d : Z) : Z :=
  let y' := if m <=? 2 then y - 1 else y in
  let era := y' / 400 in
  let yoe := y' - era * 400 in
  let mp := (m + 9) mod 12 in
  let doy := (153 * mp + 2) / 5 + d - 1 in
  let doe := yoe * 365 + yoe / 4 - yoe / 100 + doy in
  era * 146097 + doe - 719468.


(** [new Date(s).getDay()]: a date-only ISO string denotes midnight UTC,
    and [getDay] answers in local time, [utcOffset] minutes east of UTC.
    Sunday is 0, Saturday is 6; an invalid date gives [NaN]. *)
Definition getDay (utcOffset : Z) (s : string) : Num :=
  match parseIsoDate s with
  | Some (y, m, d) =>
      Int (((daysFromCivil y m d * 1440 + utcOffset) / 1440 + 4) mod 7)
  | None => NaN
  end.

(** [a + b] and [a % b] on numbers. *)
Definition add (a : Num) (b : Z) : Num :=
  match a with NaN => NaN | Int z => Int (z + b) end.

Definition rem (a : Num) (b : Z) : Num :=
  match a with NaN => NaN | Int z => if b =? 0 then NaN else Int (Z.rem z b) end.

Definition isInt (a : Num) (k : Z) : bool :=
  match a with NaN => false | Int z => z =? k end.

End Js.

(** ** Data model *)

(** [currentCfg]: hospital name -> key -> capacity, the key being an ISO
    date or a weekday index ["0"] .. ["6"] (Monday first). *)
Abbreviation Config := (gmap string (gmap string Z)).

(** A cached schedule object.  A field that the JSON object lacks is
    [None]; the sentinel [{status:'error'}] has only [status]. *)
Record Schedule : Type := mkSchedule {
  status : option string;
  dates : option (list string);
  hospitals : option (list string);
  assignments : option (gmap string (gmap string (list string)));
  per_res_counts : option (gmap string Z);
}.

(** [{status:'error'}] *)
Definition errorSentinel : Schedule :=
  mkSchedule (Some "error") None None None None.

(** [{}], as in [scheduleCache[month] || {}] *)
Definition emptyObject : Schedule := mkSchedule None None None None None.

Record Resident : Type := mkResident {
  name : string;
  ng_dates : list string;
}.

(** [residentHighlight] when it is not [null]. *)
Record Highlight : Type := mkHighlight {
  hl_name : string;
  hl_month : string;
  hl_ng_dates : list string;
}.

(** The metadata of a drag gesture; [from_hospital] may be [null]. *)
Record DragMeta : Type := mkDragMeta {
  resident : string;
  from_date : string;
  from_hospital : option string;
}.

(** The entries of [lastChanges]. *)
Inductive Change : Type :=
| ChAssign (month date resident hospital : string)
| ChUnassign (month date resident : string) (hospitals : list string)
| ChMove (month resident from_date : string) (from_hospital : option string)
         (to_date to_hospital : string).

(** The JSON bodies posted to the three mutation endpoints. *)
Record AssignPayload : Type := mkAssignPayload {
  ap_month : string;
  ap_date : string;
  ap_resident : string;
  ap_hospital : string;
  ap_max_assignments : Js.Num;
}.

Record UnassignPayload : Type := mkUnassignPayload {
  up_month : string;
  up_date : string;
  up_resident : string;
}.

Record MovePayload : Type := mkMovePayload {
  mp_month : string;
  mp_resident : string;
  mp_from_date : string;
  mp_from_hospital : option string;
  mp_to_date : string;
  mp_to_hospital : option string;
  mp_max_assignments : Js.Num;
}.

(** Every [fetch] the modelled handlers make. *)
Inductive Request : Type :=
| GET_schedule (month : string)
| GET_residents (month : string)
| GET_is_holiday (date : string)
| POST_manual_assign (p : AssignPayload)
| POST_manual_unassign (p : UnassignPayload)
| POST_manual_move (p : MovePayload).

(** What a [fetch] can come back with. *)
Inductive Response (A : Type) : Type :=
| NetworkError (message : string)   (* the [fetch] promise rejects *)
| HttpError (text : string)         (* [res.ok] is false; [res.text()] *)
| BadJson (message : string)        (* [res.ok], but [res.json()] rejects *)
| HttpOk (json : A).
Arguments NetworkError {A} message.
Arguments HttpError {A} text.
Arguments BadJson {A} message.
Arguments HttpOk {A} json.

(** The backend: for each endpoint, the answer to a request given the
    number of requests the client has issued before it.  The schedule
    endpoint answers with the whole body ([None] for a falsy body), the
    mutation endpoints with the [result] field ([None] when it is missing
    or falsy), the holiday endpoint with [!!is_holiday], the residents
    endpoint with [residents || []]. *)
Record Backend : Type := mkBackend {
  api_schedule : nat -> string -> Response (option Schedule);
  api_residents : nat -> string -> Response (list Resident);
  api_is_holiday : nat -> string -> Response bool;
  api_manual_assign : nat -> AssignPayload -> Response (option Schedule);
  api_manual_unassign : nat -> UnassignPayload -> Response (option Schedule);
  api_manual_move : nat -> MovePayload -> Response (option Schedule);
}.

(** The module-level variables of [app.js] that the edit logic uses, the
    value of the [max-assignments] input ([None] when the element is not
    in the document), and what the handlers did so far: the requests
    issued, oldest first, and the messages shown (text and level). *)
Record World : Type := mkWorld {
  currentCfg : Config;
  scheduleCache : gmap string Schedule;
  residentsCache : gmap string (list Resident);
  residentHighlight : option Highlight;
  currentDragMeta : option DragMeta;
  lastChanges : list Change;
  maxAssignmentsValue : option string;
  sent : list Request;
  notices : list (string * string);
}.

Definition set_scheduleCache (f : gmap string Schedule -> gmap string Schedule)
    (w : World) : World :=
  mkWorld (currentCfg w) (f (scheduleCache w)) (residentsCache w)
    (residentHighlight w) (currentDragMeta w) (lastChanges w)
    (maxAssignmentsValue w) (sent w) (notices w).

Definition set_residentsCache
    (f : gmap string (list Resident) -> gmap string (list Resident))
    (w : World) : World :=
  mkWorld (currentCfg w) (scheduleCache w) (f (residentsCache w))
    (residentHighlight w) (currentDragMeta w) (lastChanges w)
    (maxAssignmentsValue w) (sent w) (notices w).

Definition set_lastChanges (f : list Change -> list Change) (w : World) : World :=
  mkWorld (currentCfg w) (scheduleCache w) (residentsCache w)
    (residentHighlight w) (currentDragMeta w) (f (lastChanges w))
    (maxAssignmentsValue w) (sent w) (notices w).

Definition set_sent (f : list Request -> list Request) (w : World) : World :=
  mkWorld (currentCfg w) (scheduleCache w) (residentsCache w)
    (residentHighlight w) (currentDragMeta w) (lastChanges w)
    (maxAssignmentsValue w) (f (sent w)) (notices w).

Definition set_notices (f : list (string * string) -> list (string * string))
    (w : World) : World :=
  mkWorld (currentCfg w) (scheduleCache w) (residentsCache w)
    (residentHighlight w) (currentDragMeta w) (lastChanges w)
    (maxAssignmentsValue w) (sent w) (f (notices w)).

(** ** The monad of handlers: state and exceptions *)

(** A thrown [Error] (or [ReferenceError], [TypeError]) with its message. *)
Inductive Exn : Type :=
| Error (message : string).

Definition messageOf (e : Exn) : string :=
  match e with Error m => m end.

Inductive Result (A : Type) : Type :=
| Val (a : A)
| Thrown (e : Exn).
Arguments Val {A} a.
Arguments Thrown {A} e.

Definition M (A : Type) : Type := World -> Result A * World.

Definition ret {A} (a : A) : M A := fun w => (Val a, w).

Definition bind {A B} (c : M A) (k : A -> M B) : M B :=
  fun w =>
    match c w with
    | (Val a, w') => k a w'
    | (Thrown e, w') => (Thrown e, w')
    end.

Definition throw {A} (e : Exn) : M A := fun w => (Thrown e, w).

(** [try { c } catch(e) { h e }] *)
Definition tryCatch {A} (c : M A) (h : Exn -> M A) : M A :=
  fun w =>
    match c w with
    | (Val a, w') => (Val a, w')
    | (Thrown e, w') => h e w'
    end.

Definition getWorld : M World := fun w => (Val w, w).

Definition modify (f : World -> World) : M unit := fun w => (Val tt, f w).

Declare Scope handler_scope.
Delimit Scope handler_scope with handler.
Notation "x <- c ;; k" := (bind c (fun x => k))
  (at level 100, c at next level, right associativity) : handler_scope.
Notation "c ;; k" := (bind c (fun _ => k))
  (at level 100, right associativity) : handler_scope.
Local Open Scope handler_scope.

(** [showMessage(text, level)] *)
Definition showMessage (text level : string) : M unit :=
  modify (set_notices (fun l => l ++ [(text, level)])).

(** The inline error area of the assign dialog: [err.textContent = text]. *)
Definition showInlineError (text : string) : M unit :=
  modify (set_notices (fun l => l ++ [(text, "assign-error")])).

(** [lastChanges.push(change)] *)
Definition pushChange (change : Change) : M unit :=
  modify (set_lastChanges (fun l => l ++ [change])).

(** [lastChanges.pop()]: [None] stands for [undefined]. *)
Definition popChange : M (option Change) :=
  w <- getWorld ;;
  modify (set_lastChanges (@removelast Change)) ;;
  ret (last (lastChanges w)).

(** ** A sample month

    January 2024 with two hospitals.  The 2nd is a Tuesday, the 6th a
    Saturday, the 8th a Monday that the backend reports as a holiday. *)

Definition sampleCfg : Config :=
  {[ "General" := {[ "1" := 2 ]};
     "大学病院" := {[ "2024-01-08" := 1; "1" := 1; "5" := 1 ]} ]}.

Definition sampleSchedule : Schedule :=
  mkSchedule None
    (Some ["2024-01-02"; "2024-01-06"; "2024-01-08"])
    (Some ["General"; "大学病院"])
    (Some {[ "2024-01-02" := {[ "General" := ["alice"; "bob"] ]};
             "2024-01-08" := {[ "大学病院" := ["alice"] ]} ]})
    (Some {[ "alice" := 2; "bob" := 1 ]}).

(** A backend that has no schedule to give and confirms every mutation. *)
Definition sampleBackend : Backend :=
  mkBackend
    (fun _ _ => HttpError "no schedule")
    (fun _ _ => HttpOk [mkResident "alice" ["2024-01-03"]])
    (fun _ d => HttpOk (String.eqb d "2024-01-08"))
    (fun _ _ => HttpOk (Some sampleSchedule))
    (fun _ _ => HttpOk (Some sampleSchedule))
    (fun _ _ => HttpOk (Some sampleSchedule)).

(** A backend that refuses every mutation. *)
Definition refusingBackend : Backend :=
  mkBackend
    (fun _ _ => HttpError "no schedule")
    (fun _ _ => HttpOk [mkResident "alice" ["2024-01-03"]])
    (fun _ d => HttpOk (String.eqb d "2024-01-08"))
    (fun _ _ => HttpError "slot is full")
    (fun _ _ => HttpError "not assigned")
    (fun _ _ => HttpError "slot is full").

(** The month is cached, alice is selected and is being dragged away from
    General on the 2nd; the limit field reads 2. *)
Definition sampleWorld : World :=
  mkWorld sampleCfg {[ "2024-01" := sampleSchedule ]} ∅
    (Some (mkHighlight "alice" "2024-01" ["2024-01-03"]))
    (Some (mkDragMeta "alice" "2024-01-02" (Some "General")))
    [] (Some "2") [] [].

(** The same with the limit field reading 0. *)
Definition zeroLimitWorld : World :=
  mkWorld sampleCfg {[ "2024-01" := sampleSchedule ]} ∅
    (Some (mkHighlight "alice" "2024-01" ["2024-01-03"]))
    (Some (mkDragMeta "alice" "2024-01-02" (Some "General")))
    [] (Some "0") [] [].

(** The same after bob was assigned to General on the 6th and alice was
    then taken off both hospitals she held on the 2nd. *)
Definition undoWorld : World :=
  mkWorld sampleCfg {[ "2024-01" := sampleSchedule ]} ∅
    (Some (mkHighlight "alice" "2024-01" ["2024-01-03"]))
    None
    [ChAssign "2024-01" "2024-01-06" "bob" "General";
     ChUnassign "2024-01" "2024-01-02" "alice" ["General"; "大学病院"]]
    (Some "2") [] [].

(** A backend whose residents endpoint fails on the first request of a
    session and answers from the second on. *)
Definition flakyBackend : Backend :=
  mkBackend
    (fun _ _ => HttpError "no schedule")
    (fun n _ =>
       match n with
       | O => NetworkError "offline"
       | S _ => HttpOk [mkResident "alice" ["2024-01-03"]]
       end)
    (fun _ d => HttpOk (String.eqb d "2024-01-08"))
    (fun _ _ => HttpOk (Some sampleSchedule))
    (fun _ _ => HttpOk (Some sampleSchedule))
    (fun _ _ => HttpOk (Some sampleSchedule)).

(** ** The edit logic *)

Section Editor.

(** The platform's local offset from UTC, in minutes. *)
Variable utcOffset : Z.

(** The backend the client talks to. *)
Variable backend : Backend.

(** *** Capacity arithmetic *)

(** [(jsDay + 6) % 7], the backend's Monday-first weekday index. *)
Definition weekdayOf (date : string) : Js.Num :=
  Js.rem (Js.add (Js.getDay utcOffset date) 6) 7.

(** Lines 872-882 of [openAssignModal]; the same block is at lines
    333-343, 690-700 and 797-802. *)
Definition capacityOf (cfgAll : Config) (hosp date : string) : Z :=
  let cfg := default ∅ (cfgAll !! hosp) in
  match cfg !! date with
  | Some v => Js.orElse (Js.Int v) 0
  | None =>
      match cfg !! Js.toString (weekdayOf date) with
      | Some v => Js.orElse (Js.Int v) 0
      | None => 0
      end
  end.

(** [(sched.assignments && sched.assignments[date] &&
      sched.assignments[date][hosp]) || []] *)
Definition assignedAt (sched : Schedule) (date hosp : string) : list string :=
  default [] (a ← assignments sched; day ← a !! date; day !! hosp).

(** [dt.getDay() === 0 || dt.getDay() === 6] *)
Definition isWeekend (date : string) : bool :=
  Js.isInt (Js.getDay utcOffset date) 0 || Js.isInt (Js.getDay utcOffset date) 6.

Definition universityHospital : string := "大学病院".

(** Lines 884-892: the capacity, raised by 4 for the university hospital
    on a weekend or when [isHoliday] holds, less the number assigned.
    Each site supplies its own [isHoliday]. *)
Definition remainingAt (cfgAll : Config) (sched : Schedule)
    (hosp date : string) (isHoliday : bool) : Z :=
  let capacity := capacityOf cfgAll hosp date in
  let assignedCount := Z.of_nat (length (assignedAt sched date hosp)) in
  let capacity :=
    if String.eqb hosp universityHospital && (isWeekend date || isHoliday)
    then capacity + 4 else capacity in
  capacity - assignedCount.

(** [arr.indexOf(resident) !== -1] on the cell's array *)
Definition occupies (sched : Schedule) (date hosp res : string) : bool :=
  bool_decide (res ∈ assignedAt sched date hosp).

(** [Object.keys(o)]; the enumeration order of the keys is not tracked. *)
Definition objectKeys {A} (o : gmap string A) : list string :=
  (map_to_list o).*1.

(** Lines 855-857 and 326-328: the schedule's hospitals, or the configured
    ones when the schedule has none. *)
Definition hospitalsFor (sched : Schedule) (cfgAll : Config) : list string :=
  match hospitals sched with
  | Some (h :: hs) => h :: hs
  | _ => objectKeys cfgAll
  end.

(** Lines 868-894, the candidates of the assign dialog. *)
Definition dialogCandidates (cfgAll : Config) (sched : Schedule)
    (hosps : list string) (dateIso : string) (isHoliday : bool)
    : list (string * Z) :=
  omap (fun hosp =>
          if String.eqb hosp "" then None
          else
            let remaining := remainingAt cfgAll sched hosp dateIso isHoliday in
            if 0 <? remaining then Some (hosp, remaining) else None)
       hosps.

(** Lines 331-352, the candidates of a drop onto a date of the calendar. *)
Definition dropCandidates (cfgAll : Config) (sched : Schedule)
    (hosps : list string) (targetDate res : string) (isHoliday : bool)
    : list (string * Z) :=
  omap (fun hosp =>
          let remaining := remainingAt cfgAll sched hosp targetDate isHoliday in
          if (0 <? remaining) || occupies sched targetDate hosp res
          then Some (hosp, remaining) else None)
       hosps.

(** Lines 897-903: the hospitals that hold the resident on the date. *)
Definition assignedHospitalsOn (sched : Schedule) (dateIso res : string)
    : list string :=
  match (a ← assignments sched; a !! dateIso) with
  | Some day =>
      filter (fun hh => res ∈ default [] (day !! hh)) (objectKeys day)
  | None => []
  end.

(** Lines 791-808 of [highlightPreviewTargets]: the mark a cell of the
    preview table gets for the selected resident; [d] and [h] are the
    cell's [dataset.date] and [dataset.hospital], and a cell that lacks
    either is skipped (line 793).  The holiday operand of the bonus test
    is the literal [false]. *)
Inductive PreviewMark : Type := NgPreview | PreviewDropTarget | NoMark.

Definition highlightRemaining (cfgAll : Config) (sched : Schedule)
    (h d : string) : Z :=
  remainingAt cfgAll sched h d false.

Definition highlightMark (cfgAll : Config) (cache : gmap string Schedule)
    (ngDates : list string) (monthKey d h : string) : PreviewMark :=
  if String.eqb d "" || String.eqb h "" then NoMark
  else if bool_decide (d ∈ ngDates) then NgPreview
  else
    let sched := default emptyObject (cache !! monthKey) in
    if 0 <? highlightRemaining cfgAll sched h d then PreviewDropTarget
    else NoMark.

(** *** The [max-assignments] field *)

(** [value || d] followed by [Number(...)]: an absent element or an empty
    text gives [d]. *)
Definition numberOfFieldOr (value : option string) (d : Z) : Js.Num :=
  match value with
  | None => Js.Int d
  | Some s => if String.eqb s "" then Js.Int d else Js.Number s
  end.

(** Lines 365, 714 and 941:
    [Number(document.getElementById('max-assignments')?.value || 0) || 2] *)
Definition uiMaxOf (value : option string) : Z :=
  Js.orElse (numberOfFieldOr value 0) 2.

(** Lines 56 and 65:
    [Number(document.getElementById('max-assignments')?.value || 2)] *)
Definition undoMaxOf (value : option string) : Js.Num :=
  numberOfFieldOr value 2.

(** The limit field is within the model: the element is absent, or its
    value is empty or an integer numeral that [Js.Number] reads exactly. *)
Definition integerField (value : option string) : bool :=
  match value with
  | None => true
  | Some s => Js.exactNumber s
  end.

(** *** Talking to the backend *)

(** [await fetch(...)]: the request is recorded and the backend's answer,
    which may depend on how many requests came before, is returned. *)
Definition fetch {A} (req : Request) (answer : nat -> Response A)
    : M (Response A) :=
  fun w => (Val (answer (length (sent w))), set_sent (fun l => l ++ [req]) w).

(** The shape shared by the mutating call sites:
    [if(!res.ok){ ... return; } const jd = await res.json(); ...].
    A rejected [fetch] and a rejected [res.json()] both throw. *)
Definition withResponse {A B} (res : Response A)
    (notOk : string -> M B) (ok : A -> M B) : M B :=
  match res with
  | NetworkError m => throw (Error m)
  | HttpError t => notOk t
  | BadJson m => throw (Error m)
  | HttpOk jd => ok jd
  end.

(** [if(jd && jd.result) scheduleCache[month] = jd.result] *)
Definition storeResult (month : string) (result : option Schedule) : M unit :=
  match result with
  | Some r => modify (set_scheduleCache (<[month := r]>))
  | None => ret tt
  end.

(** [scheduleCache[month] = data]; a falsy [data] reads as an absent
    entry everywhere. *)
Definition cachePut (month : string) (data : option Schedule) : M unit :=
  match data with
  | Some s => modify (set_scheduleCache (<[month := s]>))
  | None => modify (set_scheduleCache (delete month))
  end.

(** [fetchSchedule], lines 510-528. *)
Definition fetchSchedule (month : string) : M (option Schedule) :=
  w <- getWorld ;;
  match scheduleCache w !! month with
  | Some s => ret (Some s)
  | None =>
      res <- fetch (GET_schedule month) (fun n => api_schedule backend n month) ;;
      match res with
      | HttpError txt =>
          showMessage ("スケジュール取得エラー: " +:+ txt) "error" ;;
          cachePut month (Some errorSentinel) ;;
          ret (Some errorSentinel)
      | HttpOk data =>
          cachePut month data ;;
          ret data
      | NetworkError m | BadJson m =>
          showMessage ("スケジュール取得失敗: " +:+ m) "error" ;;
          cachePut month (Some errorSentinel) ;;
          ret (Some errorSentinel)
      end
  end.

(** [fetchResidents], lines 530-539; [None] stands for [null]. *)
Definition fetchResidents (month : string) : M (option (list Resident)) :=
  w <- getWorld ;;
  match residentsCache w !! month with
  | Some l => ret (Some l)
  | None =>
      res <- fetch (GET_residents month) (fun n => api_residents backend n month) ;;
      match res with
      | HttpOk l =>
          modify (set_residentsCache (<[month := l]>)) ;;
          ret (Some l)
      | _ => ret None
      end
  end.

(** Lines 862-866 (and 329-330, 704-705): the holiday lookup, [false] on
    any failure. *)
Definition fetchIsHoliday (date : string) : M bool :=
  res <- fetch (GET_is_holiday date) (fun n => api_is_holiday backend n date) ;;
  ret (match res with HttpOk b => b | _ => false end).

(** [if(!scheduleCache[month]) await fetchSchedule(month)] *)
Definition ensureSchedule (month : string) : M unit :=
  w <- getWorld ;;
  match scheduleCache w !! month with
  | Some _ => ret tt
  | None => fetchSchedule month ;; ret tt
  end.

(** *** Undo, lines 40-73 *)

(** The [for(const h of hospitals)] loop of the [unassign] branch.  The
    result tells whether the loop ran to its end; a non-OK answer leaves
    the function from inside the loop. *)
Fixpoint reassignAll (month date res : string) (hs : list string) : M bool :=
  match hs with
  | [] => ret true
  | h :: rest =>
      w <- getWorld ;;
      let p := mkAssignPayload month date res h
                 (undoMaxOf (maxAssignmentsValue w)) in
      r <- fetch (POST_manual_assign p)
             (fun n => api_manual_assign backend n p) ;;
      withResponse r
        (fun t => showMessage ("再割当失敗: " +:+ t) "error" ;; ret false)
        (fun jd => storeResult month jd ;; reassignAll month date res rest)
  end.

(** The body of the [try] block, lines 44-71, for the popped entry. *)
Definition undoChange (ch : option Change) : M unit :=
  match ch with
  | Some (ChAssign month date res _) =>
      let p := mkUnassignPayload month date res in
      r <- fetch (POST_manual_unassign p)
             (fun n => api_manual_unassign backend n p) ;;
      withResponse r
        (fun t => showMessage ("取り消し失敗: " +:+ t) "error")
        (fun jd =>
           storeResult month jd ;;
           showMessage "変更を取り消しました" "success")
  | Some (ChUnassign month date res hs) =>
      finished <- reassignAll month date res hs ;;
      if finished
      then showMessage "変更を取り消しました（再割当）" "success"
      else ret tt
  | Some (ChMove month res from_d from_h to_d to_h) =>
      w <- getWorld ;;
      let payload := mkMovePayload month res to_d (Some to_h)
                       from_d from_h
                       (undoMaxOf (maxAssignmentsValue w)) in
      r <- fetch (POST_manual_move payload)
             (fun n => api_manual_move backend n payload) ;;
      withResponse r
        (fun t => showMessage ("元に戻す失敗: " +:+ t) "error")
        (fun jd =>
           storeResult month jd ;;
           showMessage "移動を取り消しました" "success")
  | None => throw (Error "ch is undefined")
  end.

Definition undoLastChange : M unit :=
  w <- getWorld ;;
  match lastChanges w with
  | [] => showMessage "取り消す変更はありません" "error"
  | _ :: _ =>
      ch <- popChange ;;
      tryCatch (undoChange ch)
        (fun e =>
           showMessage ("取り消し中にエラーが発生しました: " +:+ messageOf e)
             "error")
  end.

(** *** The assign dialog, lines 839-998 *)

(** What the dialog offers: a button per candidate, and the hospitals the
    delete button would free. *)
Record AssignModal : Type := mkAssignModal {
  am_candidates : list (string * Z);
  am_assignedHospitals : list string;
}.

Definition openAssignModal (dateIso residentName month : string)
    : M (option AssignModal) :=
  ensureSchedule month ;;
  w <- getWorld ;;
  let sched := default emptyObject (scheduleCache w !! month) in
  let hosps := hospitalsFor sched (currentCfg w) in
  match hosps with
  | [] => showMessage "病院リストが取得できません" "error" ;; ret None
  | _ :: _ =>
      isHoliday <- fetchIsHoliday dateIso ;;
      let candidates :=
        dialogCandidates (currentCfg w) sched hosps dateIso isHoliday in
      let assignedHospitals := assignedHospitalsOn sched dateIso residentName in
      match candidates, assignedHospitals with
      | [], [] => showMessage "該当日の残スロットがありません" "error" ;; ret None
      | _, _ => ret (Some (mkAssignModal candidates assignedHospitals))
      end
  end.

(** Lines 946-952: does the resident hold any hospital on the date? *)
Definition assignedOnDate (cache : gmap string Schedule)
    (month dateIso res : string) : bool :=
  match (s ← cache !! month; a ← assignments s; a !! dateIso) with
  | Some day =>
      existsb (fun hh => bool_decide (res ∈ default [] (day !! hh)))
        (objectKeys day)
  | None => false
  end.

(** Lines 943-944: [Number(curCounts[residentName] || 0)] *)
Definition currentCount (cache : gmap string Schedule)
    (month res : string) : Z :=
  let curCounts := default ∅ (s ← cache !! month; per_res_counts s) in
  match curCounts !! res with
  | Some v => Js.orElse (Js.Int v) 0
  | None => 0
  end.

(** Line 953 *)
Definition capExceeded (cur : Z) (assigned_on_date : bool) (uiMax : Z) : bool :=
  uiMax <? cur - (if assigned_on_date then 1 else 0) + 1.

Definition capMessage (uiMax : Z) : string :=
  "上限回数（" +:+ Js.toString (Js.Int uiMax) +:+ "回）に達しています".

(** The click handler of a candidate button, lines 938-991. *)
Definition assignClick (dateIso residentName month hosp : string) : M unit :=
  tryCatch
    (w <- getWorld ;;
     let uiMax := uiMaxOf (maxAssignmentsValue w) in
     let cur := currentCount (scheduleCache w) month residentName in
     let assigned_on_date :=
       assignedOnDate (scheduleCache w) month dateIso residentName in
     if capExceeded cur assigned_on_date uiMax
     then showInlineError (capMessage uiMax)
     else
       let payload :=
         mkAssignPayload month dateIso residentName hosp (Js.Int uiMax) in
       res <- fetch (POST_manual_assign payload)
                (fun n => api_manual_assign backend n payload) ;;
       withResponse res
         (fun txt => showInlineError ("割当失敗: " +:+ txt))
         (fun data =>
            storeResult month data ;;
            pushChange (ChAssign month dateIso residentName hosp) ;;
            showMessage "割当を保存しました" "success" ;;
            ensureSchedule month))
    (fun e => showMessage ("割当エラー: " +:+ messageOf e) "error").

(** The click handler of the delete button, lines 915-931.
    [assignedHospitals] is what the dialog collected when it opened. *)
Definition unassignClick (dateIso residentName month : string)
    (assignedHospitals : list string) : M unit :=
  tryCatch
    (let payload := mkUnassignPayload month dateIso residentName in
     res <- fetch (POST_manual_unassign payload)
              (fun n => api_manual_unassign backend n payload) ;;
     withResponse res
       (fun txt => showInlineError ("削除失敗: " +:+ txt))
       (fun data =>
          storeResult month data ;;
          pushChange (ChUnassign month dateIso residentName assignedHospitals) ;;
          showMessage "予定を削除しました" "success"))
    (fun e => showInlineError ("削除エラー: " +:+ messageOf e)).

(** *** Drop onto a day cell of the calendar, lines 308-385 *)

(** The chooser a drop opens: one button per candidate hospital. *)
Record MoveModal : Type := mkMoveModal {
  mm_monthKey : string;
  mm_meta : DragMeta;
  mm_targetDate : string;
  mm_candidates : list (string * Z);
}.

(** [ngDayClass] tells whether the cell carries the class [ng-day] from
    the last rendering; [raw] is the drag payload, [None] when empty. *)
Definition calendarDrop (monthKey dateStr : string) (ngDayClass : bool)
    (raw : option DragMeta) : M (option MoveModal) :=
  w <- getWorld ;;
  match residentHighlight w with
  | None => ret None
  | Some hl =>
      let isNgCell := ngDayClass || bool_decide (dateStr ∈ hl_ng_dates hl) in
      if isNgCell
      then showMessage "NG日にはドロップできません" "error" ;; ret None
      else
        tryCatch
          (match raw with
           | None => ret None
           | Some meta =>
               let targetDate := dateStr in
               if String.eqb (from_date meta) targetDate
               then showMessage "同じ日への移動です" "error" ;; ret None
               else
                 ensureSchedule monthKey ;;
                 w1 <- getWorld ;;
                 let sched :=
                   default emptyObject (scheduleCache w1 !! monthKey) in
                 let hosps := hospitalsFor sched (currentCfg w1) in
                 isHoliday <- fetchIsHoliday targetDate ;;
                 let candidates :=
                   dropCandidates (currentCfg w1) sched hosps targetDate
                     (resident meta) isHoliday in
                 match candidates with
                 | [] =>
                     showMessage "移動先に空きスロットがありません" "error" ;;
                     ret None
                 | _ :: _ =>
                     ret (Some (mkMoveModal monthKey meta targetDate candidates))
                 end
           end)
          (fun e =>
             showMessage ("ドロップ処理エラー: " +:+ messageOf e) "error" ;;
             ret None)
  end.

(** The click handler of a button of the chooser, lines 363-376. *)
Definition calendarMoveClick (monthKey : string) (meta : DragMeta)
    (targetDate hosp : string) : M unit :=
  tryCatch
    (w <- getWorld ;;
     let uiMax := uiMaxOf (maxAssignmentsValue w) in
     let payload :=
       mkMovePayload monthKey (resident meta) (from_date meta)
         (from_hospital meta) targetDate (Some hosp) (Js.Int uiMax) in
     r <- fetch (POST_manual_move payload)
            (fun n => api_manual_move backend n payload) ;;
     withResponse r
       (fun t => showMessage ("移動失敗: " +:+ t) "error")
       (fun jd =>
          storeResult monthKey jd ;;
          pushChange (ChMove monthKey (resident meta) (from_date meta)
                        (from_hospital meta) targetDate hosp) ;;
          showMessage "移動しました" "success"))
    (fun e => showMessage ("移動エラー: " +:+ messageOf e) "error").

(** *** Drop onto a cell of the schedule table, lines 676-723 *)

(** Evaluating an identifier that no enclosing scope declares throws a
    [ReferenceError]. *)
Definition unboundIdentifier {A} (x : string) : M A :=
  throw (Error (x +:+ " is not defined")).

(** [rs.find(r => r.name === n)] *)
Definition findResident (rs : option (list Resident)) (n : string)
    : option Resident :=
  rs ≫= List.find (fun r => String.eqb (name r) n).

(** The drop handler of the cell for date [d] and hospital [h].  Line 701
    reads [sched], which is declared neither in the handler, nor in
    [renderScheduleTable], nor at module level (the other handlers each
    declare a [sched] of their own). *)
Definition tableDrop (monthKey d h : string) : M unit :=
  w <- getWorld ;;
  match currentDragMeta w with
  | None => ret tt
  | Some meta =>
      if String.eqb (from_date meta) d
         && bool_decide (from_hospital meta = Some h)
      then showMessage "同じ場所です" "error"
      else
        rs <- fetchResidents monthKey ;;
        let found := findResident rs (resident meta) in
        let isNg :=
          match found with
          | Some r => bool_decide (d ∈ ng_dates r)
          | None => false
          end in
        if isNg then showMessage "NG日にはドロップできません" "error"
        else
          tryCatch
            (w1 <- getWorld ;;
             let capacity := capacityOf (currentCfg w1) h d in
             sched <- unboundIdentifier "sched" ;;
             let assignedArr2 := assignedAt sched d h in
             let assignedCount2 := Z.of_nat (length assignedArr2) in
             isHoliday2 <- fetchIsHoliday d ;;
             let capacity :=
               if String.eqb h universityHospital && (isWeekend d || isHoliday2)
               then capacity + 4 else capacity in
             let remaining2 := capacity - assignedCount2 in
             if (remaining2 <=? 0)
                && negb (bool_decide (resident meta ∈ assignedArr2))
             then showMessage "この病院にはスロットがありません" "error"
             else
               let uiMax := uiMaxOf (maxAssignmentsValue w1) in
               let payload :=
                 mkMovePayload monthKey (resident meta) (from_date meta)
                   (from_hospital meta) d (Some h) (Js.Int uiMax) in
               res <- fetch (POST_manual_move payload)
                        (fun n => api_manual_move backend n payload) ;;
               withResponse res
                 (fun t => showMessage ("移動失敗: " +:+ t) "error")
                 (fun jd =>
                    storeResult monthKey jd ;;
                    pushChange (ChMove monthKey (resident meta) (from_date meta)
                                  (from_hospital meta) d h) ;;
                    showMessage "移動しました" "success"))
            (fun e => showMessage ("移動処理エラー: " +:+ messageOf e) "error")
  end.

(** *** The events that read or write the schedule cache or the log *)

Inductive Event : Type :=
| EvFetchSchedule (month : string)
| EvOpenAssignModal (dateIso residentName month : string)
| EvAssignClick (dateIso residentName month hosp : string)
| EvUnassignClick (dateIso residentName month : string)
                  (assignedHospitals : list string)
| EvCalendarDrop (monthKey dateStr : string) (ngDayClass : bool)
                 (raw : option DragMeta)
| EvCalendarMoveClick (monthKey : string) (meta : DragMeta)
                      (targetDate hosp : string)
| EvTableDrop (monthKey d h : string)
| EvUndo.

Definition handle (ev : Event) : M unit :=
  match ev with
  | EvFetchSchedule month => fetchSchedule month ;; ret tt
  | EvOpenAssignModal dateIso residentName month =>
      openAssignModal dateIso residentName month ;; ret tt
  | EvAssignClick dateIso residentName month hosp =>
      assignClick dateIso residentName month hosp
  | EvUnassignClick dateIso residentName month hs =>
      unassignClick dateIso residentName month hs
  | EvCalendarDrop monthKey dateStr ng raw =>
      calendarDrop monthKey dateStr ng raw ;; ret tt
  | EvCalendarMoveClick monthKey meta targetDate hosp =>
      calendarMoveClick monthKey meta targetDate hosp
  | EvTableDrop monthKey d h => tableDrop monthKey d h
  | EvUndo => undoLastChange
  end.

(** *** The specification's wording, for comparison with the code *)

(** The backend's weekday index of a platform day: [(nativeDay + 6) mod 7]. *)
Definition spec_weekdayOf (nativeDay : Z) : Z := (nativeDay + 6) mod 7.

(** [config[hospital][key]] *)
Definition configEntry (config : Config) (hospital key : string) : option Z :=
  cfg ← config !! hospital; cfg !! key.



(** "Rejected locally if: [to_date] is in the resident's NG-date set; or
    [from == to]; or destination [remaining <= 0] and the resident does
    not already occupy the destination slot." *)
Definition spec_move_rejected (ngDates : list string) (meta : DragMeta)
    (to_date to_hospital : string) (remaining : Z) (occupiesTarget : bool)
    : bool :=
  bool_decide (to_date ∈ ngDates)
  || (String.eqb (from_date meta) to_date
      && bool_decide (from_hospital meta = Some to_hospital))
  || ((remaining <=? 0) && negb occupiesTarget).

(** The answer of the holiday endpoint as the client reads it. *)
Definition holidayAnswer (r : Response bool) : bool :=
  match r with HttpOk b => b | _ => false end.

(** Did the backend confirm the request? *)
Definition confirmed {A} (r : Response A) : bool :=
  match r with HttpOk _ => true | _ => false end.

(** *** The worlds the handlers leave, written out *)

(** [showMessage] as a function on worlds. *)
Definition notify (text level : string) (w : World) : World :=
  set_notices (fun l => l ++ [(text, level)]) w.

(** The request [req] has been issued. *)
Definition sending (req : Request) (w : World) : World :=
  set_sent (fun l => l ++ [req]) w.

(** The [result] of a confirmed mutation has replaced the cached month. *)
Definition stored (month : string) (result : option Schedule) (w : World)
    : World :=
  match result with
  | Some r => set_scheduleCache (<[month := r]>) w
  | None => w
  end.

(** The world after [fetchSchedule] has asked the backend. *)
Definition fetchedWorld (month : string) (w : World) : World :=
  let w1 := sending (GET_schedule month) w in
  match api_schedule backend (length (sent w)) month with
  | HttpError txt =>
      set_scheduleCache (<[month := errorSentinel]>)
        (notify ("スケジュール取得エラー: " +:+ txt) "error" w1)
  | NetworkError m | BadJson m =>
      set_scheduleCache (<[month := errorSentinel]>)
        (notify ("スケジュール取得失敗: " +:+ m) "error" w1)
  | HttpOk (Some data) => set_scheduleCache (<[month := data]>) w1
  | HttpOk None => set_scheduleCache (delete month) w1
  end.

(** The world after [if(!scheduleCache[month]) await fetchSchedule(month)]. *)
Definition ensuredWorld (month : string) (w : World) : World :=
  match scheduleCache w !! month with
  | Some _ => w
  | None => fetchedWorld month w
  end.

(** The value and the world after [fetchResidents(month)]. *)
Definition residentsLookup (month : string) (w : World)
    : option (list Resident) * World :=
  match residentsCache w !! month with
  | Some l => (Some l, w)
  | None =>
      let w1 := sending (GET_residents month) w in
      match api_residents backend (length (sent w)) month with
      | HttpOk l => (Some l, set_residentsCache (<[month := l]>) w1)
      | _ => (None, w1)
      end
  end.

(** The month and the schedule that the answer to the request issued as
    number [n] puts into the cache, when the request is a mutation that
    the backend confirmed with a result. *)
Definition mutationResult (n : nat) (req : Request) : option (string * Schedule) :=
  match req with
  | POST_manual_assign p =>
      match api_manual_assign backend n p with
      | HttpOk (Some r) => Some (ap_month p, r)
      | _ => None
      end
  | POST_manual_unassign p =>
      match api_manual_unassign backend n p with
      | HttpOk (Some r) => Some (up_month p, r)
      | _ => None
      end
  | POST_manual_move p =>
      match api_manual_move backend n p with
      | HttpOk (Some r) => Some (mp_month p, r)
      | _ => None
      end
  | _ => None
  end.

(** Handling a sequence of events, one after the other. *)
Fixpoint handleAll (evs : list Event) (w : World) : World :=
  match evs with
  | [] => w
  | ev :: rest => handleAll rest (snd (handle ev w))
  end.

(** From [w] to [w'] requests were only added, and the cached entry of
    [month] is either the same or the result of a mutation of that month
    which the backend confirmed in between. *)
Definition cacheStep (month : string) (w w' : World) : Prop :=
  (∃ rest, sent w' = sent w ++ rest)
  ∧ (scheduleCache w' !! month = scheduleCache w !! month
     ∨ ∃ n req result,
         sent w' !! n = Some req ∧ (length (sent w) ≤ n)%nat
         ∧ mutationResult n req = Some (month, result)
         ∧ scheduleCache w' !! month = Some result).

(** *** Further notions used by the properties below *)

(** From [w] to [w'] requests were only added, and none of them asks for
    the schedule of [month]. *)
Definition quiet (month : string) (w w' : World) : Prop :=
  ∃ rest, sent w' = sent w ++ rest ∧ GET_schedule month ∉ rest.

(** *** Month keys, date strings and local dates *)

(** [s.padStart(n, c)] for a pad of one character. *)
Definition padStart (n : nat) (c : ascii) (s : string) : string :=
  string_of_list_ascii (replicate (n - String.length s) c) +:+ s.

(** [`${year}-${String(month).padStart(2,'0')}`], lines 180, 226, 272,
    288, 323, 428 and 433. *)
Definition monthKeyOf (year month : Z) : string :=
  Js.toString (Js.Int year) +:+ "-"
  +:+ padStart 2 "0" (Js.toString (Js.Int month)).

(** [`${year}-${...month...}-${String(d).padStart(2,'0')}`], lines 223
    and 444. *)
Definition dateStrOf (year month d : Z) : string :=
  monthKeyOf year month +:+ "-" +:+ padStart 2 "0" (Js.toString (Js.Int d)).

(** The year the [Date] constructor takes a year argument for: 0 .. 99
    stand for 1900 .. 1999. *)
Definition constructorYear (year : Z) : Z :=
  if (0 <=? year) && (year <=? 99) then 1900 + year else year.

(** The day number of [new Date(year, month - 1, d)], a local date: the
    month index is normalised into the year. *)
Definition localDayNumber (year month d : Z) : Z :=
  let mi := month - 1 in
  Js.daysFromCivil (constructorYear year + mi / 12) (mi mod 12 + 1) 1 + d - 1.

(** [new Date(year, month - 1, d).getDay()], lines 210, 219 and 402. *)
Definition localGetDay (year month d : Z) : Z :=
  (localDayNumber year month d + 4) mod 7.

(** [new Date(year, month, 0).getDate()], line 211: the last day of the
    month. *)
Definition lastDateOf (year month : Z) : Z :=
  let mi := month - 1 in
  Js.daysInMonth (constructorYear year + mi / 12) (mi mod 12 + 1).

(** The text of a year of four digits, and of a padded month or day. *)
Definition fourDigits (y : Z) : bool :=
  match list_ascii_of_string (Js.toString (Js.Int y)) with
  | [a; b; c; d] => bool_decide (Js.digitsValue 0 [a; b; c; d] = Some y)
  | _ => false
  end.

Definition twoDigits (v : Z) : bool :=
  match list_ascii_of_string (padStart 2 "0" (Js.toString (Js.Int v))) with
  | [a; b] => bool_decide (Js.digitsValue 0 [a; b] = Some v)
  | _ => false
  end.

(** *** The calendar editor: navigation and grid *)

(** [editingHospital], [editingYear], [editingMonth]. *)
Record Editing : Type := mkEditing {
  editingHospital : option string;
  editingYear : Z;
  editingMonth : Z;
}.

(** Lines 426 and 431: the month shown after the previous and the next
    button. *)
Definition prevMonth (e : Editing) : Editing :=
  if editingMonth e =? 1
  then mkEditing (editingHospital e) (editingYear e - 1) 12
  else mkEditing (editingHospital e) (editingYear e) (editingMonth e - 1).

Definition nextMonth (e : Editing) : Editing :=
  if editingMonth e =? 12
  then mkEditing (editingHospital e) (editingYear e + 1) 1
  else mkEditing (editingHospital e) (editingYear e) (editingMonth e + 1).

(** The click handlers of [calPrev] and [calNext], lines 425-434: the
    month changes and its schedule is looked up before the grid is drawn
    again. *)
Definition calPrev (e : Editing) : M Editing :=
  let e' := prevMonth e in
  fetchSchedule (monthKeyOf (editingYear e') (editingMonth e')) ;;
  ret e'.

Definition calNext (e : Editing) : M Editing :=
  let e' := nextMonth e in
  fetchSchedule (monthKeyOf (editingYear e') (editingMonth e')) ;;
  ret e'.

(** The loop of [renderCalendar] that lays the days out, lines 222 and
    386-393: [n] days are left, [d] is the next one, [row] the row being
    filled; a cell is a blank or a day. *)
Fixpoint fillRows (first : Z) (n : nat) (d : Z) (row : list (option Z))
    : list (list (option Z)) :=
  match n with
  | O => match row with [] => [] | _ :: _ => [row] end
  | S n' =>
      let row' := row ++ [Some d] in
      if Z.rem (first + d) 7 =? 0
      then row' :: fillRows first n' (d + 1) []
      else fillRows first n' (d + 1) row'
  end.

(** The rows of day cells of [renderCalendar], lines 217-222 and 386-393
    (the weekday header is not included). *)
Definition calendarRows (year month : Z) : list (list (option Z)) :=
  let first := localGetDay year month 1 in
  fillRows first (Z.to_nat (lastDateOf year month)) 1
    (replicate (Z.to_nat first) None).

(** *** The calendar editor: day cells, bulk setters and save *)

(** [parseInt(s, 10)]: leading white space is skipped, then an optional
    sign, then the longest run of decimal digits is read; no digit gives
    [NaN].  White space is the ASCII set and the other code points of
    [StrWhiteSpaceChar] in their UTF-8 form. *)
Definition isAsciiWhiteSpace (c : ascii) : bool :=
  let n := nat_of_ascii c in
  ((9 <=? n) && (n <=? 13) || (n =? 32))%nat.

Fixpoint skipWhiteSpace (cs : list ascii) : list ascii :=
  match cs with
  | [] => []
  | c1 :: t1 =>
      if isAsciiWhiteSpace c1 then skipWhiteSpace t1
      else
        match t1 with
        | [] => cs
        | c2 :: t2 =>
            let n1 := nat_of_ascii c1 in
            let n2 := nat_of_ascii c2 in
            if ((n1 =? 194) && (n2 =? 160))%nat then skipWhiteSpace t2
            else
              match t2 with
              | [] => cs
              | c3 :: t3 =>
                  let n3 := nat_of_ascii c3 in
                  if ((n1 =? 225) && (n2 =? 154) && (n3 =? 128)
                      || (n1 =? 226) && (n2 =? 128)
                         && ((128 <=? n3) && (n3 <=? 138)
                             || (n3 =? 168) || (n3 =? 169) || (n3 =? 175))
                      || (n1 =? 226) && (n2 =? 129) && (n3 =? 159)
                      || (n1 =? 227) && (n2 =? 128) && (n3 =? 128)
                      || (n1 =? 239) && (n2 =? 187) && (n3 =? 191))%nat
                  then skipWhiteSpace t3
                  else cs
              end
        end
  end.

Definition isDigit (c : ascii) : bool :=
  match Js.digitOf c with Some _ => true | None => false end.

Fixpoint digitPrefix (cs : list ascii) : list ascii :=
  match cs with
  | c :: cs' => if isDigit c then c :: digitPrefix cs' else []
  | [] => []
  end.

Definition parseInt10 (s : string) : Js.Num :=
  let cs := skipWhiteSpace (list_ascii_of_string s) in
  let '(negative, rest) :=
    match cs with
    | c :: cs' =>
        if Ascii.eqb c "-"%char then (true, cs')
        else if Ascii.eqb c "+"%char then (false, cs')
        else (false, cs)
    | [] => (false, [])
    end in
  match digitPrefix rest with
  | [] => Js.NaN
  | ds =>
      match Js.digitsValue 0 ds with
      | Some v => Js.Int (if negative : bool then - v else v)
      | None => Js.NaN
      end
  end.

(** [isNaN(v) ? 0 : v], lines 406 and 446. *)
Definition zeroIfNaN (v : Js.Num) : Z :=
  match v with Js.NaN => 0 | Js.Int z => z end.

(** [text || '0'], lines 405 and 445. *)
Definition orZeroText (text : string) : string :=
  if String.eqb text "" then "0" else text.

(** A day cell of the grid: the text of its [cal-day-label] and the value
    of its [cal-day-input]. *)
Record DayCell : Type := mkDayCell {
  cal_day_label : string;
  cal_day_input : string;
}.

(** The value [renderCalendar] gives the input of day [d], line 270;
    [obj] is [currentCfg[editingHospital]]. *)
Definition renderedValue (obj : option (gmap string Z)) (year month d : Z)
    : string :=
  Js.toString (Js.Int (default 0 (o ← obj; o !! dateStrOf year month d))).

(** The day cells of the grid in document order, lines 222 and 269-274:
    the label of day [d] is [String(d)], the input holds [value d]
    ([renderedValue] until the user edits it). *)
Definition dayCells (year month : Z) (value : Z -> string) : list DayCell :=
  (fun d => mkDayCell (Js.toString (Js.Int d)) (value d))
    <$> seqZ 1 (lastDateOf year month).

(** [new Date(editingYear, editingMonth-1, d).getDay()] for the parsed
    label [d], line 402. *)
Definition localGetDayOf (year month : Z) (d : Js.Num) : Js.Num :=
  match d with
  | Js.NaN => Js.NaN
  | Js.Int z => Js.Int (localGetDay year month z)
  end.

(** [weekdayArray.includes(n)] *)
Definition includes (weekdayArray : list Z) (n : Js.Num) : bool :=
  match n with
  | Js.NaN => false
  | Js.Int z => bool_decide (z ∈ weekdayArray)
  end.

(** [bulkSetForWeekdays], lines 397-409; [bulkValue] is the value of the
    [bulk-value] input. *)
Definition bulkSetForWeekdays (year month : Z) (weekdayArray : list Z)
    (bulkValue : string) (cells : list DayCell) : list DayCell :=
  (fun cell =>
     let d := parseInt10 (cal_day_label cell) in
     if includes weekdayArray (localGetDayOf year month d)
     then
       let v := parseInt10 (orZeroText bulkValue) in
       mkDayCell (cal_day_label cell) (Js.toString (Js.Int (zeroIfNaN v)))
     else cell) <$> cells.

(** [bulkClearAll], lines 411-417. *)
Definition bulkClearAll (cells : list DayCell) : list DayCell :=
  (fun cell => mkDayCell (cal_day_label cell) (Js.toString (Js.Int 0)))
    <$> cells.

(** The arrays of the buttons [bulk-tue], [bulk-weekdays] and [bulk-sat],
    lines 420-422. *)
Definition bulkTue : list Z := [2].
Definition bulkWeekdays : list Z := [1; 2; 3; 4; 5].
Definition bulkSat : list Z := [6].

(** The date key [calSave] writes for the parsed label [d], line 444. *)
Definition dateStrOfNum (year month : Z) (d : Js.Num) : string :=
  monthKeyOf year month +:+ "-" +:+ padStart 2 "0" (Js.toString d).

(** One round of the loop of [calSave], lines 440-447, on the object
    [currentCfg[editingHospital]]. *)
Definition calSaveCell (year month : Z) (obj : gmap string Z)
    (cell : DayCell) : gmap string Z :=
  let d := parseInt10 (cal_day_label cell) in
  let val := parseInt10 (orZeroText (cal_day_input cell)) in
  <[dateStrOfNum year month d := zeroIfNaN val]> obj.

(** The loop of [calSave], lines 439-447: what the object
    [currentCfg[editingHospital]] holds afterwards; a missing object
    starts as [{}]. *)
Definition calSaveObject (year month : Z) (cells : list DayCell)
    (obj : gmap string Z) : gmap string Z :=
  foldl (calSaveCell year month) obj cells.

(** *** The hospital table: what [saveConfig] sends *)

(** A row of the table: [tr.dataset.origName || ''] and the trimmed value
    of its name input. *)
Record TableRow : Type := mkTableRow {
  origName : string;
  nameInput : string;
}.

(** One round of the loop of [saveConfig], lines 141-153. *)
Definition saveRow (cur newCfg : Config) (tr : TableRow) : Config :=
  let name := nameInput tr in
  let orig := origName tr in
  if String.eqb name "" then newCfg
  else
    match (if String.eqb orig "" then None else cur !! orig) with
    | Some o => <[name := o]> newCfg
    | None =>
        match cur !! name with
        | Some o => <[name := o]> newCfg
        | None => <[name := ∅]> newCfg
        end
    end.

(** What a row contributes under its name: the entries kept under the
    original name, else those under the new name, else none. *)
Definition rowEntry (cur : Config) (tr : TableRow) : gmap string Z :=
  match (if String.eqb (origName tr) "" then None else cur !! origName tr) with
  | Some o => o
  | None => default ∅ (cur !! nameInput tr)
  end.

(** [newCfg] of [saveConfig], lines 139-154: the configuration that
    replaces [currentCfg] and is sent to the backend. *)
Definition newCfgOf (cur : Config) (rows : list TableRow) : Config :=
  foldl (saveRow cur) ∅ rows.

(** *** Selecting a resident, opening and closing the calendar *)

Definition set_residentHighlight
    (f : option Highlight -> option Highlight) (w : World) : World :=
  mkWorld (currentCfg w) (scheduleCache w) (residentsCache w)
    (f (residentHighlight w)) (currentDragMeta w) (lastChanges w)
    (maxAssignmentsValue w) (sent w) (notices w).

Definition set_currentCfg (f : Config -> Config) (w : World) : World :=
  mkWorld (f (currentCfg w)) (scheduleCache w) (residentsCache w)
    (residentHighlight w) (currentDragMeta w) (lastChanges w)
    (maxAssignmentsValue w) (sent w) (notices w).

(** [found ? (found.ng_dates || []) : []] *)
Definition ngDatesOf (found : option Resident) : list string :=
  match found with
  | Some r => ng_dates r
  | None => []
  end.

(** The click handler of an assigned name in the table, lines 655-662.
    The second [fetchResidents] is the one [highlightPreviewTargets]
    starts at line 781, before the message is shown; what it marks in
    the table is [highlightMark]. *)
Definition selectResident (monthKey residentName : string) : M unit :=
  rs <- fetchResidents monthKey ;;
  let found := findResident rs residentName in
  modify (set_residentHighlight
            (fun _ => Some (mkHighlight residentName monthKey
                              (ngDatesOf found)))) ;;
  fetchResidents monthKey ;;
  showMessage (residentName
               +:+ " を選択しました。移動可能箇所がハイライトされます。")
    "info".

(** [closeCalendar], lines 189-193. *)
Definition closeCalendar (e : Editing) : M Editing :=
  modify (set_residentHighlight (fun _ => None)) ;;
  ret (mkEditing None (editingYear e) (editingMonth e)).

(** [openCalendar], lines 172-187; [nowYear] and [nowMonth] are
    [now.getFullYear()] and [now.getMonth() + 1]. *)
Definition openCalendar (hospital : string) (nowYear nowMonth : Z)
    (e : Editing) : M Editing :=
  if String.eqb hospital ""
  then
    showMessage "病院名を指定してください" "error" ;;
    ret (mkEditing (Some "") (editingYear e) (editingMonth e))
  else
    modify (set_currentCfg
              (fun cfg =>
                 match cfg !! hospital with
                 | Some _ => cfg
                 | None => <[hospital := ∅]> cfg
                 end)) ;;
    fetchSchedule (monthKeyOf nowYear nowMonth) ;;
    ret (mkEditing (Some hospital) nowYear nowMonth).

(** Whether [renderCalendar] gives the cell of day [d] the class
    [ng-day], lines 225-230. *)
Definition ngDayClassOf (hl : option Highlight) (year month d : Z) : bool :=
  match hl with
  | None => false
  | Some h =>
      String.eqb (hl_month h) (monthKeyOf year month)
      && bool_decide (dateStrOf year month d ∈ hl_ng_dates h)
  end.

(** *** Sample inputs of the calendar and the table *)

(** The calendar of the university hospital as the user left it: 3 typed
    into the 8th, every other input emptied. *)
Definition sampleInputs (d : Z) : string :=
  if d =? 8 then "3" else "".

(** The table after General was renamed to Clinic. *)
Definition sampleRows : list TableRow :=
  [mkTableRow "General" "Clinic"; mkTableRow "大学病院" "大学病院"].

(** ** Properties *)

(** *** Numbers and dates *)

Lemma orElse_zero (v : Z) : Js.orElse (Js.Int v) 0 = v.
Proof.
  unfold Js.orElse. destruct (Z.eqb_spec v 0) as [->|]; reflexivity.
Qed.

Lemma getDay_range (date : string) (n : Z) :
  Js.getDay utcOffset date = Js.Int n → 0 <= n < 7.
Proof.
  unfold Js.getDay. destruct (Js.parseIsoDate date) as [[[y m] d]|]; [|discriminate].
  intros [= <-]. apply Z.mod_pos_bound. lia.
Qed.

Lemma weekdayOf_native (date : string) (n : Z) :
  Js.getDay utcOffset date = Js.Int n →
  weekdayOf date = Js.Int (spec_weekdayOf n).
Proof.
  intros Hd. pose proof (getDay_range _ _ Hd) as Hr.
  unfold weekdayOf, spec_weekdayOf. rewrite Hd. simpl.
  f_equal. apply Z.rem_mod_nonneg; lia.
Qed.





Lemma capacityOf_entries (cfgAll : Config) (hosp date : string) :
  capacityOf cfgAll hosp date =
    match configEntry cfgAll hosp date with
    | Some c => c
    | None =>
        default 0 (configEntry cfgAll hosp (Js.toString (weekdayOf date)))
    end.
Proof.
  unfold capacityOf, configEntry.
  destruct (cfgAll !! hosp) as [cfg|]; simpl.
  - destruct (cfg !! date) as [v|]; [apply orElse_zero|].
    destruct (cfg !! Js.toString (weekdayOf date)) as [v|]; simpl;
      [apply orElse_zero|reflexivity].
  - rewrite !lookup_empty. reflexivity.
Qed.


(** *** The [max-assignments] fallback *)

Lemma uiMaxOf_fallback (value : option string) :
  value = None ∨ value = Some "" ∨
    (∃ s, value = Some s ∧ Js.Number s = Js.Int 0) →
  uiMaxOf value = 2.
Proof.
  intros [->|[->|(s & -> & Hs)]]; [reflexivity..|].
  unfold uiMaxOf, numberOfFieldOr.
  destruct (String.eqb s ""); [reflexivity|]. rewrite Hs. reflexivity.
Qed.

(** *** Running handlers *)

Lemma app_self_inv {A} (l rest : list A) : l = l ++ rest → rest = [].
Proof. intros H. apply (app_inv_head l). by rewrite app_nil_r. Qed.

Ltac unfold_handler :=
  unfold bind, ret, throw, tryCatch, getWorld, modify, fetch, withResponse,
    storeResult, cachePut, showMessage, showInlineError, pushChange,
    popChange, unboundIdentifier, notify, sending, stored in *.

Lemma fetchSchedule_cached (month : string) (s : Schedule) (w : World) :
  scheduleCache w !! month = Some s →
  fetchSchedule month w = (Val (Some s), w).
Proof. intros H. unfold fetchSchedule. unfold_handler. by rewrite H. Qed.

Lemma fetchSchedule_miss (month : string) (w : World) :
  scheduleCache w !! month = None →
  fetchSchedule month w
  = (Val (match api_schedule backend (length (sent w)) month with
          | HttpOk data => data
          | _ => Some errorSentinel
          end),
     fetchedWorld month w).
Proof.
  intros H. unfold fetchSchedule, fetchedWorld. unfold_handler. rewrite H.
  simpl. destruct (api_schedule backend (length (sent w)) month)
    as [| | |[d|]]; reflexivity.
Qed.

Lemma ensureSchedule_run (month : string) (w : World) :
  ensureSchedule month w = (Val tt, ensuredWorld month w).
Proof.
  unfold ensureSchedule, ensuredWorld. unfold bind at 1. unfold getWorld.
  destruct (scheduleCache w !! month) eqn:E; [reflexivity|].
  unfold bind. rewrite (fetchSchedule_miss _ _ E). reflexivity.
Qed.

Lemma fetchResidents_run (month : string) (w : World) :
  fetchResidents month w
  = (Val (fst (residentsLookup month w)), snd (residentsLookup month w)).
Proof.
  unfold fetchResidents, residentsLookup. unfold_handler.
  destruct (residentsCache w !! month); [reflexivity|]. simpl.
  destruct (api_residents backend (length (sent w)) month); reflexivity.
Qed.

Lemma fetchIsHoliday_run (date : string) (w : World) :
  fetchIsHoliday date w
  = (Val (holidayAnswer (api_is_holiday backend (length (sent w)) date)),
     sending (GET_is_holiday date) w).
Proof. reflexivity. Qed.

Lemma assignClick_run (dateIso residentName month hosp : string) (w : World) :
  let maxA := uiMaxOf (maxAssignmentsValue w) in
  let payload := mkAssignPayload month dateIso residentName hosp (Js.Int maxA) in
  let w1 := sending (POST_manual_assign payload) w in
  assignClick dateIso residentName month hosp w
  = (Val tt,
     if capExceeded (currentCount (scheduleCache w) month residentName)
          (assignedOnDate (scheduleCache w) month dateIso residentName) maxA
     then notify (capMessage maxA) "assign-error" w
     else
       match api_manual_assign backend (length (sent w)) payload with
       | NetworkError m | BadJson m => notify ("割当エラー: " +:+ m) "error" w1
       | HttpError txt => notify ("割当失敗: " +:+ txt) "assign-error" w1
       | HttpOk data =>
           ensuredWorld month
             (notify "割当を保存しました" "success"
                (set_lastChanges
                   (fun l => l ++ [ChAssign month dateIso residentName hosp])
                   (stored month data w1)))
       end).
Proof.
  intros maxA payload w1. unfold assignClick. unfold_handler. simpl.
  fold maxA payload.
  destruct (capExceeded _ _ _); [reflexivity|].
  destruct (api_manual_assign backend (length (sent w)) payload)
    as [m|t|m|[r|]]; simpl; try reflexivity; by rewrite ensureSchedule_run.
Qed.

Lemma unassignClick_run (dateIso residentName month : string)
    (hs : list string) (w : World) :
  let payload := mkUnassignPayload month dateIso residentName in
  let w1 := sending (POST_manual_unassign payload) w in
  unassignClick dateIso residentName month hs w
  = (Val tt,
     match api_manual_unassign backend (length (sent w)) payload with
     | NetworkError m | BadJson m =>
         notify ("削除エラー: " +:+ m) "assign-error" w1
     | HttpError txt => notify ("削除失敗: " +:+ txt) "assign-error" w1
     | HttpOk data =>
         notify "予定を削除しました" "success"
           (set_lastChanges
              (fun l => l ++ [ChUnassign month dateIso residentName hs])
              (stored month data w1))
     end).
Proof.
  intros payload w1. unfold unassignClick. unfold_handler. simpl.
  fold payload.
  destruct (api_manual_unassign backend (length (sent w)) payload)
    as [m|t|m|[r|]]; reflexivity.
Qed.

Lemma calendarMoveClick_run (monthKey : string) (meta : DragMeta)
    (targetDate hosp : string) (w : World) :
  let maxA := uiMaxOf (maxAssignmentsValue w) in
  let payload :=
    mkMovePayload monthKey (resident meta) (from_date meta)
      (from_hospital meta) targetDate (Some hosp) (Js.Int maxA) in
  let w1 := sending (POST_manual_move payload) w in
  calendarMoveClick monthKey meta targetDate hosp w
  = (Val tt,
     match api_manual_move backend (length (sent w)) payload with
     | NetworkError m | BadJson m => notify ("移動エラー: " +:+ m) "error" w1
     | HttpError t => notify ("移動失敗: " +:+ t) "error" w1
     | HttpOk data =>
         notify "移動しました" "success"
           (set_lastChanges
              (fun l => l ++ [ChMove monthKey (resident meta) (from_date meta)
                                (from_hospital meta) targetDate hosp])
              (stored monthKey data w1))
     end).
Proof.
  intros maxA payload w1. unfold calendarMoveClick. unfold_handler. simpl.
  fold maxA payload.
  destruct (api_manual_move backend (length (sent w)) payload)
    as [m|t|m|[r|]]; reflexivity.
Qed.

(** The table drop never gets past line 701. *)
Lemma tableDrop_run (monthKey d h : string) (w : World) :
  tableDrop monthKey d h w
  = (Val tt,
     match currentDragMeta w with
     | None => w
     | Some meta =>
         if String.eqb (from_date meta) d
            && bool_decide (from_hospital meta = Some h)
         then notify "同じ場所です" "error" w
         else
           let (rs, w1) := residentsLookup monthKey w in
           match findResident rs (resident meta) with
           | Some r =>
               if bool_decide (d ∈ ng_dates r)
               then notify "NG日にはドロップできません" "error" w1
               else notify "移動処理エラー: sched is not defined" "error" w1
           | None => notify "移動処理エラー: sched is not defined" "error" w1
           end
     end).
Proof.
  unfold tableDrop. unfold bind at 1. unfold getWorld.
  destruct (currentDragMeta w) as [meta|]; [|reflexivity].
  destruct (_ && _); [reflexivity|].
  unfold bind at 1. rewrite fetchResidents_run.
  destruct (residentsLookup monthKey w) as [rs w1]. simpl.
  destruct (findResident rs (resident meta)) as [r|];
    [destruct (bool_decide (d ∈ ng_dates r))|]; reflexivity.
Qed.

Lemma calendarDrop_run (monthKey dateStr : string) (ngDayClass : bool)
    (raw : option DragMeta) (w : World) :
  calendarDrop monthKey dateStr ngDayClass raw w
  = match residentHighlight w with
    | None => (Val None, w)
    | Some hl =>
        if ngDayClass || bool_decide (dateStr ∈ hl_ng_dates hl)
        then (Val None, notify "NG日にはドロップできません" "error" w)
        else
          match raw with
          | None => (Val None, w)
          | Some meta =>
              if String.eqb (from_date meta) dateStr
              then (Val None, notify "同じ日への移動です" "error" w)
              else
                let w1 := ensuredWorld monthKey w in
                let sched :=
                  default emptyObject (scheduleCache w1 !! monthKey) in
                let isHoliday :=
                  holidayAnswer
                    (api_is_holiday backend (length (sent w1)) dateStr) in
                let w2 := sending (GET_is_holiday dateStr) w1 in
                match dropCandidates (currentCfg w1) sched
                        (hospitalsFor sched (currentCfg w1)) dateStr
                        (resident meta) isHoliday with
                | [] =>
                    (Val None,
                     notify "移動先に空きスロットがありません" "error" w2)
                | c :: cs =>
                    (Val (Some (mkMoveModal monthKey meta dateStr (c :: cs))),
                     w2)
                end
          end
    end.
Proof.
  unfold calendarDrop. unfold bind at 1. unfold getWorld.
  destruct (residentHighlight w) as [hl|]; [|reflexivity].
  destruct (_ || _); [reflexivity|].
  destruct raw as [meta|]; [|reflexivity].
  unfold tryCatch.
  destruct (String.eqb (from_date meta) dateStr); [reflexivity|].
  unfold bind at 1. rewrite ensureSchedule_run.
  unfold bind at 1. unfold getWorld.
  unfold bind at 1. rewrite fetchIsHoliday_run.
  destruct (dropCandidates _ _ _ _ _ _); reflexivity.
Qed.

Lemma openAssignModal_run (dateIso residentName month : string) (w : World) :
  openAssignModal dateIso residentName month w
  = let w1 := ensuredWorld month w in
    let sched := default emptyObject (scheduleCache w1 !! month) in
    let hosps := hospitalsFor sched (currentCfg w1) in
    match hosps with
    | [] => (Val None, notify "病院リストが取得できません" "error" w1)
    | _ :: _ =>
        let isHoliday :=
          holidayAnswer (api_is_holiday backend (length (sent w1)) dateIso) in
        let w2 := sending (GET_is_holiday dateIso) w1 in
        match dialogCandidates (currentCfg w1) sched hosps dateIso isHoliday,
              assignedHospitalsOn sched dateIso residentName with
        | [], [] =>
            (Val None, notify "該当日の残スロットがありません" "error" w2)
        | candidates, assignedHospitals =>
            (Val (Some (mkAssignModal candidates assignedHospitals)), w2)
        end
    end.
Proof.
  unfold openAssignModal. unfold bind at 1. rewrite ensureSchedule_run.
  unfold bind at 1. unfold getWorld. simpl.
  destruct (hospitalsFor _ _) as [|h0 hs]; [reflexivity|].
  unfold bind at 1. rewrite fetchIsHoliday_run.
  destruct (dialogCandidates _ _ _ _ _), (assignedHospitalsOn _ _ _);
    reflexivity.
Qed.

(** *** The local cap check of assign *)

Lemma objectKeys_elem {A} (o : gmap string A) (k : string) :
  k ∈ objectKeys o ↔ is_Some (o !! k).
Proof.
  unfold objectKeys. rewrite list_elem_of_fmap. split.
  - intros ([k' v] & -> & Hin). apply elem_of_map_to_list in Hin. eauto.
  - intros [v Hv]. exists (k, v). split; [reflexivity|].
    by apply elem_of_map_to_list.
Qed.

Lemma assignedOnDate_spec (cache : gmap string Schedule)
    (month dateIso res : string) :
  assignedOnDate cache month dateIso res = true
  ↔ ∃ hh, res ∈ assignedAt (default emptyObject (cache !! month)) dateIso hh.
Proof.
  unfold assignedOnDate, assignedAt.
  destruct (cache !! month) as [s|]; simpl.
  2:{ split; [discriminate|]. intros [hh Hin]. by apply not_elem_of_nil in Hin. }
  destruct (assignments s) as [a|]; simpl.
  2:{ split; [discriminate|]. intros [hh Hin]. by apply not_elem_of_nil in Hin. }
  destruct (a !! dateIso) as [day|]; simpl.
  2:{ split; [discriminate|]. intros [hh Hin]. by apply not_elem_of_nil in Hin. }
  rewrite existsb_exists. split.
  - intros (hh & _ & Hb). exists hh. by apply bool_decide_eq_true in Hb.
  - intros (hh & Hin). exists hh. split; [|by apply bool_decide_eq_true].
    apply list_elem_of_In, objectKeys_elem.
    destruct (day !! hh); [eauto|]. by apply not_elem_of_nil in Hin.
Qed.

Lemma currentCount_spec (cache : gmap string Schedule) (month res : string) :
  currentCount cache month res
  = default 0 (c ← per_res_counts (default emptyObject (cache !! month));
               c !! res).
Proof.
  unfold currentCount.
  destruct (cache !! month) as [s|]; simpl.
  - destruct (per_res_counts s) as [c|]; simpl.
    + destruct (c !! res); [apply orElse_zero|reflexivity].
    + rewrite lookup_empty. reflexivity.
  - rewrite lookup_empty. reflexivity.
Qed.

Lemma ensuredWorld_sent (month : string) (w : World) :
  ∃ rest, sent (ensuredWorld month w) = sent w ++ rest.
Proof.
  unfold ensuredWorld, fetchedWorld.
  destruct (scheduleCache w !! month).
  - exists []. by rewrite app_nil_r.
  - exists [GET_schedule month].
    destruct (api_schedule backend (length (sent w)) month) as [| | |[d|]];
      reflexivity.
Qed.

(** C5.  The assign click fails with the cap message, and without any
    request, exactly when
    [currentTotal - (alreadyOnThisDate ? 1 : 0) + 1 > max], where
    [currentTotal] is the resident's entry of [per_res_counts] in the
    cached schedule (0 without one) and [alreadyOnThisDate] holds iff the
    resident is in some hospital's list on the date; otherwise the assign
    request goes out.  With a cap of 2, two assignments in the month and
    none on the date, it fails before any request.  The cap is the one
    read from the limit field, which is taken to be absent, empty or an
    integer numeral. *)
Theorem assign_cap_check (dateIso residentName month hosp : string) (w : World) :
  integerField (maxAssignmentsValue w) = true →
  let sched := default emptyObject (scheduleCache w !! month) in
  let currentTotal := default 0 (c ← per_res_counts sched; c !! residentName) in
  let alreadyOnThisDate :=
    assignedOnDate (scheduleCache w) month dateIso residentName in
  let maxA := uiMaxOf (maxAssignmentsValue w) in
  let capFailure := (Val tt, notify (capMessage maxA) "assign-error" w) in
  let request :=
    POST_manual_assign
      (mkAssignPayload month dateIso residentName hosp (Js.Int maxA)) in
  (alreadyOnThisDate = true
   ↔ ∃ hh, residentName ∈ assignedAt sched dateIso hh)
  ∧ (currentTotal - (if alreadyOnThisDate then 1 else 0) + 1 > maxA →
     assignClick dateIso residentName month hosp w = capFailure)
  ∧ (¬ currentTotal - (if alreadyOnThisDate then 1 else 0) + 1 > maxA →
     ∃ rest,
       sent (snd (assignClick dateIso residentName month hosp w))
       = sent w ++ request :: rest)
  ∧ (maxA = 2 → currentTotal = 2 → alreadyOnThisDate = false →
     assignClick dateIso residentName month hosp w = capFailure).
Proof.
  intros _ sched currentTotal alreadyOnThisDate maxA capFailure request.
  split; [apply assignedOnDate_spec|].
  assert (Hrun :
    (currentTotal - (if alreadyOnThisDate then 1 else 0) + 1 > maxA →
     assignClick dateIso residentName month hosp w = capFailure)
    ∧ (¬ currentTotal - (if alreadyOnThisDate then 1 else 0) + 1 > maxA →
       ∃ rest,
         sent (snd (assignClick dateIso residentName month hosp w))
         = sent w ++ request :: rest)).
  { rewrite assignClick_run. rewrite currentCount_spec.
    fold sched currentTotal alreadyOnThisDate maxA. unfold capExceeded.
    destruct (Z.ltb_spec maxA
                (currentTotal - (if alreadyOnThisDate then 1 else 0) + 1))
      as [Hlt|Hge].
    - split; [reflexivity|]. intros Hn. lia.
    - split; [intros Hn; lia|]. intros _. simpl.
      destruct (api_manual_assign backend (length (sent w)) _)
        as [m|t|m|data]; try (exists []; reflexivity).
      match goal with
      | |- context [ensuredWorld ?mo ?w1] =>
          destruct (ensuredWorld_sent mo w1) as [rest Hrest]
      end.
      exists rest. rewrite Hrest. destruct data; simpl;
        by rewrite <- app_assoc. }
  destruct Hrun as [H1 H2].
  split; [exact H1|]. split; [exact H2|].
  intros Hm Ht Hf. apply H1. rewrite Hf, Hm, Ht. lia.
Qed.

(** *** The [max_assignments] that is sent *)

(** Whatever the world and the backend, the table drop issues at most the
    residents lookup. *)
Lemma tableDrop_no_move (monthKey d h : string) (w : World) :
  ∃ rest,
    sent (snd (tableDrop monthKey d h w)) = sent w ++ rest
    ∧ (rest = [] ∨ rest = [GET_residents monthKey]).
Proof.
  rewrite tableDrop_run. simpl.
  destruct (currentDragMeta w) as [meta|];
    [|exists []; split; [by rewrite app_nil_r|by left]].
  destruct (_ && _); [exists []; split; [by rewrite app_nil_r|by left]|].
  unfold residentsLookup.
  destruct (residentsCache w !! monthKey) as [l|].
  - exists []. split; [|by left].
    destruct (findResident _ _) as [r|];
      [destruct (bool_decide _)|]; simpl; by rewrite app_nil_r.
  - exists [GET_residents monthKey]. split; [|by right].
    destruct (api_residents backend (length (sent w)) monthKey);
      destruct (findResident _ _) as [r|]; try destruct (bool_decide _);
      reflexivity.
Qed.

(** C10.  For a limit field that is absent, empty or an integer numeral:
    the limit is 2 whenever the field is absent, empty or reads as 0; it
    is this limit that the local cap check of the dialog compares
    against, and that the assign request of the dialog and the move
    requests of the calendar and of the table carry. *)
Theorem max_assignments_default (w : World) :
  integerField (maxAssignmentsValue w) = true →
  let maxA := uiMaxOf (maxAssignmentsValue w) in
  ((maxAssignmentsValue w = None ∨ maxAssignmentsValue w = Some "" ∨
    (∃ s, maxAssignmentsValue w = Some s ∧ Js.Number s = Js.Int 0)) →
   maxA = 2)
  ∧ uiMaxOf (Some "0") = 2
  ∧ (∀ dateIso residentName month hosp,
       capExceeded (currentCount (scheduleCache w) month residentName)
         (assignedOnDate (scheduleCache w) month dateIso residentName) maxA
       = true →
       assignClick dateIso residentName month hosp w
       = (Val tt, notify (capMessage maxA) "assign-error" w))
  ∧ (∀ dateIso residentName month hosp rest p,
       sent (snd (assignClick dateIso residentName month hosp w))
       = sent w ++ rest →
       POST_manual_assign p ∈ rest → ap_max_assignments p = Js.Int maxA)
  ∧ (∀ monthKey meta targetDate hosp rest p,
       sent (snd (calendarMoveClick monthKey meta targetDate hosp w))
       = sent w ++ rest →
       POST_manual_move p ∈ rest → mp_max_assignments p = Js.Int maxA)
  ∧ (∀ monthKey d h rest p,
       sent (snd (tableDrop monthKey d h w)) = sent w ++ rest →
       POST_manual_move p ∈ rest → mp_max_assignments p = Js.Int maxA).
Proof.
  intros _ maxA. split; [apply uiMaxOf_fallback|]. split; [reflexivity|].
  split; [|split; [|split]].
  - intros dateIso residentName month hosp Hcap.
    rewrite assignClick_run. fold maxA. by rewrite Hcap.
  - intros dateIso residentName month hosp rest p.
    rewrite assignClick_run. fold maxA. simpl.
    destruct (capExceeded _ _ _).
    { simpl. intros ->%app_self_inv Hin. by apply not_elem_of_nil in Hin. }
    set (payload := mkAssignPayload month dateIso residentName hosp (Js.Int maxA)).
    assert (Hcase : ∀ rest', rest = POST_manual_assign payload :: rest' →
              (∀ q, POST_manual_assign q ∉ rest') →
              POST_manual_assign p ∈ rest → ap_max_assignments p = Js.Int maxA).
    { intros rest' -> Hno Hin. apply elem_of_cons in Hin as [[= ->]|Hin];
        [reflexivity|]. by apply Hno in Hin. }
    destruct (api_manual_assign backend (length (sent w)) payload)
      as [m|t|m|data]; simpl.
    1-3: intros <-%app_inv_head; apply (Hcase []); [reflexivity|];
         intros q Hq; by apply not_elem_of_nil in Hq.
    unfold ensuredWorld, fetchedWorld.
    destruct data as [r|]; simpl.
    all: match goal with
         | |- context [match ?c with Some _ => _ | None => _ end] =>
             destruct c
         end; simpl.
    all: try (intros <-%app_inv_head; apply (Hcase []); [reflexivity|];
              intros q Hq; by apply not_elem_of_nil in Hq).
    all: (destruct (api_schedule backend _ month) as [| | |[dd|]]; simpl;
          rewrite <- app_assoc; intros <-%app_inv_head;
          (apply (Hcase [GET_schedule month]); [reflexivity|]);
          intros q Hq; apply list_elem_of_singleton in Hq; discriminate).
  - intros monthKey meta targetDate hosp rest p.
    rewrite calendarMoveClick_run. fold maxA. simpl.
    destruct (api_manual_move backend (length (sent w)) _) as [m|t|m|[r|]];
      simpl; intros <-%app_inv_head Hin;
      apply list_elem_of_singleton in Hin; by injection Hin as ->.
  - intros monthKey d h rest p Hs Hin.
    destruct (tableDrop_no_move monthKey d h w) as (rest' & Hs' & Hr).
    rewrite Hs' in Hs. apply app_inv_head in Hs. subst rest'.
    destruct Hr as [->| ->]; [by apply not_elem_of_nil in Hin|].
    apply list_elem_of_singleton in Hin. discriminate.
Qed.

(** *** Candidate hospitals and remaining slots *)


Lemma dropCandidates_elem (cfgAll : Config) (sched : Schedule)
    (hosps : list string) (date res : string) (holiday : bool)
    (h : string) (r : Z) :
  (h, r) ∈ dropCandidates cfgAll sched hosps date res holiday
  ↔ h ∈ hosps ∧ r = remainingAt cfgAll sched h date holiday
    ∧ (0 < r ∨ res ∈ assignedAt sched date h).
Proof.
  unfold dropCandidates. rewrite list_elem_of_omap. unfold occupies. split.
  - intros (x & Hx & Hf).
    destruct (Z.ltb_spec 0 (remainingAt cfgAll sched x date holiday));
      simpl in Hf.
    + injection Hf as -> <-. tauto.
    + destruct (bool_decide (res ∈ assignedAt sched date x)) eqn:Hb;
        [|discriminate].
      injection Hf as -> <-. apply bool_decide_eq_true in Hb. tauto.
  - intros (Hin & -> & Hc). exists h. split; [done|].
    destruct Hc as [Hpos|Hocc].
    + apply Z.ltb_lt in Hpos. by rewrite Hpos.
    + rewrite (bool_decide_eq_true_2 _ Hocc), orb_true_r. done.
Qed.

Lemma dialogCandidates_elem (cfgAll : Config) (sched : Schedule)
    (hosps : list string) (date : string) (holiday : bool)
    (h : string) (r : Z) :
  (h, r) ∈ dialogCandidates cfgAll sched hosps date holiday
  ↔ h ∈ hosps ∧ h ≠ "" ∧ r = remainingAt cfgAll sched h date holiday ∧ 0 < r.
Proof.
  unfold dialogCandidates. rewrite list_elem_of_omap. split.
  - intros (x & Hx & Hf).
    destruct (String.eqb_spec x ""); [discriminate|].
    destruct (Z.ltb_spec 0 (remainingAt cfgAll sched x date holiday));
      [|discriminate].
    injection Hf as -> <-. tauto.
  - intros (Hin & Hne & -> & Hpos). exists h. split; [done|].
    destruct (String.eqb_spec h ""); [done|].
    apply Z.ltb_lt in Hpos. by rewrite Hpos.
Qed.

Lemma assignedHospitalsOn_elem (sched : Schedule) (date res h : string) :
  h ∈ assignedHospitalsOn sched date res ↔ res ∈ assignedAt sched date h.
Proof.
  unfold assignedHospitalsOn, assignedAt.
  destruct (assignments sched) as [a|]; simpl;
    [|split; intros H; by apply not_elem_of_nil in H].
  destruct (a !! date) as [day|]; simpl;
    [|split; intros H; by apply not_elem_of_nil in H].
  rewrite list_elem_of_filter, objectKeys_elem. split; [tauto|].
  intros Hin. split; [done|].
  destruct (day !! h); [eauto|]. by apply not_elem_of_nil in Hin.
Qed.

Lemma fst_elem_of_pairs (l : list (string * Z)) (h : string) :
  h ∈ l.*1 ↔ ∃ r, (h, r) ∈ l.
Proof.
  rewrite list_elem_of_fmap. split.
  - intros ([h' r] & -> & Hin). eauto.
  - intros [r Hin]. exists (h, r). done.
Qed.

(** C2, as the code has it.  With the month cached: the chooser of a
    date-only drop lists a hospital exactly when its remaining count is
    positive or the resident is already in that slot; the assign dialog
    lists a hospital (with a non-empty name) exactly when its remaining
    count is positive, and collects the hospitals the resident already
    holds separately, for its delete button. *)
Theorem candidate_sets (monthKey date res : string) (sched : Schedule)
    (w : World) :
  scheduleCache w !! monthKey = Some sched →
  let holiday := holidayAnswer (api_is_holiday backend (length (sent w)) date) in
  let hosps := hospitalsFor sched (currentCfg w) in
  let remaining h := remainingAt (currentCfg w) sched h date holiday in
  (∀ hl meta,
     residentHighlight w = Some hl → date ∉ hl_ng_dates hl →
     from_date meta ≠ date → resident meta = res →
     ∃ cands,
       fst (calendarDrop monthKey date false (Some meta) w)
       = Val (match cands with
              | [] => None
              | _ :: _ => Some (mkMoveModal monthKey meta date cands)
              end)
       ∧ ∀ h, h ∈ cands.*1
              ↔ h ∈ hosps ∧ (0 < remaining h ∨ res ∈ assignedAt sched date h))
  ∧ (hosps ≠ [] →
     ∃ cands assigned,
       fst (openAssignModal date res monthKey w)
       = Val (match cands, assigned with
              | [], [] => None
              | _, _ => Some (mkAssignModal cands assigned)
              end)
       ∧ (∀ h, h ∈ cands.*1 ↔ h ∈ hosps ∧ h ≠ "" ∧ 0 < remaining h)
       ∧ (∀ h, h ∈ assigned ↔ res ∈ assignedAt sched date h)).
Proof.
  intros Hc holiday hosps remaining. split.
  - intros hl meta Hhl Hng Hfrom Hres.
    exists (dropCandidates (currentCfg w) sched hosps date res holiday).
    split.
    + rewrite calendarDrop_run, Hhl. simpl.
      rewrite bool_decide_eq_false_2 by done.
      destruct (String.eqb_spec (from_date meta) date); [done|].
      unfold ensuredWorld. rewrite Hc. simpl. rewrite Hc. simpl.
      fold hosps holiday. rewrite Hres.
      destruct (dropCandidates _ _ _ _ _ _); reflexivity.
    + intros h. rewrite fst_elem_of_pairs. split.
      * intros (r & Hin). apply dropCandidates_elem in Hin as (? & -> & ?).
        done.
      * intros (Hin & Hel). exists (remaining h).
        apply dropCandidates_elem. done.
  - intros Hne.
    exists (dialogCandidates (currentCfg w) sched hosps date holiday),
      (assignedHospitalsOn sched date res).
    split; [|split].
    + rewrite openAssignModal_run. unfold ensuredWorld. rewrite Hc. simpl.
      rewrite Hc. simpl. fold hosps holiday.
      destruct hosps as [|h0 hs] eqn:E; [done|]. rewrite <- E.
      destruct (dialogCandidates _ _ _ _ _), (assignedHospitalsOn _ _ _);
        reflexivity.
    + intros h. rewrite fst_elem_of_pairs. split.
      * intros (r & Hin). apply dialogCandidates_elem in Hin as (?&?& -> &?).
        done.
      * intros (Hin & Hn & Hpos). exists (remaining h).
        apply dialogCandidates_elem. done.
    + intros h. apply assignedHospitalsOn_elem.
Qed.


(** *** Undo *)

Lemma reassignAll_cons (month date res h : string) (rest : list string)
    (w : World) :
  let p := mkAssignPayload month date res h
             (undoMaxOf (maxAssignmentsValue w)) in
  let w1 := sending (POST_manual_assign p) w in
  reassignAll month date res (h :: rest) w
  = match api_manual_assign backend (length (sent w)) p with
    | NetworkError m | BadJson m => (Thrown (Error m), w1)
    | HttpError t => (Val false, notify ("再割当失敗: " +:+ t) "error" w1)
    | HttpOk jd => reassignAll month date res rest (stored month jd w1)
    end.
Proof.
  intros p w1. simpl. unfold_handler. simpl. fold p.
  destruct (api_manual_assign backend (length (sent w)) p) as [m|t|m|[r|]];
    reflexivity.
Qed.

(** The replay loop of an undone [unassign]: the hospitals are tried in
    order; [k] of them are tried, all but possibly the last with a
    confirmed answer, and the loop stops at the first answer that is not
    a confirmation. *)
Lemma reassignAll_spec (month date res : string) (hs : list string) :
  ∀ w : World,
    let n := length (sent w) in
    let request h :=
      mkAssignPayload month date res h (undoMaxOf (maxAssignmentsValue w)) in
    let out := reassignAll month date res hs w in
    ∃ k : nat,
      (k ≤ length hs)%nat
      ∧ sent (snd out)
        = sent w ++ ((fun h => POST_manual_assign (request h)) <$> take k hs)
      ∧ lastChanges (snd out) = lastChanges w
      ∧ (∀ i h, hs !! i = Some h → (S i < k)%nat →
           confirmed (api_manual_assign backend (n + i) (request h)) = true)
      ∧ match fst out with
        | Val true =>
            k = length hs
            ∧ (∀ i h, hs !! i = Some h →
                 confirmed (api_manual_assign backend (n + i) (request h))
                 = true)
            ∧ notices (snd out) = notices w
        | Val false =>
            (∃ i h, k = S i ∧ hs !! i = Some h
                    ∧ confirmed (api_manual_assign backend (n + i) (request h))
                      = false)
            ∧ ∃ text, last (notices (snd out)) = Some (text, "error")
        | Thrown e =>
            (∃ i h, k = S i ∧ hs !! i = Some h
                    ∧ confirmed (api_manual_assign backend (n + i) (request h))
                      = false)
            ∧ notices (snd out) = notices w
        end.
Proof.
  induction hs as [|h rest IH]; intros w n request out.
  - exists 0%nat. subst out. simpl.
    split_and!; try done; try lia. by rewrite app_nil_r.
  - subst out. rewrite reassignAll_cons. fold (request h).
    assert (Hfirst : ∀ r, api_manual_assign backend (length (sent w)) (request h) = r →
              confirmed (api_manual_assign backend (n + 0) (request h))
              = confirmed r).
    { intros r <-. by rewrite Nat.add_0_r. }
    destruct (api_manual_assign backend (length (sent w)) (request h))
      as [m|t|m|jd] eqn:Hresp; simpl.
    + exists 1%nat. split_and!; try done; try lia.
      exists 0%nat, h. by rewrite (Hfirst _ eq_refl).
    + exists 1%nat. split_and!; try done; try lia.
      * exists 0%nat, h. by rewrite (Hfirst _ eq_refl).
      * eexists. apply last_snoc.
    + exists 1%nat. split_and!; try done; try lia.
      exists 0%nat, h. by rewrite (Hfirst _ eq_refl).
    + set (w2 := stored month jd (sending (POST_manual_assign (request h)) w)).
      assert (Hs2 : sent w2 = sent w ++ [POST_manual_assign (request h)]).
      { subst w2. destruct jd; reflexivity. }
      assert (Hm2 : maxAssignmentsValue w2 = maxAssignmentsValue w).
      { subst w2. destruct jd; reflexivity. }
      assert (Hl2 : lastChanges w2 = lastChanges w).
      { subst w2. destruct jd; reflexivity. }
      assert (Hn2 : notices w2 = notices w).
      { subst w2. destruct jd; reflexivity. }
      destruct (IH w2) as (k & Hk & Hsent & Hlast & Hbefore & Hout).
      rewrite Hm2 in Hsent, Hbefore, Hout. fold request in Hsent, Hbefore, Hout.
      assert (Hlen : length (sent w2) = S n).
      { rewrite Hs2, length_app. simpl. subst n. lia. }
      rewrite Hlen in Hbefore, Hout. rewrite Hn2 in Hout.
      exists (S k). split; [simpl; lia|]. split.
      { rewrite Hsent, Hs2, <- app_assoc. reflexivity. }
      split; [by rewrite Hlast|]. split.
      { intros [|i] h' Hh' Hi; simpl in Hh'.
        - injection Hh' as <-. by rewrite (Hfirst _ eq_refl).
        - replace (n + S i)%nat with (S n + i)%nat by lia.
          apply Hbefore; [done|lia]. }
      destruct (fst (reassignAll month date res rest w2)) as [[|]|e].
      * destruct Hout as (-> & Hall & Hnot). split; [done|]. split; [|done].
        intros [|i] h' Hh'; simpl in Hh'.
        -- injection Hh' as <-. by rewrite (Hfirst _ eq_refl).
        -- replace (n + S i)%nat with (S n + i)%nat by lia. by apply Hall.
      * destruct Hout as ((i & h' & -> & Hh' & Hf) & Htext). split; [|done].
        exists (S i), h'. split; [done|]. split; [done|].
        by replace (n + S i)%nat with (S n + i)%nat by lia.
      * destruct Hout as ((i & h' & -> & Hh' & Hf) & Hnot). split; [|done].
        exists (S i), h'. split; [done|]. split; [done|].
        by replace (n + S i)%nat with (S n + i)%nat by lia.
Qed.

Lemma undoLastChange_run (w : World) (earlier : list Change) (ch : Change) :
  lastChanges w = earlier ++ [ch] →
  undoLastChange w
  = tryCatch (undoChange (Some ch))
      (fun e =>
         showMessage ("取り消し中にエラーが発生しました: " +:+ messageOf e)
           "error")
      (set_lastChanges (fun _ => earlier) w).
Proof.
  intros H. unfold undoLastChange. unfold bind at 1. unfold getWorld.
  destruct (lastChanges w) as [|c0 cs] eqn:Hl; [by destruct earlier|].
  assert (Hpop : popChange w
                 = (Val (Some ch), set_lastChanges (fun _ => earlier) w)).
  { unfold popChange. unfold_handler. cbv beta. f_equal.
    - by rewrite Hl, H, last_snoc.
    - unfold set_lastChanges. by rewrite Hl, H, removelast_last. }
  unfold bind. rewrite Hpop. reflexivity.
Qed.

(** C7.  Undo removes the last entry of the log, whatever happens next,
    and issues its inverse: for [Assign] one unassign of the same month,
    date and resident; for [Move] one move with source and target
    swapped; for [Unassign] one assign per captured hospital, in order,
    up to and including the first that is not confirmed, after which an
    error is shown. *)
Theorem undo_issues_inverse (w : World) (earlier : list Change) (ch : Change) :
  lastChanges w = earlier ++ [ch] →
  let w' := snd (undoLastChange w) in
  let n := length (sent w) in
  let maxv := undoMaxOf (maxAssignmentsValue w) in
  lastChanges w' = earlier
  ∧ match ch with
    | ChAssign month date res _ =>
        let p := mkUnassignPayload month date res in
        sent w' = sent w ++ [POST_manual_unassign p]
        ∧ (confirmed (api_manual_unassign backend n p) = false →
           ∃ text, last (notices w') = Some (text, "error"))
    | ChMove month res from_d from_h to_d to_h =>
        let p := mkMovePayload month res to_d (Some to_h) from_d from_h maxv in
        sent w' = sent w ++ [POST_manual_move p]
        ∧ (confirmed (api_manual_move backend n p) = false →
           ∃ text, last (notices w') = Some (text, "error"))
    | ChUnassign month date res hs =>
        let request h := mkAssignPayload month date res h maxv in
        ∃ k : nat,
          (k ≤ length hs)%nat
          ∧ sent w'
            = sent w ++ ((fun h => POST_manual_assign (request h)) <$> take k hs)
          ∧ (∀ i h, hs !! i = Some h → (S i < k)%nat →
               confirmed (api_manual_assign backend (n + i) (request h)) = true)
          ∧ ((k = length hs
              ∧ ∀ i h, hs !! i = Some h →
                  confirmed (api_manual_assign backend (n + i) (request h))
                  = true)
             ∨ (∃ i h, k = S i ∧ hs !! i = Some h
                  ∧ confirmed (api_manual_assign backend (n + i) (request h))
                    = false
                  ∧ ∃ text, last (notices w') = Some (text, "error")))
    end.
Proof.
  intros Hlog w' n maxv. subst w'.
  rewrite (undoLastChange_run _ _ _ Hlog).
  set (w0 := set_lastChanges (fun _ => earlier) w).
  unfold tryCatch.
  destruct ch as [month date res hosp|month date res hs
                 |month res from_d from_h to_d to_h].
  - unfold undoChange. unfold_handler. cbv beta.
    change (sent w0) with (sent w). fold n.
    destruct (api_manual_unassign backend n (mkUnassignPayload month date res))
      as [m|t|m|[r|]]; simpl;
      (split; [reflexivity|]); (split; [reflexivity|]);
      try discriminate; intros _; eexists; apply last_snoc.
  - pose proof (reassignAll_spec month date res hs w0)
      as (k & Hk & Hsent & Hlast & Hbefore & Hout).
    change (sent w0) with (sent w) in *.
    change (maxAssignmentsValue w0) with (maxAssignmentsValue w) in *.
    change (lastChanges w0) with earlier in Hlast.
    change (notices w0) with (notices w) in Hout.
    fold n maxv in Hsent, Hbefore, Hout. simpl in Hsent, Hbefore, Hout.
    unfold undoChange. unfold bind.
    destruct (reassignAll month date res hs w0) as [[[|]|e] w1];
      simpl in *.
    + split; [done|]. exists k. split; [done|]. split; [done|].
      split; [done|]. left. tauto.
    + split; [done|]. exists k. split; [done|]. split; [done|].
      split; [done|]. right.
      destruct Hout as ((i & h & -> & Hh & Hf) & Htext). eauto 10.
    + split; [done|]. exists k. split; [done|]. split; [done|].
      split; [done|]. right.
      destruct Hout as ((i & h & -> & Hh & Hf) & Hnot).
      exists i, h. split_and!; try done. eexists. apply last_snoc.
  - unfold undoChange. unfold_handler. cbv beta.
    change (sent w0) with (sent w).
    change (maxAssignmentsValue w0) with (maxAssignmentsValue w).
    fold n maxv.
    destruct (api_manual_move backend n
                (mkMovePayload month res to_d (Some to_h) from_d from_h maxv))
      as [m|t|m|[r|]]; simpl;
      (split; [reflexivity|]); (split; [reflexivity|]);
      try discriminate; intros _; eexists; apply last_snoc.
Qed.

(** *** The change log and the cache under failures *)

Lemma ensuredWorld_lastChanges (month : string) (w : World) :
  lastChanges (ensuredWorld month w) = lastChanges w.
Proof.
  unfold ensuredWorld, fetchedWorld.
  destruct (scheduleCache w !! month); [reflexivity|].
  destruct (api_schedule backend (length (sent w)) month) as [| | |[d|]];
    reflexivity.
Qed.

Lemma ensuredWorld_cached (month : string) (w : World) :
  is_Some (scheduleCache w !! month) → ensuredWorld month w = w.
Proof. intros [s H]. unfold ensuredWorld. by rewrite H. Qed.

Lemma ensuredWorld_preserves (month m : string) (s : Schedule) (w : World) :
  scheduleCache w !! m = Some s →
  scheduleCache (ensuredWorld month w) !! m = Some s.
Proof.
  intros H. unfold ensuredWorld, fetchedWorld.
  destruct (scheduleCache w !! month) eqn:E; [done|].
  assert (month ≠ m) by congruence.
  destruct (api_schedule backend (length (sent w)) month) as [| | |[d|]];
    simpl; by rewrite ?lookup_insert_ne, ?lookup_delete_ne.
Qed.

Lemma residentsLookup_unchanged (month : string) (w : World) :
  lastChanges (snd (residentsLookup month w)) = lastChanges w
  ∧ scheduleCache (snd (residentsLookup month w)) = scheduleCache w.
Proof.
  unfold residentsLookup. destruct (residentsCache w !! month); [done|].
  destruct (api_residents backend (length (sent w)) month); done.
Qed.

Lemma tableDrop_unchanged (monthKey d h : string) (w : World) :
  lastChanges (snd (tableDrop monthKey d h w)) = lastChanges w
  ∧ scheduleCache (snd (tableDrop monthKey d h w)) = scheduleCache w.
Proof.
  rewrite tableDrop_run. simpl.
  destruct (currentDragMeta w) as [meta|]; [|done].
  destruct (_ && _); [done|].
  pose proof (residentsLookup_unchanged monthKey w) as [Hl Hc].
  destruct (residentsLookup monthKey w) as [rs w1]. simpl in *.
  destruct (findResident rs (resident meta)) as [r|];
    [destruct (bool_decide _)|]; done.
Qed.

(** C8.  A change is appended to the log only when the backend has
    confirmed the mutation; when the edit is refused locally or the
    backend does not confirm it, the log and the schedule cache are as
    they were.  The validation a calendar drop performs before its
    chooser opens leaves the log alone and keeps every cached month. *)
Theorem changes_logged_after_confirmation (w : World) :
  let maxA := uiMaxOf (maxAssignmentsValue w) in
  (∀ dateIso residentName month hosp,
     let resp :=
       api_manual_assign backend (length (sent w))
         (mkAssignPayload month dateIso residentName hosp (Js.Int maxA)) in
     let refused :=
       capExceeded (currentCount (scheduleCache w) month residentName)
         (assignedOnDate (scheduleCache w) month dateIso residentName) maxA in
     let w' := snd (assignClick dateIso residentName month hosp w) in
     (refused = false ∧ confirmed resp = true
      ∧ lastChanges w'
        = lastChanges w ++ [ChAssign month dateIso residentName hosp])
     ∨ ((refused = true ∨ confirmed resp = false)
        ∧ lastChanges w' = lastChanges w
        ∧ scheduleCache w' = scheduleCache w))
  ∧ (∀ dateIso residentName month hs,
       let resp :=
         api_manual_unassign backend (length (sent w))
           (mkUnassignPayload month dateIso residentName) in
       let w' := snd (unassignClick dateIso residentName month hs w) in
       (confirmed resp = true
        ∧ lastChanges w'
          = lastChanges w ++ [ChUnassign month dateIso residentName hs])
       ∨ (confirmed resp = false
          ∧ lastChanges w' = lastChanges w
          ∧ scheduleCache w' = scheduleCache w))
  ∧ (∀ monthKey meta targetDate hosp,
       let resp :=
         api_manual_move backend (length (sent w))
           (mkMovePayload monthKey (resident meta) (from_date meta)
              (from_hospital meta) targetDate (Some hosp) (Js.Int maxA)) in
       let w' := snd (calendarMoveClick monthKey meta targetDate hosp w) in
       (confirmed resp = true
        ∧ lastChanges w'
          = lastChanges w ++ [ChMove monthKey (resident meta) (from_date meta)
                                (from_hospital meta) targetDate hosp])
       ∨ (confirmed resp = false
          ∧ lastChanges w' = lastChanges w
          ∧ scheduleCache w' = scheduleCache w))
  ∧ (∀ monthKey dateStr ng raw,
       let w' := snd (calendarDrop monthKey dateStr ng raw w) in
       lastChanges w' = lastChanges w
       ∧ (is_Some (scheduleCache w !! monthKey) →
          scheduleCache w' = scheduleCache w)
       ∧ (∀ m s, scheduleCache w !! m = Some s →
                 scheduleCache w' !! m = Some s))
  ∧ (∀ monthKey d h,
       let w' := snd (tableDrop monthKey d h w) in
       lastChanges w' = lastChanges w ∧ scheduleCache w' = scheduleCache w).
Proof.
  intros maxA. split_and!.
  - intros dateIso residentName month hosp resp refused w'.
    subst w'. rewrite assignClick_run. fold maxA refused resp. simpl.
    destruct refused; [by right; auto|].
    destruct resp as [m|t|m|data]; simpl; try by (right; auto).
    left. split_and!; try done.
    rewrite ensuredWorld_lastChanges. by destruct data.
  - intros dateIso residentName month hs resp w'.
    subst w'. rewrite unassignClick_run. fold resp. simpl.
    destruct resp as [m|t|m|data]; simpl; try by (right; auto).
    left. split; [done|]. by destruct data.
  - intros monthKey meta targetDate hosp resp w'.
    subst w'. rewrite calendarMoveClick_run. fold maxA resp. simpl.
    destruct resp as [m|t|m|data]; simpl; try by (right; auto).
    left. split; [done|]. by destruct data.
  - intros monthKey dateStr ng raw w'. subst w'. rewrite calendarDrop_run.
    destruct (residentHighlight w) as [hl|]; [|done].
    destruct (_ || _); [done|].
    destruct raw as [meta|]; [|done].
    destruct (String.eqb (from_date meta) dateStr); [done|].
    cbv zeta.
    destruct (dropCandidates _ _ _ _ _ _); simpl.
    all: split_and!;
      [apply ensuredWorld_lastChanges
      |intros Hs; by rewrite ensuredWorld_cached
      |intros m s; apply ensuredWorld_preserves].
  - intros monthKey d h. apply tableDrop_unchanged.
Qed.

(** *** The cached entry of a month between mutations *)

Lemma cacheStep_refl (month : string) (w : World) : cacheStep month w w.
Proof. split; [exists []; by rewrite app_nil_r|by left]. Qed.

Lemma cacheStep_trans (month : string) (w w1 w2 : World) :
  cacheStep month w w1 → cacheStep month w1 w2 → cacheStep month w w2.
Proof.
  intros [[r1 Hs1] Hc1] [[r2 Hs2] Hc2]. split.
  - exists (r1 ++ r2). by rewrite Hs2, Hs1, app_assoc.
  - destruct Hc2 as [Hsame|(n & req & result & Hn & Hle & Hm & Hc)].
    + destruct Hc1 as [Hsame1|(n & req & result & Hn & Hle & Hm & Hc)].
      * left. congruence.
      * right. exists n, req, result. split_and!; try done.
        -- rewrite Hs2. rewrite lookup_app_l; [done|].
           by eapply lookup_lt_Some.
        -- congruence.
    + right. exists n, req, result. split_and!; try done.
      rewrite Hs1, length_app in Hle. lia.
Qed.

Lemma cacheStep_same (month : string) (w w' : World) (rest : list Request) :
  sent w' = sent w ++ rest → scheduleCache w' = scheduleCache w →
  cacheStep month w w'.
Proof. intros Hs Hc. split; [by exists rest|left; by rewrite Hc]. Qed.

Lemma cacheStep_is_Some (month : string) (w w' : World) :
  cacheStep month w w' → is_Some (scheduleCache w !! month) →
  is_Some (scheduleCache w' !! month).
Proof.
  intros [_ [Hsame|(n & req & result & _ & _ & _ & Hc)]] H.
  - by rewrite Hsame.
  - rewrite Hc. eauto.
Qed.

(** The world a confirmed or unconfirmed mutation leaves, before any
    message: the request was sent, and the result, if any, stored. *)
Lemma cacheStep_stored (month m : string) (req : Request)
    (data : option Schedule) (w : World) :
  (∀ r, data = Some r →
        mutationResult (length (sent w)) req = Some (m, r)) →
  cacheStep month w (stored m data (sending req w)).
Proof.
  intros Hres. destruct data as [r|]; simpl.
  - split; [by exists [req]|].
    destruct (decide (m = month)) as [->|Hne].
    + right. exists (length (sent w)), req, r. split_and!.
      * simpl. apply list_lookup_middle. done.
      * done.
      * by apply Hres.
      * simpl. apply lookup_insert_eq.
    + left. simpl. by rewrite lookup_insert_ne.
  - by apply (cacheStep_same _ _ _ [req]).
Qed.

Lemma cacheStep_ensured (month m : string) (w : World) :
  is_Some (scheduleCache w !! month) →
  cacheStep month w (ensuredWorld m w).
Proof.
  intros [s Hs]. split; [apply ensuredWorld_sent|].
  left. rewrite Hs. by apply ensuredWorld_preserves.
Qed.

Ltac same_cache rest :=
  apply (cacheStep_same _ _ _ rest); [by rewrite ?app_nil_r|done].

Lemma assignClick_cacheStep (month dateIso residentName m hosp : string)
    (w : World) :
  is_Some (scheduleCache w !! month) →
  cacheStep month w (snd (assignClick dateIso residentName m hosp w)).
Proof.
  intros Hs. rewrite assignClick_run. simpl.
  set (payload := mkAssignPayload m dateIso residentName hosp _).
  destruct (capExceeded _ _ _); [same_cache (@nil Request)|].
  destruct (api_manual_assign backend (length (sent w)) payload)
    as [e|t|e|data] eqn:Hresp.
  1-3: same_cache [POST_manual_assign payload].
  assert (H1 : cacheStep month w
                 (stored m data (sending (POST_manual_assign payload) w))).
  { apply cacheStep_stored. intros r ->. unfold mutationResult. by rewrite Hresp. }
  eapply cacheStep_trans; [exact H1|].
  eapply cacheStep_trans; [|apply cacheStep_ensured].
  - same_cache (@nil Request).
  - apply (cacheStep_is_Some _ _ _ H1) in Hs. exact Hs.
Qed.

Lemma unassignClick_cacheStep (month dateIso residentName m : string)
    (hs : list string) (w : World) :
  cacheStep month w (snd (unassignClick dateIso residentName m hs w)).
Proof.
  rewrite unassignClick_run. simpl.
  set (payload := mkUnassignPayload m dateIso residentName).
  destruct (api_manual_unassign backend (length (sent w)) payload)
    as [e|t|e|data] eqn:Hresp.
  1-3: same_cache [POST_manual_unassign payload].
  eapply cacheStep_trans.
  - apply (cacheStep_stored month m (POST_manual_unassign payload) data).
    intros r ->. unfold mutationResult. by rewrite Hresp.
  - same_cache (@nil Request).
Qed.

Lemma calendarMoveClick_cacheStep (month monthKey : string) (meta : DragMeta)
    (targetDate hosp : string) (w : World) :
  cacheStep month w (snd (calendarMoveClick monthKey meta targetDate hosp w)).
Proof.
  rewrite calendarMoveClick_run. simpl.
  set (payload := mkMovePayload monthKey _ _ _ _ _ _).
  destruct (api_manual_move backend (length (sent w)) payload)
    as [e|t|e|data] eqn:Hresp.
  1-3: same_cache [POST_manual_move payload].
  eapply cacheStep_trans.
  - apply (cacheStep_stored month monthKey (POST_manual_move payload) data).
    intros r ->. unfold mutationResult. by rewrite Hresp.
  - same_cache (@nil Request).
Qed.

Lemma reassignAll_cacheStep (month m date res : string) (hs : list string) :
  ∀ w, cacheStep month w (snd (reassignAll m date res hs w)).
Proof.
  induction hs as [|h rest IH]; intros w; [apply cacheStep_refl|].
  rewrite reassignAll_cons.
  set (p := mkAssignPayload m date res h _).
  destruct (api_manual_assign backend (length (sent w)) p)
    as [e|t|e|data] eqn:Hresp.
  1-3: same_cache [POST_manual_assign p].
  eapply cacheStep_trans; [|apply IH].
  apply cacheStep_stored. intros r ->. unfold mutationResult. by rewrite Hresp.
Qed.

Lemma undoLastChange_cacheStep (month : string) (w : World) :
  cacheStep month w (snd (undoLastChange w)).
Proof.
  destruct (lastChanges w) as [|c0 cs] eqn:Hl using rev_ind.
  { unfold undoLastChange. unfold bind, getWorld. rewrite Hl.
    same_cache (@nil Request). }
  clear IHcs. rename c0 into ch. rename cs into earlier.
  rewrite (undoLastChange_run _ _ _ Hl).
  set (w0 := set_lastChanges (fun _ => earlier) w).
  assert (H0 : cacheStep month w w0) by same_cache (@nil Request).
  eapply cacheStep_trans; [exact H0|]. unfold tryCatch.
  destruct ch as [m date res hosp|m date res hs|m res from_d from_h to_d to_h].
  - unfold undoChange. unfold_handler. cbv beta.
    set (p := mkUnassignPayload m date res).
    destruct (api_manual_unassign backend _ p)
      as [e|t|e|data] eqn:Hresp; simpl.
    1-3: same_cache [POST_manual_unassign p].
    eapply cacheStep_trans.
    + apply (cacheStep_stored month m (POST_manual_unassign p) data).
      intros r ->. unfold mutationResult. by rewrite Hresp.
    + destruct data; same_cache (@nil Request).
  - pose proof (reassignAll_cacheStep month m date res hs w0) as Hre.
    unfold undoChange. unfold bind.
    destruct (reassignAll m date res hs w0) as [[[|]|e] w1]; simpl in *.
    + eapply cacheStep_trans; [exact Hre|]. same_cache (@nil Request).
    + exact Hre.
    + eapply cacheStep_trans; [exact Hre|]. same_cache (@nil Request).
  - unfold undoChange. unfold_handler. cbv beta.
    set (p := mkMovePayload m res to_d (Some to_h) from_d from_h _).
    destruct (api_manual_move backend _ p)
      as [e|t|e|data] eqn:Hresp; simpl.
    1-3: same_cache [POST_manual_move p].
    eapply cacheStep_trans.
    + apply (cacheStep_stored month m (POST_manual_move p) data).
      intros r ->. unfold mutationResult. by rewrite Hresp.
    + destruct data; same_cache (@nil Request).
Qed.

Lemma fetchSchedule_world (month : string) (w : World) :
  snd (fetchSchedule month w) = ensuredWorld month w.
Proof.
  unfold ensuredWorld. destruct (scheduleCache w !! month) eqn:E.
  - by rewrite (fetchSchedule_cached _ _ _ E).
  - by rewrite (fetchSchedule_miss _ _ E).
Qed.

Lemma handle_cacheStep (month : string) (ev : Event) (w : World) :
  is_Some (scheduleCache w !! month) →
  cacheStep month w (snd (handle ev w)).
Proof.
  intros Hs.
  destruct ev as [m|dateIso residentName m|dateIso residentName m hosp
                 |dateIso residentName m hs|monthKey dateStr ng raw
                 |monthKey meta targetDate hosp|monthKey d h|]; simpl.
  - pose proof (fetchSchedule_world m w) as Hw. unfold bind.
    destruct (fetchSchedule m w) as [[v|e] w1]; simpl in *; subst w1;
      by apply cacheStep_ensured.
  - unfold bind. rewrite openAssignModal_run. cbv zeta.
    pose proof (cacheStep_ensured month m w Hs) as He.
    destruct (hospitalsFor _ _) as [|h0 hs'].
    { simpl. eapply cacheStep_trans; [exact He|]. same_cache (@nil Request). }
    destruct (dialogCandidates _ _ _ _ _);
      [destruct (assignedHospitalsOn _ _ _)|]; simpl;
      (eapply cacheStep_trans; [exact He|]);
      same_cache [GET_is_holiday dateIso].
  - by apply assignClick_cacheStep.
  - apply unassignClick_cacheStep.
  - unfold bind. rewrite calendarDrop_run.
    destruct (residentHighlight w) as [hl|]; [|apply cacheStep_refl].
    destruct (_ || _); [simpl; same_cache (@nil Request)|].
    destruct raw as [meta|]; [|apply cacheStep_refl].
    destruct (String.eqb (from_date meta) dateStr);
      [simpl; same_cache (@nil Request)|].
    cbv zeta. pose proof (cacheStep_ensured month monthKey w Hs) as He.
    destruct (dropCandidates _ _ _ _ _ _); simpl;
      (eapply cacheStep_trans; [exact He|]);
      same_cache [GET_is_holiday dateStr].
  - apply calendarMoveClick_cacheStep.
  - destruct (tableDrop_no_move monthKey d h w) as (rest & Hsent & _).
    destruct (tableDrop_unchanged monthKey d h w) as [_ Hc].
    by apply (cacheStep_same _ _ _ rest).
  - apply undoLastChange_cacheStep.
Qed.

Lemma handleAll_cacheStep (month : string) (evs : list Event) :
  ∀ w, is_Some (scheduleCache w !! month) →
       cacheStep month w (handleAll evs w).
Proof.
  induction evs as [|ev rest IH]; intros w Hs; [apply cacheStep_refl|].
  simpl. pose proof (handle_cacheStep month ev w Hs) as H1.
  eapply cacheStep_trans; [exact H1|].
  apply IH. by apply (cacheStep_is_Some _ _ _ H1).
Qed.

(** C9.  A schedule fetch that fails caches the error sentinel under the
    month.  A lookup of a cached month returns the cached value and asks
    the backend nothing.  Whatever events follow, the sentinel stays in
    place, and is what a lookup returns without a fetch, unless in
    between the backend confirmed a mutation of that month with a result,
    which then is the cached entry.  And a mutation does overwrite: when
    the backend confirms an assign, an unassign or a calendar move of the
    month with a result, that result is the month's cached entry right
    after, whatever was cached before, and is what the next lookup
    returns without a fetch. *)
Theorem failed_fetch_is_cached (month : string) (w : World) :
  (scheduleCache w !! month = None →
   confirmed (api_schedule backend (length (sent w)) month) = false →
   fst (fetchSchedule month w) = Val (Some errorSentinel)
   ∧ scheduleCache (snd (fetchSchedule month w)) !! month
     = Some errorSentinel)
  ∧ (∀ s, scheduleCache w !! month = Some s →
          fetchSchedule month w = (Val (Some s), w))
  ∧ (∀ evs,
       scheduleCache w !! month = Some errorSentinel →
       let w' := handleAll evs w in
       (fetchSchedule month w' = (Val (Some errorSentinel), w')
        ∧ scheduleCache w' !! month = Some errorSentinel)
       ∨ ∃ n req result,
           sent w' !! n = Some req ∧ (length (sent w) ≤ n)%nat
           ∧ mutationResult n req = Some (month, result)
           ∧ scheduleCache w' !! month = Some result)
  ∧ (∀ d r h result,
       integerField (maxAssignmentsValue w) = true →
       capExceeded (currentCount (scheduleCache w) month r)
         (assignedOnDate (scheduleCache w) month d r)
         (uiMaxOf (maxAssignmentsValue w)) = false →
       api_manual_assign backend (length (sent w))
         (mkAssignPayload month d r h
            (Js.Int (uiMaxOf (maxAssignmentsValue w))))
       = HttpOk (Some result) →
       let w' := snd (assignClick d r month h w) in
       scheduleCache w' !! month = Some result
       ∧ fetchSchedule month w' = (Val (Some result), w'))
  ∧ (∀ d r hs result,
       api_manual_unassign backend (length (sent w))
         (mkUnassignPayload month d r)
       = HttpOk (Some result) →
       let w' := snd (unassignClick d r month hs w) in
       scheduleCache w' !! month = Some result
       ∧ fetchSchedule month w' = (Val (Some result), w'))
  ∧ (∀ meta targetDate hosp result,
       integerField (maxAssignmentsValue w) = true →
       api_manual_move backend (length (sent w))
         (mkMovePayload month (resident meta) (from_date meta)
            (from_hospital meta) targetDate (Some hosp)
            (Js.Int (uiMaxOf (maxAssignmentsValue w))))
       = HttpOk (Some result) →
       let w' := snd (calendarMoveClick month meta targetDate hosp w) in
       scheduleCache w' !! month = Some result
       ∧ fetchSchedule month w' = (Val (Some result), w')).
Proof.
  assert (Hlook : ∀ (result : Schedule) (w' : World),
            scheduleCache w' !! month = Some result →
            scheduleCache w' !! month = Some result
            ∧ fetchSchedule month w' = (Val (Some result), w')).
  { intros result w' H. split; [exact H|]. by apply fetchSchedule_cached. }
  split_and!.
  - intros Hnone Hfail. rewrite (fetchSchedule_miss _ _ Hnone). simpl.
    unfold fetchedWorld.
    destruct (api_schedule backend (length (sent w)) month) as [e|t|e|data];
      try discriminate; simpl; (split; [done|apply lookup_insert_eq]).
  - intros s Hs. by apply fetchSchedule_cached.
  - intros evs Hs w'.
    destruct (handleAll_cacheStep month evs w) as [_ [Hsame|Hmut]];
      [by rewrite Hs| |right; exact Hmut].
    left. fold w' in Hsame. rewrite Hs in Hsame.
    split; [by apply fetchSchedule_cached|done].
  - intros d r h result _ Hcap Hresp w'. apply Hlook. unfold w'.
    rewrite assignClick_run, Hcap, Hresp. cbn [snd].
    unfold ensuredWorld, stored. cbn [scheduleCache notify set_notices
      set_lastChanges set_scheduleCache sending set_sent].
    rewrite lookup_insert_eq. cbn [scheduleCache notify set_notices
      set_lastChanges set_scheduleCache sending set_sent].
    by rewrite lookup_insert_eq.
  - intros d r hs result Hresp w'. apply Hlook. unfold w'.
    rewrite unassignClick_run, Hresp. cbn [snd]. unfold stored.
    cbn [scheduleCache notify set_notices set_lastChanges set_scheduleCache
      sending set_sent].
    by rewrite lookup_insert_eq.
  - intros meta targetDate hosp result _ Hresp w'. apply Hlook. unfold w'.
    rewrite calendarMoveClick_run, Hresp. cbn [snd]. unfold stored.
    cbn [scheduleCache notify set_notices set_lastChanges set_scheduleCache
      sending set_sent].
    by rewrite lookup_insert_eq.
Qed.

(** *** Moves refused before they reach the backend *)

(** C6, as the code has it.  A drop onto a day of the calendar is refused
    with no request and no change of state other than the message when
    the day is an NG date of the selected resident or is the day the
    resident is dragged from; with the month cached it is refused after
    the holiday lookup, and without touching the cache or the log, when
    no hospital has remaining slots or holds the resident already, and
    otherwise every such hospital is offered and choosing it sends the
    move.  A drop onto a cell of the table is refused with no request when
    the cell is the source, and with no move request and the cache and
    the log untouched when the date is an NG date of the resident. *)
Theorem move_local_rejections (w : World) :
  (∀ hl monthKey dateStr ng raw,
     residentHighlight w = Some hl →
     ng = true ∨ dateStr ∈ hl_ng_dates hl →
     calendarDrop monthKey dateStr ng raw w
     = (Val None, notify "NG日にはドロップできません" "error" w))
  ∧ (∀ hl monthKey dateStr meta,
       residentHighlight w = Some hl → dateStr ∉ hl_ng_dates hl →
       from_date meta = dateStr →
       calendarDrop monthKey dateStr false (Some meta) w
       = (Val None, notify "同じ日への移動です" "error" w))
  ∧ (∀ hl monthKey dateStr meta sched,
       residentHighlight w = Some hl → dateStr ∉ hl_ng_dates hl →
       from_date meta ≠ dateStr →
       scheduleCache w !! monthKey = Some sched →
       let holiday :=
         holidayAnswer (api_is_holiday backend (length (sent w)) dateStr) in
       let eligible h :=
         0 < remainingAt (currentCfg w) sched h dateStr holiday
         ∨ resident meta ∈ assignedAt sched dateStr h in
       let w2 := sending (GET_is_holiday dateStr) w in
       ((∀ h, h ∈ hospitalsFor sched (currentCfg w) → ¬ eligible h) →
        calendarDrop monthKey dateStr false (Some meta) w
        = (Val None, notify "移動先に空きスロットがありません" "error" w2))
       ∧ (∀ h, h ∈ hospitalsFor sched (currentCfg w) → eligible h →
            (∃ modal,
               calendarDrop monthKey dateStr false (Some meta) w
               = (Val (Some modal), w2)
               ∧ h ∈ (mm_candidates modal).*1)
            ∧ sent (snd (calendarMoveClick monthKey meta dateStr h w2))
              = sent w2
                ++ [POST_manual_move
                      (mkMovePayload monthKey (resident meta) (from_date meta)
                         (from_hospital meta) dateStr (Some h)
                         (Js.Int (uiMaxOf (maxAssignmentsValue w))))]))
  ∧ (∀ meta monthKey d h,
       currentDragMeta w = Some meta →
       from_date meta = d → from_hospital meta = Some h →
       tableDrop monthKey d h w = (Val tt, notify "同じ場所です" "error" w))
  ∧ (∀ meta monthKey d h r,
       currentDragMeta w = Some meta →
       ¬ (from_date meta = d ∧ from_hospital meta = Some h) →
       findResident (fst (residentsLookup monthKey w)) (resident meta)
       = Some r →
       d ∈ ng_dates r →
       let w' := snd (tableDrop monthKey d h w) in
       notices w' = notices w ++ [("NG日にはドロップできません", "error")]
       ∧ lastChanges w' = lastChanges w
       ∧ scheduleCache w' = scheduleCache w
       ∧ ∃ rest, sent w' = sent w ++ rest
                 ∧ (rest = [] ∨ rest = [GET_residents monthKey])).
Proof.
  split_and!.
  - intros hl monthKey dateStr ng raw Hhl Hng. rewrite calendarDrop_run, Hhl.
    destruct Hng as [->|Hin]; [done|].
    rewrite (bool_decide_eq_true_2 _ Hin), orb_true_r. done.
  - intros hl monthKey dateStr meta Hhl Hng Hfrom.
    rewrite calendarDrop_run, Hhl. simpl.
    rewrite bool_decide_eq_false_2 by done.
    by rewrite Hfrom, String.eqb_refl.
  - intros hl monthKey dateStr meta sched Hhl Hng Hfrom Hc holiday eligible w2.
    assert (Hrun : calendarDrop monthKey dateStr false (Some meta) w
                   = match dropCandidates (currentCfg w) sched
                             (hospitalsFor sched (currentCfg w)) dateStr
                             (resident meta) holiday with
                     | [] =>
                         (Val None,
                          notify "移動先に空きスロットがありません" "error" w2)
                     | c :: cs =>
                         (Val (Some (mkMoveModal monthKey meta dateStr (c :: cs))),
                          w2)
                     end).
    { rewrite calendarDrop_run, Hhl. simpl.
      rewrite bool_decide_eq_false_2 by done.
      destruct (String.eqb_spec (from_date meta) dateStr); [done|].
      unfold ensuredWorld. rewrite Hc. simpl. rewrite Hc. reflexivity. }
    split.
    + intros Hnone. rewrite Hrun.
      destruct (dropCandidates _ _ _ _ _ _) as [|[h r] cs] eqn:Ed; [done|].
      assert (Hin : (h, r) ∈ dropCandidates (currentCfg w) sched
                      (hospitalsFor sched (currentCfg w)) dateStr
                      (resident meta) holiday).
      { rewrite Ed. apply list_elem_of_here. }
      apply dropCandidates_elem in Hin as (Hh & -> & He).
      by destruct (Hnone h Hh).
    + intros h Hh He. split.
      * rewrite Hrun.
        assert (Hin : (h, remainingAt (currentCfg w) sched h dateStr holiday)
                      ∈ dropCandidates (currentCfg w) sched
                          (hospitalsFor sched (currentCfg w)) dateStr
                          (resident meta) holiday).
        { apply dropCandidates_elem. done. }
        destruct (dropCandidates _ _ _ _ _ _) as [|c cs] eqn:Ed.
        { by apply not_elem_of_nil in Hin. }
        eexists. split; [reflexivity|].
        apply (proj2 (fst_elem_of_pairs (c :: cs) h)). eauto.
      * rewrite calendarMoveClick_run. simpl.
        destruct (api_manual_move backend _ _) as [e|t|e|[r|]]; reflexivity.
  - intros meta monthKey d h Hm Hd Hh. rewrite tableDrop_run, Hm.
    rewrite Hd, Hh, String.eqb_refl, bool_decide_eq_true_2 by done. done.
  - intros meta monthKey d h r Hm Hsrc Hfound Hng w'. subst w'.
    destruct (tableDrop_unchanged monthKey d h w) as [Hl Hc].
    split_and!; [|exact Hl|exact Hc|apply tableDrop_no_move].
    rewrite tableDrop_run, Hm. simpl.
    assert (Hb : String.eqb (from_date meta) d
                 && bool_decide (from_hospital meta = Some h) = false).
    { apply andb_false_iff.
      destruct (String.eqb_spec (from_date meta) d) as [Hd|]; [|by left].
      right. apply bool_decide_eq_false_2. tauto. }
    rewrite Hb.
    destruct (residentsLookup monthKey w) as [rs w1] eqn:Er.
    simpl in Hfound. rewrite Hfound, (bool_decide_eq_true_2 _ Hng). simpl.
    f_equal. unfold residentsLookup in Er.
    destruct (residentsCache w !! monthKey); [by injection Er as <- <-|].
    destruct (api_residents backend (length (sent w)) monthKey);
      by injection Er as <- <-.
Qed.


(** ** Further properties of the code *)

(** *** Undo as a stack *)

Lemma undoChange_lastChanges (ch : option Change) (h : Exn → M unit)
    (w0 : World) :
  (∀ e w, lastChanges (snd (h e w)) = lastChanges w) →
  lastChanges (snd (tryCatch (undoChange ch) h w0)) = lastChanges w0.
Proof.
  intros Hh. unfold tryCatch.
  destruct ch as [[m date res hosp|m date res hs|m res from_d from_h to_d to_h]|].
  - unfold undoChange. unfold_handler. cbv beta zeta.
    destruct (api_manual_unassign backend _ _) as [e|t|e|[r|]]; simpl;
      rewrite ?Hh; reflexivity.
  - pose proof (reassignAll_spec m date res hs w0) as (k & _ & _ & Hl & _).
    unfold undoChange. unfold bind.
    destruct (reassignAll m date res hs w0) as [[[|]|e] w1]; simpl in *;
      rewrite ?Hh; exact Hl.
  - unfold undoChange. unfold_handler. cbv beta zeta.
    destruct (api_manual_move backend _ _) as [e|t|e|[r|]]; simpl;
      rewrite ?Hh; reflexivity.
  - simpl. unfold throw. by rewrite Hh.
Qed.

Lemma undoLastChange_log (w : World) :
  lastChanges (snd (undoLastChange w)) = removelast (lastChanges w).
Proof.
  destruct (lastChanges w) as [|c0 cs] eqn:Hl using rev_ind.
  { unfold undoLastChange. unfold bind, getWorld. by rewrite Hl. }
  clear IHcs. rewrite (undoLastChange_run _ _ _ Hl), removelast_last.
  rewrite undoChange_lastChanges; [reflexivity|]. intros e w1. reflexivity.
Qed.

Lemma take_removelast {A} (l : list A) (n : nat) :
  take (length (removelast l) - n) (removelast l)
  = take (length l - S n) l.
Proof.
  destruct l as [|x xs] using rev_ind; [reflexivity|]. clear IHxs.
  rewrite removelast_last, length_app. simpl.
  replace (length xs + 1 - S n)%nat with (length xs - n)%nat by lia.
  rewrite take_app_le by lia. reflexivity.
Qed.

(** X1.  Undo is a stack without redo: [n] undos in a row leave the first
    [length - n] entries of the log, whatever the backend answers, and on
    an empty log an undo only shows its message. *)
Theorem undo_drains_log (n : nat) (w : World) :
  lastChanges (handleAll (replicate n EvUndo) w)
  = take (length (lastChanges w) - n) (lastChanges w)
  ∧ (lastChanges w = [] →
     undoLastChange w
     = (Val tt, notify "取り消す変更はありません" "error" w)).
Proof.
  split.
  - revert w. induction n as [|n IH]; intros w; simpl.
    + rewrite Nat.sub_0_r. by rewrite firstn_all.
    + rewrite IH, undoLastChange_log. apply take_removelast.
  - intros Hl. unfold undoLastChange. unfold bind, getWorld. by rewrite Hl.
Qed.

(** *** An edit followed by its undo *)

Lemma undo_requests (w1 : World) (earlier : list Change) (ch : Change) :
  lastChanges w1 = earlier ++ [ch] →
  let w2 := snd (undoLastChange w1) in
  let maxv := undoMaxOf (maxAssignmentsValue w1) in
  match ch with
  | ChAssign m d r _ =>
      sent w2 = sent w1 ++ [POST_manual_unassign (mkUnassignPayload m d r)]
  | ChUnassign m d r hs =>
      let answer i h :=
        api_manual_assign backend (length (sent w1) + i)
          (mkAssignPayload m d r h maxv) in
      ∃ k : nat,
        (k ≤ length hs)%nat
        ∧ sent w2
          = sent w1
            ++ ((fun h => POST_manual_assign (mkAssignPayload m d r h maxv))
                  <$> take k hs)
        ∧ (∀ i h, hs !! i = Some h → (S i < k)%nat →
             confirmed (answer i h) = true)
        ∧ ((k = length hs
            ∧ ∀ i h, hs !! i = Some h → confirmed (answer i h) = true)
           ∨ (∃ i h, k = S i ∧ hs !! i = Some h
                ∧ confirmed (answer i h) = false))
  | ChMove m r fd fh td th =>
      sent w2
      = sent w1
        ++ [POST_manual_move (mkMovePayload m r td (Some th) fd fh maxv)]
  end.
Proof.
  intros Hl w2 maxv. subst w2. rewrite (undoLastChange_run _ _ _ Hl).
  set (w0 := set_lastChanges (fun _ => earlier) w1). unfold tryCatch.
  destruct ch as [m d r hosp|m d r hs|m r fd fh td th].
  - unfold undoChange. unfold_handler. cbv beta zeta.
    destruct (api_manual_unassign backend _ _) as [e|t|e|[x|]]; reflexivity.
  - pose proof (reassignAll_spec m d r hs w0)
      as (k & Hk & Hsent & _ & Hpre & Hout).
    change (maxAssignmentsValue w0) with (maxAssignmentsValue w1) in *.
    change (sent w0) with (sent w1) in *.
    cbv zeta. exists k. split; [exact Hk|].
    unfold undoChange. unfold bind.
    destruct (reassignAll m d r hs w0) as [[[|]|e] w']; cbn [fst snd] in *.
    + destruct Hout as (Hlen & Hall & _).
      split; [exact Hsent|]. split; [exact Hpre|]. left. by split.
    + destruct Hout as [Hstop _].
      split; [exact Hsent|]. split; [exact Hpre|]. right. exact Hstop.
    + destruct Hout as [Hstop _].
      split; [exact Hsent|]. split; [exact Hpre|]. right. exact Hstop.
  - unfold undoChange. unfold_handler. cbv beta zeta.
    destruct (api_manual_move backend _ _) as [e|t|e|[x|]]; reflexivity.
Qed.

Lemma ensuredWorld_max (month : string) (w : World) :
  maxAssignmentsValue (ensuredWorld month w) = maxAssignmentsValue w.
Proof.
  unfold ensuredWorld, fetchedWorld.
  destruct (scheduleCache w !! month); [reflexivity|].
  destruct (api_schedule backend (length (sent w)) month) as [| | |[d|]];
    reflexivity.
Qed.

(** X2.  Every edit that the backend confirmed can be taken back: after a
    confirmed assign, move or unassign, one undo restores the log to what
    it was before the edit and sends the inverse of that very edit: an
    unassign of the assigned (month, date, resident); a move back from the
    chosen target to the source of the drag; re-assigns, in order, of the
    hospitals the delete button had recorded, every one of them when the
    backend confirms them all, and otherwise up to and including the
    first one it does not confirm.  The limit field is taken to hold an
    integer numeral or nothing. *)
Theorem confirmed_edit_then_undo (w : World) :
  integerField (maxAssignmentsValue w) = true →
  let maxA := uiMaxOf (maxAssignmentsValue w) in
  let maxv := undoMaxOf (maxAssignmentsValue w) in
  (∀ d r m h data,
     capExceeded (currentCount (scheduleCache w) m r)
       (assignedOnDate (scheduleCache w) m d r) maxA = false →
     api_manual_assign backend (length (sent w))
       (mkAssignPayload m d r h (Js.Int maxA)) = HttpOk data →
     let w1 := snd (assignClick d r m h w) in
     let w2 := snd (undoLastChange w1) in
     lastChanges w2 = lastChanges w
     ∧ sent w2 = sent w1 ++ [POST_manual_unassign (mkUnassignPayload m d r)])
  ∧ (∀ monthKey meta targetDate hosp data,
       api_manual_move backend (length (sent w))
         (mkMovePayload monthKey (resident meta) (from_date meta)
            (from_hospital meta) targetDate (Some hosp) (Js.Int maxA))
       = HttpOk data →
       let w1 := snd (calendarMoveClick monthKey meta targetDate hosp w) in
       let w2 := snd (undoLastChange w1) in
       lastChanges w2 = lastChanges w
       ∧ sent w2
         = sent w1
           ++ [POST_manual_move
                 (mkMovePayload monthKey (resident meta) targetDate (Some hosp)
                    (from_date meta) (from_hospital meta) maxv)])
  ∧ (∀ d r m hs data,
       api_manual_unassign backend (length (sent w)) (mkUnassignPayload m d r)
       = HttpOk data →
       let w1 := snd (unassignClick d r m hs w) in
       let w2 := snd (undoLastChange w1) in
       let answer i h :=
         api_manual_assign backend (length (sent w1) + i)
           (mkAssignPayload m d r h maxv) in
       lastChanges w2 = lastChanges w
       ∧ ∃ k : nat,
           (k ≤ length hs)%nat
           ∧ sent w2
             = sent w1
               ++ ((fun h => POST_manual_assign (mkAssignPayload m d r h maxv))
                     <$> take k hs)
           ∧ (∀ i h, hs !! i = Some h → (S i < k)%nat →
                confirmed (answer i h) = true)
           ∧ ((k = length hs
               ∧ ∀ i h, hs !! i = Some h → confirmed (answer i h) = true)
              ∨ (∃ i h, k = S i ∧ hs !! i = Some h
                   ∧ confirmed (answer i h) = false))).
Proof.
  intros _ maxA maxv. split_and!.
  - intros d r m h data Hcap Hresp w1 w2.
    assert (Hl : lastChanges w1 = lastChanges w ++ [ChAssign m d r h]).
    { subst w1. rewrite assignClick_run. fold maxA. rewrite Hcap, Hresp.
      simpl. rewrite ensuredWorld_lastChanges. by destruct data. }
    split.
    + subst w2. by rewrite undoLastChange_log, Hl, removelast_last.
    + apply (undo_requests w1 _ _ Hl).
  - intros monthKey meta targetDate hosp data Hresp w1 w2.
    assert (Hw1 : lastChanges w1
                  = lastChanges w
                    ++ [ChMove monthKey (resident meta) (from_date meta)
                          (from_hospital meta) targetDate hosp]
                  ∧ maxAssignmentsValue w1 = maxAssignmentsValue w).
    { subst w1. rewrite calendarMoveClick_run. fold maxA. rewrite Hresp.
      by destruct data. }
    destruct Hw1 as [Hl Hm]. split.
    + subst w2. by rewrite undoLastChange_log, Hl, removelast_last.
    + pose proof (undo_requests w1 _ _ Hl) as H. simpl in H.
      rewrite Hm in H. exact H.
  - intros d r m hs data Hresp w1 w2 answer.
    assert (Hw1 : lastChanges w1 = lastChanges w ++ [ChUnassign m d r hs]
                  ∧ maxAssignmentsValue w1 = maxAssignmentsValue w).
    { subst w1. rewrite unassignClick_run. rewrite Hresp. by destruct data. }
    destruct Hw1 as [Hl Hm]. split.
    + subst w2. by rewrite undoLastChange_log, Hl, removelast_last.
    + pose proof (undo_requests w1 _ _ Hl) as H. cbv zeta in H.
      rewrite Hm in H. exact H.
Qed.

(** *** The limit sent by undo *)

(** X3.  Undo reads the limit as [Number(value || 2)], without the final
    [|| 2] of the edit handlers.  For a field that is absent, empty or an
    integer numeral the two agree unless the numeral is zero: then the
    edits send 2 while the re-assign and the move-back of an undo send
    0. *)
Theorem undo_limit_differs (value : option string) :
  integerField value = true →
  ((value = None ∨ value = Some ""
    ∨ ∃ s z, value = Some s ∧ Js.Number s = Js.Int z ∧ z ≠ 0) →
   undoMaxOf value = Js.Int (uiMaxOf value))
  ∧ (∀ s, value = Some s → s ≠ "" →
          Js.Number s = Js.Int 0 →
          uiMaxOf value = 2 ∧ undoMaxOf value = Js.Int 0
          ∧ undoMaxOf value ≠ Js.Int (uiMaxOf value))
  ∧ (value = None ∨ value = Some ""
     ∨ (∃ s z, value = Some s ∧ Js.Number s = Js.Int z ∧ z ≠ 0)
     ∨ (∃ s, value = Some s ∧ s ≠ "" ∧ Js.Number s = Js.Int 0))
  ∧ (∀ w earlier m d r h hs,
       maxAssignmentsValue w = value →
       lastChanges w = earlier ++ [ChUnassign m d r (h :: hs)] →
       ∃ rest,
         sent (snd (undoLastChange w))
         = sent w
           ++ POST_manual_assign (mkAssignPayload m d r h (undoMaxOf value))
              :: rest).
Proof.
  intros Hfield. split_and!.
  - intros [->|[->|(s & z & -> & Hs & Hz)]]; [reflexivity..|].
    unfold undoMaxOf, uiMaxOf, numberOfFieldOr.
    destruct (String.eqb_spec s "") as [->|Hne].
    + reflexivity.
    + rewrite Hs. simpl. by destruct (Z.eqb_spec z 0).
  - intros s -> Hne Hs. unfold undoMaxOf, uiMaxOf, numberOfFieldOr.
    destruct (String.eqb_spec s ""); [done|].
    rewrite Hs. simpl. split_and!; done.
  - destruct value as [s|]; [|by left].
    destruct (String.eqb_spec s "") as [->|Hne]; [right; by left|].
    unfold integerField, Js.exactNumber in Hfield.
    destruct (Js.Number s) as [|z] eqn:Hs; [discriminate|].
    destruct (Z.eq_dec z 0) as [->|Hz].
    + right. right. right. by exists s.
    + right. right. left. by exists s, z.
  - intros w earlier m d r h hs Hv Hl.
    rewrite (undoLastChange_run _ _ _ Hl).
    set (w0 := set_lastChanges (fun _ => earlier) w).
    unfold tryCatch, undoChange. unfold bind at 1.
    rewrite reassignAll_cons.
    change (maxAssignmentsValue w0) with (maxAssignmentsValue w).
    change (sent w0) with (sent w). rewrite Hv.
    set (p := mkAssignPayload m d r h (undoMaxOf value)).
    destruct (api_manual_assign backend (length (sent w)) p)
      as [e|t|e|jd]; try (exists []; reflexivity).
    set (w2 := stored m jd (sending (POST_manual_assign p) w0)).
    pose proof (reassignAll_spec m d r hs w2) as (k & _ & Hsent & _).
    assert (Hs2 : sent w2 = sent w ++ [POST_manual_assign p]).
    { subst w2. by destruct jd. }
    rewrite Hs2, <- app_assoc in Hsent. simpl in Hsent.
    destruct (reassignAll m d r hs w2) as [[[|]|e] w3]; simpl in *;
      eexists; exact Hsent.
Qed.

(** *** The residents lookup *)

(** X4.  [fetchResidents] caches successes only.  A cached list, even an
    empty one, is returned without a request; a failed lookup returns
    [null], shows nothing, caches nothing, and so the next lookup asks
    the backend again; a successful one is cached and answers the next
    lookup. *)
Theorem residents_lookup_caches_success_only (month : string) (w : World) :
  (∀ l, residentsCache w !! month = Some l →
        fetchResidents month w = (Val (Some l), w))
  ∧ (residentsCache w !! month = None →
     confirmed (api_residents backend (length (sent w)) month) = false →
     fetchResidents month w = (Val None, sending (GET_residents month) w)
     ∧ sent (snd (fetchResidents month (snd (fetchResidents month w))))
       = sent w ++ [GET_residents month; GET_residents month])
  ∧ (∀ l, residentsCache w !! month = None →
          api_residents backend (length (sent w)) month = HttpOk l →
          let w1 := snd (fetchResidents month w) in
          fst (fetchResidents month w) = Val (Some l)
          ∧ sent w1 = sent w ++ [GET_residents month]
          ∧ fetchResidents month w1 = (Val (Some l), w1)).
Proof.
  split_and!.
  - intros l Hl. rewrite fetchResidents_run. unfold residentsLookup.
    by rewrite Hl.
  - intros Hn Hf.
    assert (H1 : fetchResidents month w
                 = (Val None, sending (GET_residents month) w)).
    { rewrite fetchResidents_run. unfold residentsLookup. rewrite Hn.
      by destruct (api_residents backend (length (sent w)) month). }
    split; [exact H1|]. rewrite H1. simpl.
    rewrite fetchResidents_run. unfold residentsLookup. simpl. rewrite Hn.
    destruct (api_residents backend (length (sent w ++ _)) month);
      simpl; by rewrite <- app_assoc.
  - intros l Hn Hok w1.
    assert (H1 : fetchResidents month w
                 = (Val (Some l),
                    set_residentsCache (<[month := l]>)
                      (sending (GET_residents month) w))).
    { rewrite fetchResidents_run. unfold residentsLookup.
      by rewrite Hn, Hok. }
    subst w1. rewrite H1. simpl. split_and!; try done.
    rewrite fetchResidents_run. unfold residentsLookup. simpl.
    by rewrite lookup_insert_eq.
Qed.

(** *** A cached month is never asked for again *)

Lemma quiet_refl (month : string) (w : World) : quiet month w w.
Proof.
  exists []. split; [by rewrite app_nil_r|apply not_elem_of_nil].
Qed.

Lemma quiet_trans (month : string) (w w1 w2 : World) :
  quiet month w w1 → quiet month w1 w2 → quiet month w w2.
Proof.
  intros (r1 & H1 & N1) (r2 & H2 & N2). exists (r1 ++ r2). split.
  - by rewrite H2, H1, app_assoc.
  - rewrite elem_of_app. tauto.
Qed.

Lemma quiet_same (month : string) (w w' : World) :
  sent w' = sent w → quiet month w w'.
Proof.
  intros H. exists []. split; [by rewrite app_nil_r|apply not_elem_of_nil].
Qed.

Lemma quiet_one (month : string) (req : Request) (w w' : World) :
  sent w' = sent w ++ [req] → req ≠ GET_schedule month → quiet month w w'.
Proof.
  intros H Hne. exists [req]. split; [done|].
  intros Hin. apply list_elem_of_singleton in Hin. congruence.
Qed.

Lemma quiet_ensured (month m : string) (w : World) :
  is_Some (scheduleCache w !! month) → quiet month w (ensuredWorld m w).
Proof.
  intros [s Hs]. unfold ensuredWorld.
  destruct (scheduleCache w !! m) eqn:E; [apply quiet_refl|].
  apply (quiet_one _ (GET_schedule m)).
  - unfold fetchedWorld.
    destruct (api_schedule backend (length (sent w)) m) as [| | |[d|]];
      reflexivity.
  - intros [= ->]. congruence.
Qed.

Lemma quiet_reassignAll (month m date res : string) (hs : list string) :
  ∀ w, quiet month w (snd (reassignAll m date res hs w)).
Proof.
  induction hs as [|h rest IH]; intros w; [apply quiet_refl|].
  rewrite reassignAll_cons.
  set (p := mkAssignPayload m date res h _).
  destruct (api_manual_assign backend (length (sent w)) p) as [e|t|e|data].
  1-3: by apply (quiet_one _ (POST_manual_assign p)).
  eapply quiet_trans; [|apply IH].
  apply (quiet_one _ (POST_manual_assign p)); [by destruct data|done].
Qed.

Lemma quiet_undo (month : string) (w : World) :
  quiet month w (snd (undoLastChange w)).
Proof.
  destruct (lastChanges w) as [|c0 cs] eqn:Hl using rev_ind.
  { unfold undoLastChange. unfold bind, getWorld. rewrite Hl.
    by apply quiet_same. }
  clear IHcs. rewrite (undoLastChange_run _ _ _ Hl).
  set (w0 := set_lastChanges (fun _ => cs) w).
  eapply (quiet_trans _ _ w0); [by apply quiet_same|]. unfold tryCatch.
  destruct c0 as [m date res hosp|m date res hs|m res fd fh td th].
  - unfold undoChange. unfold_handler. cbv beta zeta.
    set (p := mkUnassignPayload m date res).
    destruct (api_manual_unassign backend _ p) as [e|t|e|[r|]]; simpl;
      by apply (quiet_one _ (POST_manual_unassign p)).
  - pose proof (quiet_reassignAll month m date res hs w0) as Hre.
    unfold undoChange. unfold bind.
    destruct (reassignAll m date res hs w0) as [[[|]|e] w1]; simpl in *;
      try exact Hre;
      (eapply quiet_trans; [exact Hre|by apply quiet_same]).
  - unfold undoChange. unfold_handler. cbv beta zeta.
    set (p := mkMovePayload m res td (Some th) fd fh _).
    destruct (api_manual_move backend _ p) as [e|t|e|[r|]]; simpl;
      by apply (quiet_one _ (POST_manual_move p)).
Qed.

Lemma quiet_handle (month : string) (ev : Event) (w : World) :
  is_Some (scheduleCache w !! month) → quiet month w (snd (handle ev w)).
Proof.
  intros Hs.
  destruct ev as [m|dateIso residentName m|dateIso residentName m hosp
                 |dateIso residentName m hs|monthKey dateStr ng raw
                 |monthKey meta targetDate hosp|monthKey d h|]; simpl.
  - pose proof (fetchSchedule_world m w) as Hw. unfold bind.
    destruct (fetchSchedule m w) as [[v|e] w1]; simpl in *; subst w1;
      by apply quiet_ensured.
  - unfold bind. rewrite openAssignModal_run. cbv zeta.
    pose proof (quiet_ensured month m w Hs) as He.
    destruct (hospitalsFor _ _) as [|h0 hs'].
    { simpl. eapply quiet_trans; [exact He|]. by apply quiet_same. }
    destruct (dialogCandidates _ _ _ _ _);
      [destruct (assignedHospitalsOn _ _ _)|]; simpl;
      (eapply quiet_trans; [exact He|]);
      by apply (quiet_one _ (GET_is_holiday dateIso)).
  - rewrite assignClick_run. simpl.
    set (payload := mkAssignPayload m dateIso residentName hosp _).
    destruct (capExceeded _ _ _); [by apply quiet_same|].
    destruct (api_manual_assign backend (length (sent w)) payload)
      as [e|t|e|data].
    1-3: by apply (quiet_one _ (POST_manual_assign payload)).
    set (w1 := notify _ _ _).
    eapply (quiet_trans _ _ w1).
    + apply (quiet_one _ (POST_manual_assign payload)); [by destruct data|done].
    + apply quiet_ensured. subst w1. destruct data as [r|]; simpl; [|done].
      destruct (decide (m = month)) as [->|Hne];
        [rewrite lookup_insert_eq; eauto|by rewrite lookup_insert_ne].
  - rewrite unassignClick_run. simpl.
    set (payload := mkUnassignPayload m dateIso residentName).
    destruct (api_manual_unassign backend (length (sent w)) payload)
      as [e|t|e|[r|]];
      by apply (quiet_one _ (POST_manual_unassign payload)).
  - unfold bind. rewrite calendarDrop_run.
    destruct (residentHighlight w) as [hl|]; [|apply quiet_refl].
    destruct (_ || _); [by apply quiet_same|].
    destruct raw as [meta|]; [|apply quiet_refl].
    destruct (String.eqb (from_date meta) dateStr); [by apply quiet_same|].
    cbv zeta. pose proof (quiet_ensured month monthKey w Hs) as He.
    destruct (dropCandidates _ _ _ _ _ _); simpl;
      (eapply quiet_trans; [exact He|]);
      by apply (quiet_one _ (GET_is_holiday dateStr)).
  - rewrite calendarMoveClick_run. simpl.
    set (payload := mkMovePayload monthKey _ _ _ _ _ _).
    destruct (api_manual_move backend (length (sent w)) payload)
      as [e|t|e|[r|]];
      by apply (quiet_one _ (POST_manual_move payload)).
  - destruct (tableDrop_no_move monthKey d h w) as (rest & Hsent & Hr).
    exists rest. split; [done|].
    destruct Hr as [->| ->]; [apply not_elem_of_nil|].
    intros Hin. apply list_elem_of_singleton in Hin. discriminate.
  - apply quiet_undo.
Qed.

(** X5.  Once a month has an entry in the schedule cache, be it a
    schedule or the error sentinel, no sequence of the handlers ever
    removes the entry or asks the backend for that month's schedule
    again: only the result of a mutation can replace what the cache
    shows for the month. *)
Theorem cached_month_never_refetched (month : string) (evs : list Event)
    (w : World) :
  is_Some (scheduleCache w !! month) →
  let w' := handleAll evs w in
  is_Some (scheduleCache w' !! month)
  ∧ ∃ rest, sent w' = sent w ++ rest ∧ GET_schedule month ∉ rest.
Proof.
  revert w. induction evs as [|ev rest IH]; intros w Hs; simpl.
  { split; [done|]. apply quiet_refl. }
  pose proof (handle_cacheStep month ev w Hs) as Hc.
  pose proof (cacheStep_is_Some _ _ _ Hc Hs) as Hs1.
  destruct (IH _ Hs1) as [Hs2 Hq]. split; [exact Hs2|].
  exact (quiet_trans _ _ _ _ (quiet_handle month ev w Hs) Hq).
Qed.

(** *** The preview highlight against the drop *)

Lemma remainingAt_holiday_mono (cfgAll : Config) (sched : Schedule)
    (h d : string) (holiday : bool) :
  remainingAt cfgAll sched h d false ≤ remainingAt cfgAll sched h d holiday.
Proof.
  unfold remainingAt.
  destruct (String.eqb h universityHospital), (isWeekend d), holiday;
    simpl; lia.
Qed.

(** X6.  The preview highlight is sound but not complete with respect to
    the capacity rule of the drop: leaving the holiday bonus out never
    raises a count, so every cell it marks as a drop target is a
    candidate of a drop onto that date whatever the holiday lookup
    answers, and a cell on an NG date of the resident is never marked as
    a target. *)
Theorem highlight_marks_only_droppable (cfgAll : Config)
    (cache : gmap string Schedule) (ngDates : list string)
    (monthKey d h : string) :
  highlightMark cfgAll cache ngDates monthKey d h = PreviewDropTarget →
  (d ∉ ngDates)
  ∧ ∀ holiday res hosps,
      h ∈ hosps →
      h ∈ (dropCandidates cfgAll (default emptyObject (cache !! monthKey))
             hosps d res holiday).*1.
Proof.
  unfold highlightMark, highlightRemaining.
  destruct (String.eqb d "" || String.eqb h ""); [discriminate|].
  destruct (bool_decide (d ∈ ngDates)) eqn:Hng; [discriminate|].
  apply bool_decide_eq_false in Hng.
  set (sched := default emptyObject (cache !! monthKey)).
  destruct (Z.ltb_spec 0 (remainingAt cfgAll sched h d false)) as [Hpos|];
    [|discriminate].
  intros _. split; [exact Hng|]. intros holiday res hosps Hin.
  apply fst_elem_of_pairs. exists (remainingAt cfgAll sched h d holiday).
  apply dropCandidates_elem. split_and!; try done. left.
  pose proof (remainingAt_holiday_mono cfgAll sched h d holiday). lia.
Qed.

(** *** Editing on top of a failed schedule fetch *)

(** X7.  With the error sentinel cached for the month the local checks
    see an empty schedule: the assign dialog offers every configured
    hospital whose capacity (with its bonus) is positive, with the full
    capacity as remaining count and no hospital to delete, and the cap
    check of the assign click counts zero assignments, so for a limit
    field that is absent, empty or an integer numeral it refuses only a
    limit below 1. *)
Theorem sentinel_disables_local_checks (month date res : string) (w : World) :
  scheduleCache w !! month = Some errorSentinel →
  let holiday := holidayAnswer (api_is_holiday backend (length (sent w)) date) in
  let bonus h :=
    if String.eqb h universityHospital && (isWeekend date || holiday)
    then 4 else 0 in
  (∀ modal,
     fst (openAssignModal date res month w) = Val (Some modal) →
     am_assignedHospitals modal = []
     ∧ ∀ h r, (h, r) ∈ am_candidates modal
              ↔ is_Some (currentCfg w !! h) ∧ h ≠ ""
                ∧ r = capacityOf (currentCfg w) h date + bonus h ∧ 0 < r)
  ∧ (integerField (maxAssignmentsValue w) = true →
     ∀ hosp,
       capExceeded (currentCount (scheduleCache w) month res)
         (assignedOnDate (scheduleCache w) month date res)
         (uiMaxOf (maxAssignmentsValue w))
       = (uiMaxOf (maxAssignmentsValue w) <? 1)
       ∧ (1 ≤ uiMaxOf (maxAssignmentsValue w) →
          ∃ rest,
            sent (snd (assignClick date res month hosp w))
            = sent w
              ++ POST_manual_assign
                   (mkAssignPayload month date res hosp
                      (Js.Int (uiMaxOf (maxAssignmentsValue w))))
                 :: rest)).
Proof.
  intros Hc holiday bonus.
  assert (Hrem : ∀ h, remainingAt (currentCfg w) errorSentinel h date holiday
                      = capacityOf (currentCfg w) h date + bonus h).
  { intros h. unfold remainingAt, bonus, assignedAt. simpl.
    destruct (_ && _); lia. }
  split.
  - intros modal. rewrite openAssignModal_run. unfold ensuredWorld.
    rewrite Hc. simpl. rewrite Hc. simpl. fold holiday.
    change (hospitalsFor errorSentinel (currentCfg w))
      with (objectKeys (currentCfg w)).
    destruct (objectKeys (currentCfg w)) as [|h0 hs] eqn:E; [discriminate|].
    rewrite <- E.
    assert (Hmem : ∀ h r,
              (h, r) ∈ dialogCandidates (currentCfg w) errorSentinel
                         (objectKeys (currentCfg w)) date holiday
              ↔ is_Some (currentCfg w !! h) ∧ h ≠ ""
                ∧ r = capacityOf (currentCfg w) h date + bonus h ∧ 0 < r).
    { intros h r. rewrite dialogCandidates_elem, objectKeys_elem, Hrem.
      tauto. }
    change (assignedHospitalsOn errorSentinel date res) with (@nil string).
    destruct (dialogCandidates _ _ _ _ _) as [|c cs] eqn:Ed; [discriminate|].
    intros [= <-]. simpl. split; [reflexivity|]. exact Hmem.
  - intros _ hosp.
    assert (Hcap : capExceeded (currentCount (scheduleCache w) month res)
                     (assignedOnDate (scheduleCache w) month date res)
                     (uiMaxOf (maxAssignmentsValue w))
                   = (uiMaxOf (maxAssignmentsValue w) <? 1)).
    { unfold currentCount, assignedOnDate. rewrite Hc. simpl.
      rewrite lookup_empty. reflexivity. }
    split; [exact Hcap|]. intros Hmax.
    rewrite assignClick_run, Hcap. simpl.
    destruct (Z.ltb_spec (uiMaxOf (maxAssignmentsValue w)) 1); [lia|].
    destruct (api_manual_assign backend (length (sent w)) _)
      as [e|t|e|data]; try (exists []; reflexivity).
    match goal with
    | |- context [ensuredWorld ?mo ?w1] =>
        destruct (ensuredWorld_sent mo w1) as [rest Hrest]
    end.
    exists rest. rewrite Hrest. destruct data; simpl; by rewrite <- app_assoc.
Qed.

(** *** Date strings *)

Lemma list_ascii_app (s1 s2 : string) :
  list_ascii_of_string (s1 +:+ s2)
  = list_ascii_of_string s1 ++ list_ascii_of_string s2.
Proof. induction s1 as [|c s1 IH]; simpl; [done|by rewrite IH]. Qed.

(** The text of a number read back digit by digit. *)
Lemma digitsValue_uint_acc (d : Decimal.uint) (acc : positive) :
  Js.digitsValue (Z.pos acc) (list_ascii_of_string (NilEmpty.string_of_uint d))
  = Some (Z.pos (Pos.of_uint_acc d acc)).
Proof.
  revert acc. induction d; intros acc; simpl; [done|..].
  all: rewrite <- IHd; f_equal.
  all: match goal with
       | |- context [Z.of_nat (nat_of_ascii ?c)] =>
           let v := eval vm_compute in (Z.of_nat (nat_of_ascii c)) in
           change (Z.of_nat (nat_of_ascii c)) with v
       end; lia.
Qed.

Lemma digitsValue_uint (d : Decimal.uint) :
  Js.digitsValue 0 (list_ascii_of_string (NilEmpty.string_of_uint d))
  = Some (Z.of_N (Pos.of_uint d)).
Proof.
  induction d; simpl; [done|exact IHd|..];
    apply (digitsValue_uint_acc d).
Qed.

Lemma digitsValue_bounds (cs : list ascii) (acc v : Z) :
  0 ≤ acc → Js.digitsValue acc cs = Some v →
  acc * 10 ^ Z.of_nat (length cs) ≤ v < (acc + 1) * 10 ^ Z.of_nat (length cs).
Proof.
  revert acc. induction cs as [|c cs IH]; intros acc Hacc Hv.
  - simpl in *. injection Hv as <-. lia.
  - simpl in Hv. destruct (Js.digitOf c) as [k|] eqn:Hk; [|done].
    assert (0 ≤ k ≤ 9) as Hk9.
    { unfold Js.digitOf in Hk. destruct (_ && _) eqn:E; [|done].
      injection Hk as <-. apply andb_true_iff in E. lia. }
    apply IH in Hv; [|lia].
    rewrite length_cons, Nat2Z.inj_succ, Z.pow_succ_r by lia.
    pose proof (Z.pow_pos_nonneg 10 (Z.of_nat (length cs)) ltac:(lia) ltac:(lia)).
    nia.
Qed.

Lemma to_uint_head (p : positive) :
  ∃ c cs k, list_ascii_of_string (NilEmpty.string_of_uint (Pos.to_uint p))
            = c :: cs ∧ Js.digitOf c = Some k ∧ 1 ≤ k.
Proof.
  assert (Hn : Decimal.unorm (Pos.to_uint p) = Pos.to_uint p).
  { rewrite <- (DecimalPos.Unsigned.to_of (Pos.to_uint p)).
    by rewrite DecimalPos.Unsigned.of_to. }
  pose proof (DecimalPos.Unsigned.to_uint_nonzero p) as Hz.
  pose proof (DecimalPos.Unsigned.to_uint_nonnil p) as Hnil.
  destruct (Pos.to_uint p) as [|d|d|d|d|d|d|d|d|d|d] eqn:E; [done|..];
    try (eexists _, _, _; split; [simpl; reflexivity|];
         split; [vm_compute; reflexivity|by vm_compute]).
  exfalso. rewrite DecimalFacts.unorm_D0 in Hn. unfold Decimal.unorm in Hn.
  destruct (Decimal.nzhead d) eqn:Ed; try discriminate.
  - done.
  - by apply DecimalFacts.nzhead_nonzero in Ed.
Qed.

Lemma toString_pos (p : positive) :
  Js.toString (Js.Int (Z.pos p)) = NilEmpty.string_of_uint (Pos.to_uint p).
Proof.
  simpl. pose proof (DecimalPos.Unsigned.to_uint_nonnil p).
  by destruct (Pos.to_uint p).
Qed.

Lemma toString_digits (z : Z) :
  0 ≤ z → Js.digitsValue 0 (list_ascii_of_string (Js.toString (Js.Int z))) = Some z.
Proof.
  intros Hz. destruct z as [|p|p]; [done| |lia].
  rewrite toString_pos, digitsValue_uint.
  by rewrite DecimalPos.Unsigned.of_to.
Qed.

Lemma toString_length (z : Z) (n : nat) :
  10 ^ Z.of_nat n ≤ z < 10 ^ Z.of_nat (S n) →
  length (list_ascii_of_string (Js.toString (Js.Int z))) = S n.
Proof.
  intros Hz.
  assert (0 < 10 ^ Z.of_nat n) by (apply Z.pow_pos_nonneg; lia).
  destruct z as [|p|p]; [lia| |lia].
  pose proof (toString_digits (Z.pos p) ltac:(lia)) as Hv.
  rewrite toString_pos in *.
  destruct (to_uint_head p) as (c & cs & k & Hcs & Hc & Hk).
  rewrite Hcs in *. 
  pose proof (digitsValue_bounds _ 0 _ ltac:(lia) Hv) as Hall.
  simpl in Hv. rewrite Hc in Hv.
  apply digitsValue_bounds in Hv; [|lia].
  rewrite length_cons in *.
  destruct (decide (length cs = n)) as [->|Hne]; [done|exfalso].
  destruct (decide (length cs < n)%nat).
  - assert (10 ^ Z.of_nat (S (length cs)) ≤ 10 ^ Z.of_nat n)
      by (apply Z.pow_le_mono_r; lia).
    lia.
  - assert (10 ^ Z.of_nat (S n) ≤ 10 ^ Z.of_nat (length cs))
      by (apply Z.pow_le_mono_r; lia).
    nia.
Qed.

Lemma fourDigits_range (y : Z) : 1000 ≤ y ≤ 9999 → fourDigits y = true.
Proof.
  intros Hy. unfold fourDigits.
  pose proof (toString_digits y ltac:(lia)) as Hv.
  pose proof (toString_length y 3 ltac:(simpl; lia)) as Hl.
  destruct (list_ascii_of_string (Js.toString (Js.Int y)))
    as [|a [|b [|c [|d [|? ?]]]]]; try discriminate.
  by apply bool_decide_eq_true.
Qed.

Lemma twoDigits_range (v : Z) : 1 ≤ v ≤ 31 → twoDigits v = true.
Proof.
  intros Hv.
  assert (Hall : forallb twoDigits (seqZ 1 31) = true)
    by (vm_compute; reflexivity).
  rewrite forallb_forall in Hall. apply Hall.
  apply list_elem_of_In, elem_of_seqZ. lia.
Qed.

Lemma lastDateOf_month (year month : Z) :
  100 ≤ year → 1 ≤ month ≤ 12 →
  lastDateOf year month = Js.daysInMonth year month.
Proof.
  intros Hy Hm. unfold lastDateOf, constructorYear.
  destruct (Z.leb_spec year 99); [lia|]. rewrite andb_false_r.
  rewrite Z.div_small, Z.mod_small by lia. f_equal; lia.
Qed.

Lemma daysInMonth_le_31 (y m : Z) : Js.daysInMonth y m ≤ 31.
Proof.
  unfold Js.daysInMonth.
  destruct (m =? 2); [destruct (Js.isLeap y); lia|].
  destruct (_ || _); lia.
Qed.

Lemma dateStr_chars (year month x : Z) :
  1000 ≤ year ≤ 9999 → 1 ≤ month ≤ 12 → 1 ≤ x ≤ lastDateOf year month →
  ∃ y1 y2 y3 y4 m1 m2 d1 d2,
    list_ascii_of_string (Js.toString (Js.Int year)) = [y1; y2; y3; y4]
    ∧ list_ascii_of_string (padStart 2 "0" (Js.toString (Js.Int month)))
      = [m1; m2]
    ∧ list_ascii_of_string (padStart 2 "0" (Js.toString (Js.Int x)))
      = [d1; d2]
    ∧ Js.digitsValue 0 [y1; y2; y3; y4] = Some year
    ∧ Js.digitsValue 0 [m1; m2] = Some month
    ∧ Js.digitsValue 0 [d1; d2] = Some x.
Proof.
  intros Hy Hm Hx. rewrite lastDateOf_month in Hx by lia.
  pose proof (daysInMonth_le_31 year month) as H31.
  pose proof (fourDigits_range year Hy) as Hfy.
  pose proof (twoDigits_range month ltac:(lia)) as Hfm.
  pose proof (twoDigits_range x ltac:(lia)) as Hfx.
  unfold fourDigits in Hfy. unfold twoDigits in Hfm, Hfx.
  destruct (list_ascii_of_string (Js.toString (Js.Int year)))
    as [|y1 [|y2 [|y3 [|y4 [|? ?]]]]]; try discriminate.
  destruct (list_ascii_of_string (padStart 2 "0" (Js.toString (Js.Int month))))
    as [|m1 [|m2 [|? ?]]]; try discriminate.
  destruct (list_ascii_of_string (padStart 2 "0" (Js.toString (Js.Int x))))
    as [|d1 [|d2 [|? ?]]]; try discriminate.
  apply bool_decide_eq_true in Hfy, Hfm, Hfx.
  exists y1, y2, y3, y4, m1, m2, d1, d2. done.
Qed.

Lemma dateStr_round_trip_parse (year month x : Z) :
  1000 ≤ year ≤ 9999 → 1 ≤ month ≤ 12 → 1 ≤ x ≤ lastDateOf year month →
  Js.parseIsoDate (dateStrOf year month x) = Some (year, month, x).
Proof.
  intros Hy Hm Hx.
  destruct (dateStr_chars year month x Hy Hm Hx)
    as (y1 & y2 & y3 & y4 & m1 & m2 & d1 & d2 & Ey & Em & Ed & Vy & Vm & Vd).
  rewrite lastDateOf_month in Hx by lia.
  unfold Js.parseIsoDate, dateStrOf, monthKeyOf.
  rewrite !list_ascii_app, Ey, Em, Ed. simpl app. cbv iota.
  change (Ascii.eqb "-" "-") with true. simpl andb. cbv iota.
  rewrite Vy, Vm, Vd.
  destruct (Z.leb_spec 1 month); [|lia].
  destruct (Z.leb_spec month 12); [|lia].
  destruct (Z.leb_spec 1 x); [|lia].
  destruct (Z.leb_spec x (Js.daysInMonth year month)); [|lia].
  reflexivity.
Qed.

(** X8.  The date strings the calendar builds are the ones the capacity
    lookup reads back: for a year of four digits and a day of the month
    shown, parsing [dateStrOf year month d] gives the year, month and day
    again, so the strings of different days differ, and the first seven
    characters of the string are the month key. *)
Theorem dateStr_round_trip (year month d : Z) :
  1000 ≤ year ≤ 9999 → 1 ≤ month ≤ 12 → 1 ≤ d ≤ lastDateOf year month →
  Js.parseIsoDate (dateStrOf year month d) = Some (year, month, d)
  ∧ (∀ d', 1 ≤ d' ≤ lastDateOf year month →
           dateStrOf year month d' = dateStrOf year month d → d' = d)
  ∧ substring 0 7 (dateStrOf year month d) = monthKeyOf year month.
Proof.
  intros Hy Hm Hd. split; [by apply dateStr_round_trip_parse|]. split.
  - intros d' Hd' Heq.
    pose proof (dateStr_round_trip_parse year month d' Hy Hm Hd') as H1.
    pose proof (dateStr_round_trip_parse year month d Hy Hm Hd) as H2.
    rewrite Heq in H1. congruence.
  - destruct (dateStr_chars year month d Hy Hm Hd)
      as (y1 & y2 & y3 & y4 & m1 & m2 & d1 & d2 & Ey & Em & Ed & _).
    rewrite <- (string_of_list_ascii_of_string (dateStrOf year month d)).
    rewrite <- (string_of_list_ascii_of_string (monthKeyOf year month)).
    unfold dateStrOf, monthKeyOf. rewrite !list_ascii_app, Ey, Em, Ed.
    reflexivity.
Qed.

(** X9.  The weekday the capacity lookup computes for such a date string
    is the weekday of its column in the calendar shifted by the whole
    days of the platform's offset from UTC: east of UTC (less than a day)
    they agree, and the weekday key is the Monday-first index of the
    column; west of UTC (at most a day) the lookup is one day behind. *)
Theorem weekday_of_calendar_day (year month d : Z) :
  1000 ≤ year ≤ 9999 → 1 ≤ month ≤ 12 → 1 ≤ d ≤ lastDateOf year month →
  Js.getDay utcOffset (dateStrOf year month d)
  = Js.Int ((localGetDay year month d + utcOffset / 1440) mod 7)
  ∧ (0 ≤ utcOffset < 1440 →
     Js.getDay utcOffset (dateStrOf year month d)
     = Js.Int (localGetDay year month d)
     ∧ weekdayOf (dateStrOf year month d)
       = Js.Int ((localGetDay year month d + 6) mod 7))
  ∧ (-1440 ≤ utcOffset < 0 →
     Js.getDay utcOffset (dateStrOf year month d)
     = Js.Int ((localGetDay year month d + 6) mod 7)).
Proof.
  intros Hy Hm Hd.
  pose proof (dateStr_round_trip_parse year month d Hy Hm Hd) as Hp.
  assert (Hl : localDayNumber year month d = Js.daysFromCivil year month d).
  { unfold localDayNumber, constructorYear.
    destruct (Z.leb_spec year 99); [lia|]. rewrite andb_false_r.
    rewrite Z.div_small, Z.mod_small by lia.
    replace (year + 0) with year by lia.
    replace (month - 1 + 1) with month by lia.
    unfold Js.daysFromCivil. lia. }
  assert (Hg : Js.getDay utcOffset (dateStrOf year month d)
               = Js.Int ((localGetDay year month d + utcOffset / 1440) mod 7)).
  { unfold Js.getDay. rewrite Hp. f_equal. unfold localGetDay. rewrite Hl.
    rewrite Z.div_add_l by lia. rewrite Zplus_mod_idemp_l. f_equal. lia. }
  assert (Hrange : 0 ≤ localGetDay year month d < 7).
  { unfold localGetDay. apply Z.mod_pos_bound. lia. }
  split; [exact Hg|]. split.
  - intros Hoff.
    assert (Hsame : Js.getDay utcOffset (dateStrOf year month d)
                    = Js.Int (localGetDay year month d)).
    { rewrite Hg, Z.div_small, Z.add_0_r, Z.mod_small by lia. reflexivity. }
    split; [exact Hsame|]. rewrite (weekdayOf_native _ _ Hsame). reflexivity.
  - intros Hoff. rewrite Hg. f_equal.
    replace (utcOffset / 1440) with (-1) by
      (apply Z.div_unique with (r := utcOffset + 1440); lia).
    replace (localGetDay year month d + -1)
      with (localGetDay year month d + 6 + (-1) * 7) by lia.
    by rewrite Z.mod_add.
Qed.

(** *** Month navigation *)

Lemma daysInMonth_ge_28 (y m : Z) : 28 ≤ Js.daysInMonth y m.
Proof.
  unfold Js.daysInMonth.
  destruct (m =? 2); [destruct (Js.isLeap y); lia|].
  destruct (_ || _); lia.
Qed.

Lemma monthKeyOf_inj (year month year' month' : Z) :
  1000 ≤ year ≤ 9999 → 1 ≤ month ≤ 12 →
  1000 ≤ year' ≤ 9999 → 1 ≤ month' ≤ 12 →
  monthKeyOf year month = monthKeyOf year' month' →
  year = year' ∧ month = month'.
Proof.
  intros Hy Hm Hy' Hm' Heq.
  assert (H1 : 1 ≤ 1 ≤ lastDateOf year month).
  { rewrite lastDateOf_month by lia.
    pose proof (daysInMonth_ge_28 year month). lia. }
  assert (H1' : 1 ≤ 1 ≤ lastDateOf year' month').
  { rewrite lastDateOf_month by lia.
    pose proof (daysInMonth_ge_28 year' month'). lia. }
  pose proof (dateStr_round_trip_parse year month 1 Hy Hm H1) as Hp.
  pose proof (dateStr_round_trip_parse year' month' 1 Hy' Hm' H1') as Hp'.
  unfold dateStrOf in Hp, Hp'. rewrite Heq in Hp. split; congruence.
Qed.

Lemma fetchSchedule_then {A} (month : string) (a : A) (w : World) :
  (fetchSchedule month ;; ret a) w = (Val a, ensuredWorld month w).
Proof.
  unfold ensuredWorld, bind. destruct (scheduleCache w !! month) eqn:E.
  - by rewrite (fetchSchedule_cached _ _ _ E).
  - by rewrite (fetchSchedule_miss _ _ E).
Qed.

(** X10.  The previous and the next button of the calendar are inverse
    to each other on the months 1 .. 12 and keep the month in that
    range; each looks the schedule of the month it arrives at up before
    the grid is drawn, and for years of four digits that month has a
    cache key different from the one left. *)
Theorem month_navigation (e : Editing) (w : World) :
  1 ≤ editingMonth e ≤ 12 →
  nextMonth (prevMonth e) = e
  ∧ prevMonth (nextMonth e) = e
  ∧ 1 ≤ editingMonth (prevMonth e) ≤ 12
  ∧ 1 ≤ editingMonth (nextMonth e) ≤ 12
  ∧ calPrev e w
    = (Val (prevMonth e),
       ensuredWorld (monthKeyOf (editingYear (prevMonth e))
                                (editingMonth (prevMonth e))) w)
  ∧ calNext e w
    = (Val (nextMonth e),
       ensuredWorld (monthKeyOf (editingYear (nextMonth e))
                                (editingMonth (nextMonth e))) w)
  ∧ (1001 ≤ editingYear e ≤ 9998 →
     monthKeyOf (editingYear (prevMonth e)) (editingMonth (prevMonth e))
     ≠ monthKeyOf (editingYear e) (editingMonth e)
     ∧ monthKeyOf (editingYear (nextMonth e)) (editingMonth (nextMonth e))
       ≠ monthKeyOf (editingYear e) (editingMonth e)).
Proof.
  intros Hm. destruct e as [h y m]. simpl in Hm.
  unfold calPrev, calNext. cbv zeta. rewrite !fetchSchedule_then.
  unfold prevMonth, nextMonth. simpl.
  destruct (Z.eqb_spec m 1) as [H1|H1]; destruct (Z.eqb_spec m 12) as [H12|H12];
    try lia; simpl.
  all: repeat match goal with
         | |- context [?a =? ?b] => destruct (Z.eqb_spec a b); try lia
         end.
  all: split_and!; try done; try lia; try (f_equal; lia).
  all: intros Hy; split; intros Heq;
    apply monthKeyOf_inj in Heq; lia.
Qed.

(** *** The grid of the calendar *)

Lemma fillRows_concat (first : Z) (n : nat) (d : Z) (row : list (option Z)) :
  concat (fillRows first n d row) = row ++ (Some <$> seqZ d (Z.of_nat n)).
Proof.
  revert d row. induction n as [|n IH]; intros d row.
  - simpl. destruct row; simpl; by rewrite ?app_nil_r.
  - rewrite Nat2Z.inj_succ, seqZ_cons by lia.
    replace (Z.pred (Z.succ (Z.of_nat n))) with (Z.of_nat n) by lia.
    simpl. destruct (Z.rem (first + d) 7 =? 0); simpl; rewrite IH;
      rewrite <- ?app_assoc; simpl; reflexivity.
Qed.

Lemma mod7_succ (a : Z) :
  (a + 1) mod 7 = if a mod 7 =? 6 then 0 else a mod 7 + 1.
Proof. destruct (Z.eqb_spec (a mod 7) 6); Z.div_mod_to_equations; lia. Qed.

Lemma fillRows_rows (first : Z) (n : nat) (d : Z) (row : list (option Z)) :
  0 ≤ first → 1 ≤ d →
  Z.of_nat (length row) = (first + d - 1) mod 7 →
  (∀ (j : nat) (x : Z),
     row !! j = Some (Some x) → Z.of_nat j = (first + x - 1) mod 7) →
  ∀ (i : nat) (r : list (option Z)),
    fillRows first n d row !! i = Some r →
    (0 < length r ≤ 7)%nat
    ∧ (S i < length (fillRows first n d row) → length r = 7%nat)%nat
    ∧ ∀ (j : nat) (x : Z),
        r !! j = Some (Some x) → Z.of_nat j = (first + x - 1) mod 7.
Proof.
  revert d row. induction n as [|n IH]; intros d row Hf Hd Hlen Hrow i r Hi.
  - simpl in Hi. destruct row as [|c row]; [done|].
    destruct i; [|done]. injection Hi as <-.
    pose proof (Z.mod_pos_bound (first + d - 1) 7 ltac:(lia)).
    split_and!; [simpl; lia|lia|simpl; lia|done].
  - simpl in Hi. simpl length.
    assert (Hrow' : ∀ (j : nat) (x : Z),
              (row ++ [Some d]) !! j = Some (Some x) →
              Z.of_nat j = (first + x - 1) mod 7).
    { intros j x Hj. apply lookup_app_Some in Hj as [Hj|[Hge Hj]]; [eauto|].
      apply list_lookup_singleton_Some in Hj as [Hj Hx].
      injection Hx as <-. clear -Hge Hj Hlen. lia. }
    rewrite Z.rem_mod_nonneg in * by lia.
    pose proof (mod7_succ (first + d - 1)) as Hs.
    replace (first + d - 1 + 1) with (first + d) in Hs by lia.
    pose proof (Z.mod_pos_bound (first + d - 1) 7 ltac:(lia)).
    destruct (Z.eqb_spec ((first + d - 1) mod 7) 6) as [H6|H6];
    destruct (Z.eqb_spec ((first + d) mod 7) 0) as [Hz|Hnz]; try lia.
    + destruct i as [|i].
      * injection Hi as <-. rewrite length_app. simpl.
        split_and!; [lia|lia|lia|done].
      * simpl in Hi. apply (IH (d + 1) []) in Hi; [|lia|lia| |done].
        2:{ simpl. replace (first + (d + 1) - 1) with (first + d) by lia. lia. }
        destruct Hi as (H1 & H2 & H3). split_and!; [lia|lia| |done].
        intros ?. apply H2. simpl in *. lia.
    + apply (IH (d + 1) (row ++ [Some d])) in Hi;
        [done|lia|lia| |done].
      rewrite length_app. simpl.
      replace (first + (d + 1) - 1) with (first + d) by lia. lia.
Qed.

Lemma localGetDay_first (year month d : Z) :
  (localGetDay year month 1 + d - 1) mod 7 = localGetDay year month d.
Proof.
  unfold localGetDay, localDayNumber. cbv zeta.
  rewrite <- Z.add_sub_assoc, Zplus_mod_idemp_l. f_equal. lia.
Qed.

(** X11.  The rows of the calendar grid: read row by row they are the
    leading blanks followed by the days 1 .. last of the month, once
    each and in order; no row is empty or longer than seven cells, every
    row but the last has seven; and each day stands in the column of its
    local day of the week, Sunday first. *)
Theorem calendar_grid_layout (year month : Z) :
  let rows := calendarRows year month in
  concat rows
  = replicate (Z.to_nat (localGetDay year month 1)) None
    ++ (Some <$> seqZ 1 (lastDateOf year month))
  ∧ ∀ (i : nat) (row : list (option Z)),
      rows !! i = Some row →
      (0 < length row ≤ 7)%nat
      ∧ (S i < length rows → length row = 7%nat)%nat
      ∧ ∀ (j : nat) (d : Z),
          row !! j = Some (Some d) → Z.of_nat j = localGetDay year month d.
Proof.
  intros rows. unfold rows, calendarRows.
  assert (Hf : 0 ≤ localGetDay year month 1 < 7)
    by (unfold localGetDay; apply Z.mod_pos_bound; lia).
  assert (Hl : 0 ≤ lastDateOf year month).
  { unfold lastDateOf, Js.daysInMonth. cbv zeta.
    repeat match goal with |- context [if ?b then _ else _] => destruct b end;
      lia. }
  split.
  - rewrite fillRows_concat. by rewrite Z2Nat.id by lia.
  - intros i row Hi.
    apply fillRows_rows in Hi.
    + destruct Hi as (H1 & H2 & H3). split_and!; [lia|lia|done|].
      intros j d Hj. rewrite <- localGetDay_first. by apply H3.
    + lia.
    + lia.
    + rewrite length_replicate, Z2Nat.id by lia.
      replace (localGetDay year month 1 + 1 - 1) with (localGetDay year month 1)
        by lia.
      by rewrite Z.mod_small.
    + intros j x Hj. apply lookup_replicate in Hj as [? _]. done.
Qed.

(** *** Saving the calendar *)

Lemma digitPrefix_uint (d : Decimal.uint) :
  digitPrefix (list_ascii_of_string (NilEmpty.string_of_uint d))
  = list_ascii_of_string (NilEmpty.string_of_uint d).
Proof. induction d; simpl; [done|..]; by rewrite IHd. Qed.

Lemma skipWhiteSpace_digit (c : ascii) (cs : list ascii) :
  isDigit c = true → skipWhiteSpace (c :: cs) = c :: cs.
Proof.
  destruct c as [[] [] [] [] [] [] [] []]; try discriminate; intros _;
    destruct cs as [|c2 [|c3 cs]]; reflexivity.
Qed.

Lemma uint_chars_head (d : Decimal.uint) :
  d ≠ Decimal.Nil →
  ∃ c cs, list_ascii_of_string (NilEmpty.string_of_uint d) = c :: cs
          ∧ isDigit c = true.
Proof. destruct d; [done|..]; intros _; eexists _, _; simpl; done. Qed.

Lemma parseInt10_toString (z : Z) : parseInt10 (Js.toString (Js.Int z)) = Js.Int z.
Proof.
  destruct z as [|p|p]; [reflexivity|..].
  - pose proof (toString_digits (Z.pos p) ltac:(lia)) as Hv.
    rewrite toString_pos in *.
    pose proof (digitPrefix_uint (Pos.to_uint p)) as Hp.
    destruct (uint_chars_head (Pos.to_uint p)
                (DecimalPos.Unsigned.to_uint_nonnil p)) as (c & cs & Hcs & Hc).
    unfold parseInt10. rewrite Hcs in *. rewrite skipWhiteSpace_digit by done.
    assert (Ascii.eqb c "-" = false ∧ Ascii.eqb c "+" = false) as [-> ->].
    { split; apply Ascii.eqb_neq; intros ->; discriminate. }
    rewrite Hp, Hv. reflexivity.
  - pose proof (toString_digits (Z.pos p) ltac:(lia)) as Hv.
    rewrite toString_pos in Hv.
    pose proof (digitPrefix_uint (Pos.to_uint p)) as Hp.
    destruct (uint_chars_head (Pos.to_uint p)
                (DecimalPos.Unsigned.to_uint_nonnil p)) as (c & cs & Hcs & Hc).
    assert (Ht : list_ascii_of_string (Js.toString (Js.Int (Z.neg p)))
                 = "-"%char :: c :: cs).
    { simpl. pose proof (DecimalPos.Unsigned.to_uint_nonnil p).
      destruct (Pos.to_uint p); [done|..]; simpl in *; by rewrite <- Hcs. }
    unfold parseInt10. rewrite Ht. rewrite Hcs in Hp, Hv.
    replace (skipWhiteSpace ("-"%char :: c :: cs)) with ("-"%char :: c :: cs)
      by (destruct cs; reflexivity).
    simpl Ascii.eqb. cbv iota beta. rewrite Hp, Hv. reflexivity.
Qed.

Lemma toString_nonempty (z : Z) : String.eqb (Js.toString (Js.Int z)) "" = false.
Proof.
  destruct z as [|p|p]; [reflexivity| |reflexivity].
  rewrite toString_pos.
  destruct (uint_chars_head (Pos.to_uint p)
              (DecimalPos.Unsigned.to_uint_nonnil p)) as (c & cs & Hcs & _).
  destruct (NilEmpty.string_of_uint (Pos.to_uint p)); [done|reflexivity].
Qed.

Lemma saved_toString (z : Z) :
  zeroIfNaN (parseInt10 (orZeroText (Js.toString (Js.Int z)))) = z.
Proof.
  unfold orZeroText. by rewrite toString_nonempty, parseInt10_toString.
Qed.

Lemma calSaveCell_day (year month d : Z) (text : string) (obj : gmap string Z) :
  calSaveCell year month obj (mkDayCell (Js.toString (Js.Int d)) text)
  = <[dateStrOf year month d := zeroIfNaN (parseInt10 (orZeroText text))]> obj.
Proof.
  unfold calSaveCell. cbn [cal_day_label cal_day_input].
  by rewrite parseInt10_toString.
Qed.

Lemma calSave_other (year month : Z) (value : Z → string) (ds : list Z)
    (obj : gmap string Z) (key : string) :
  (∀ d, d ∈ ds → key ≠ dateStrOf year month d) →
  foldl (calSaveCell year month) obj
    ((λ d, mkDayCell (Js.toString (Js.Int d)) (value d)) <$> ds) !! key
  = obj !! key.
Proof.
  revert obj. induction ds as [|a ds IH]; intros obj Hk; [done|].
  rewrite fmap_cons. cbn [foldl].
  rewrite IH by (intros; apply Hk; by right).
  rewrite calSaveCell_day, lookup_insert_ne; [done|].
  intros Heq. by apply (Hk a); [left|].
Qed.

Lemma calSave_day (year month : Z) (value : Z → string) (ds : list Z)
    (obj : gmap string Z) (d : Z) :
  NoDup ds → d ∈ ds →
  (∀ d', d' ∈ ds → dateStrOf year month d' = dateStrOf year month d → d' = d) →
  foldl (calSaveCell year month) obj
    ((λ d, mkDayCell (Js.toString (Js.Int d)) (value d)) <$> ds)
    !! dateStrOf year month d
  = Some (zeroIfNaN (parseInt10 (orZeroText (value d)))).
Proof.
  revert obj. induction ds as [|a ds IH]; intros obj Hnd Hin Hinj.
  - by apply elem_of_nil in Hin.
  - apply NoDup_cons in Hnd as [Ha Hnd]. rewrite fmap_cons. cbn [foldl].
    apply elem_of_cons in Hin as [->|Hin].
    + rewrite calSave_other.
      * by rewrite calSaveCell_day, lookup_insert_eq.
      * intros d' Hd' Heq. symmetry in Heq.
        apply Hinj in Heq; [|by right]. by subst.
    + apply IH; [done|done|]. intros d' Hd'. apply Hinj. by right.
Qed.

Lemma calSaveObject_day (year month : Z) (value : Z → string)
    (obj : gmap string Z) (d : Z) :
  1000 ≤ year ≤ 9999 → 1 ≤ month ≤ 12 → 1 ≤ d ≤ lastDateOf year month →
  calSaveObject year month (dayCells year month value) obj
    !! dateStrOf year month d
  = Some (zeroIfNaN (parseInt10 (orZeroText (value d)))).
Proof.
  intros Hy Hm Hd. unfold calSaveObject, dayCells.
  apply calSave_day.
  - apply NoDup_seqZ.
  - apply elem_of_seqZ. lia.
  - intros d' Hd' Heq. apply elem_of_seqZ in Hd'.
    pose proof (dateStr_round_trip_parse year month d' Hy Hm ltac:(lia)) as H1.
    pose proof (dateStr_round_trip_parse year month d Hy Hm Hd) as H2.
    rewrite Heq in H1. congruence.
Qed.

Lemma capacityOf_date_entry (cfgAll : Config) (hosp date : string)
    (obj : gmap string Z) (v : Z) :
  cfgAll !! hosp = Some obj → obj !! date = Some v →
  capacityOf cfgAll hosp date = v.
Proof.
  intros Hh Hv. rewrite capacityOf_entries. unfold configEntry.
  rewrite Hh. simpl. by rewrite Hv.
Qed.

(** X12.  Saving the calendar of a month pins every day of it: the
    object of the hospital then has, under the date string of each day,
    the number read from that day's input, [0] when the input is empty
    or not a number, and the capacity of the hospital on that date is
    this number whatever its weekday entries say; no other key of the
    object changes.  Saving the calendar as it was drawn therefore
    writes [0] for each day that had no entry of its own. *)
Theorem calendar_save_pins_month (year month : Z) (value : Z → string)
    (obj : gmap string Z) :
  1000 ≤ year ≤ 9999 → 1 ≤ month ≤ 12 →
  let saved := calSaveObject year month (dayCells year month value) obj in
  let untouched :=
    calSaveObject year month
      (dayCells year month (renderedValue (Some obj) year month)) obj in
  (∀ d, 1 ≤ d ≤ lastDateOf year month →
     saved !! dateStrOf year month d
     = Some (zeroIfNaN (parseInt10 (orZeroText (value d))))
     ∧ (∀ cfgAll hosp, cfgAll !! hosp = Some saved →
          capacityOf cfgAll hosp (dateStrOf year month d)
          = zeroIfNaN (parseInt10 (orZeroText (value d))))
     ∧ untouched !! dateStrOf year month d
       = Some (default 0 (obj !! dateStrOf year month d)))
  ∧ (∀ key, (∀ d, 1 ≤ d ≤ lastDateOf year month →
               key ≠ dateStrOf year month d) →
       saved !! key = obj !! key).
Proof.
  intros Hy Hm saved untouched. split.
  - intros d Hd.
    pose proof (calSaveObject_day year month value obj d Hy Hm Hd) as Hs.
    split_and!.
    + exact Hs.
    + intros cfgAll hosp Hh. by apply (capacityOf_date_entry _ _ _ saved).
    + unfold untouched. rewrite calSaveObject_day by done.
      unfold renderedValue. rewrite saved_toString. reflexivity.
  - intros key Hk. unfold saved, calSaveObject, dayCells.
    apply calSave_other. intros d Hd. apply elem_of_seqZ in Hd.
    apply Hk. lia.
Qed.

(** *** The bulk setters *)

Lemma bulkSet_cells (year month : Z) (weekdayArray : list Z)
    (bulkValue : string) (value : Z → string) (ds : list Z) :
  bulkSetForWeekdays year month weekdayArray bulkValue
    ((λ d, mkDayCell (Js.toString (Js.Int d)) (value d)) <$> ds)
  = (λ d, mkDayCell (Js.toString (Js.Int d))
            (if bool_decide (localGetDay year month d ∈ weekdayArray)
             then Js.toString
                    (Js.Int (zeroIfNaN (parseInt10 (orZeroText bulkValue))))
             else value d)) <$> ds.
Proof.
  unfold bulkSetForWeekdays. rewrite <- list_fmap_compose.
  apply list_fmap_ext. intros i d _. unfold compose.
  cbn [cal_day_label cal_day_input].
  rewrite parseInt10_toString. unfold localGetDayOf, includes.
  by destruct (bool_decide (localGetDay year month d ∈ weekdayArray)).
Qed.

(** X13.  A bulk button writes the number read from the bulk input
    ([0] when it is empty or not a number) into the inputs of exactly
    the days whose local day of the week is in the button's array and
    leaves the other inputs alone; saving afterwards stores that number
    for those days.  None of the three buttons reaches a Sunday, and
    the clear button makes every day [0]. *)
Theorem bulk_set_then_save (year month : Z) (weekdayArray : list Z)
    (bulkValue : string) (value : Z → string) (obj : gmap string Z) :
  let v := zeroIfNaN (parseInt10 (orZeroText bulkValue)) in
  let chosen := λ d, bool_decide (localGetDay year month d ∈ weekdayArray) in
  let cells :=
    bulkSetForWeekdays year month weekdayArray bulkValue
      (dayCells year month value) in
  cells
  = dayCells year month
      (λ d, if chosen d then Js.toString (Js.Int v) else value d)
  ∧ bulkClearAll (dayCells year month value)
    = dayCells year month (λ _, "0")
  ∧ (∀ d, localGetDay year month d = 0 →
       weekdayArray ∈ [bulkTue; bulkWeekdays; bulkSat] → chosen d = false)
  ∧ (1000 ≤ year ≤ 9999 → 1 ≤ month ≤ 12 →
     ∀ d, 1 ≤ d ≤ lastDateOf year month →
       calSaveObject year month cells obj !! dateStrOf year month d
       = Some (if chosen d then v
               else zeroIfNaN (parseInt10 (orZeroText (value d))))
       ∧ calSaveObject year month (bulkClearAll (dayCells year month value))
           obj !! dateStrOf year month d
         = Some 0).
Proof.
  intros v chosen cells.
  assert (Hcells : cells
            = dayCells year month
                (λ d, if chosen d then Js.toString (Js.Int v) else value d))
    by apply bulkSet_cells.
  assert (Hclear : bulkClearAll (dayCells year month value)
                   = dayCells year month (λ _, "0")).
  { unfold bulkClearAll, dayCells. rewrite <- list_fmap_compose.
    by apply list_fmap_ext. }
  split_and!; [exact Hcells|exact Hclear| |].
  - intros d Hsun Harr. unfold chosen. rewrite Hsun.
    apply bool_decide_eq_false.
    rewrite !elem_of_cons in Harr.
    destruct Harr as [->|[->|[->|Harr]]]; [| | |by apply elem_of_nil in Harr];
      unfold bulkTue, bulkWeekdays, bulkSat;
      rewrite !elem_of_cons, elem_of_nil; lia.
  - intros Hy Hm d Hd. split.
    + rewrite Hcells, calSaveObject_day by done.
      destruct (chosen d); [|done]. by rewrite saved_toString.
    + rewrite Hclear, calSaveObject_day by done. reflexivity.
Qed.

(** *** Saving the table of hospitals *)

Lemma elem_of_rev {A} (x : A) (l : list A) : x ∈ rev l ↔ x ∈ l.
Proof. rewrite !list_elem_of_In. symmetry. apply in_rev. Qed.

Lemma newCfgOf_lookup (cur : Config) (rows : list TableRow) (h : string) :
  newCfgOf cur rows !! h
  = if String.eqb h "" then None
    else rowEntry cur
           <$> List.find (λ tr, String.eqb (nameInput tr) h) (rev rows).
Proof.
  unfold newCfgOf. revert rows.
  apply (rev_ind (λ rows, foldl (saveRow cur) ∅ rows !! h = _));
    [|intros tr rows IH].
  - simpl. rewrite lookup_empty. by destruct (String.eqb h "").
  - rewrite foldl_app, rev_unit. simpl.
    unfold saveRow at 1. fold (rowEntry cur tr).
    destruct (String.eqb_spec (nameInput tr) "") as [He|He].
    + rewrite IH. destruct (String.eqb_spec h "") as [->|Hh]; [done|].
      rewrite He. destruct (String.eqb_spec "" h) as [<-|]; done.
    + assert (Hins : (match
                        (if String.eqb (origName tr) "" then None
                         else cur !! origName tr)
                      with
                      | Some o => <[nameInput tr := o]>
                                    (foldl (saveRow cur) ∅ rows)
                      | None =>
                          match cur !! nameInput tr with
                          | Some o => <[nameInput tr := o]>
                                        (foldl (saveRow cur) ∅ rows)
                          | None => <[nameInput tr := ∅]>
                                      (foldl (saveRow cur) ∅ rows)
                          end
                      end)
                     = <[nameInput tr := rowEntry cur tr]>
                         (foldl (saveRow cur) ∅ rows)).
      { unfold rowEntry.
        destruct (if String.eqb (origName tr) "" then None
                  else cur !! origName tr); [done|].
        by destruct (cur !! nameInput tr). }
      rewrite Hins.
      destruct (String.eqb_spec (nameInput tr) h) as [<-|Hne].
      * rewrite lookup_insert_eq.
        by destruct (String.eqb_spec (nameInput tr) "").
      * by rewrite lookup_insert_ne, IH.
Qed.

(** X14.  The configuration [saveConfig] builds from the rows of the
    table: a hospital is in it exactly when a row with a non-blank name
    names it, and the last such row decides its entries: a row that
    carries an original name known to the current configuration keeps
    the entries of that name (so a rename keeps the calendar), any other
    row keeps the entries already under its name or starts empty.  Rows
    that still carry their own names give the configuration back,
    provided no hospital has the empty name. *)
Theorem save_config_rows (cur : Config) (rows : list TableRow) :
  (∀ before tr after,
     rows = before ++ tr :: after →
     nameInput tr ≠ "" →
     (∀ r, r ∈ after → nameInput r ≠ nameInput tr) →
     newCfgOf cur rows !! nameInput tr = Some (rowEntry cur tr)
     ∧ (∀ o, origName tr ≠ "" → cur !! origName tr = Some o →
             newCfgOf cur rows !! nameInput tr = Some o))
  ∧ (∀ h, (∀ r, r ∈ rows → nameInput r ≠ h) → newCfgOf cur rows !! h = None)
  ∧ newCfgOf cur rows !! "" = None
  ∧ (∀ names,
       names ≡ₚ (map_to_list cur).*1 → cur !! "" = None →
       newCfgOf cur ((λ n, mkTableRow n n) <$> names) = cur).
Proof.
  split_and!.
  - intros before tr after -> Hname Hafter.
    assert (Hl : newCfgOf cur (before ++ tr :: after) !! nameInput tr
                 = Some (rowEntry cur tr)).
    { rewrite newCfgOf_lookup.
      destruct (String.eqb_spec (nameInput tr) ""); [done|].
      rewrite rev_app_distr. simpl. rewrite <- app_assoc. simpl.
      assert (Hnone : ∀ l : list TableRow,
                (∀ r, r ∈ l → nameInput r ≠ nameInput tr) →
                ∀ rest,
                  List.find (λ r, String.eqb (nameInput r) (nameInput tr))
                    (l ++ rest)
                  = List.find (λ r, String.eqb (nameInput r) (nameInput tr))
                      rest).
      { induction l as [|a l IHl]; intros Hl rest; [done|]. simpl.
        destruct (String.eqb_spec (nameInput a) (nameInput tr)) as [E|E].
        - exfalso. by apply (Hl a); [left|].
        - apply IHl. intros r Hr. apply Hl. by right. }
      rewrite Hnone.
      - simpl. by rewrite String.eqb_refl.
      - intros r Hr. apply Hafter. by apply elem_of_rev. }
    split; [exact Hl|]. intros o Ho Hc. rewrite Hl. f_equal.
    unfold rowEntry. destruct (String.eqb_spec (origName tr) ""); [done|].
    by rewrite Hc.
  - intros h Hh. rewrite newCfgOf_lookup.
    destruct (String.eqb h ""); [done|].
    destruct (List.find _ (rev rows)) as [r|] eqn:Hf; [|done].
    apply find_some in Hf as [Hin Heq]. exfalso.
    apply String.eqb_eq in Heq. apply (Hh r); [|done].
    apply elem_of_rev, list_elem_of_In. done.
  - rewrite newCfgOf_lookup. reflexivity.
  - intros names Hperm Hblank. apply map_eq. intros h.
    rewrite newCfgOf_lookup.
    destruct (String.eqb_spec h "") as [->|Hh]; [done|].
    destruct (List.find _ _) as [r|] eqn:Hf.
    + apply find_some in Hf as [Hin Heq]. apply String.eqb_eq in Heq.
      apply list_elem_of_In, elem_of_rev, list_elem_of_fmap in Hin
        as (n & -> & Hn). simpl in Heq. subst n.
      rewrite Hperm in Hn. apply list_elem_of_fmap in Hn as ([k o] & -> & Hko).
      apply elem_of_map_to_list in Hko. simpl. unfold rowEntry. simpl.
      rewrite Hko. by destruct (String.eqb k "").
    + simpl. destruct (cur !! h) as [o|] eqn:Ho; [|done]. exfalso.
      assert (Hn : h ∈ names).
      { rewrite Hperm. apply list_elem_of_fmap. exists (h, o).
        split; [done|]. by apply elem_of_map_to_list. }
      pose proof (find_none _ _ Hf (mkTableRow h h)) as Hnone.
      simpl in Hnone. rewrite String.eqb_refl in Hnone.
      assert (In (mkTableRow h h) (rev ((λ n, mkTableRow n n) <$> names))).
      { apply list_elem_of_In, elem_of_rev, list_elem_of_fmap. by exists h. }
      by specialize (Hnone ltac:(done)).
Qed.

(** *** Selecting a resident, opening and closing the calendar *)

Lemma residentsLookup_highlight (month : string) (w : World) :
  residentHighlight (snd (residentsLookup month w)) = residentHighlight w.
Proof.
  unfold residentsLookup. destruct (residentsCache w !! month); [done|].
  by destruct (api_residents backend (length (sent w)) month).
Qed.

Lemma selectResident_run (monthKey residentName : string) (w : World) :
  selectResident monthKey residentName w
  = (Val tt,
     notify (residentName
             +:+ " を選択しました。移動可能箇所がハイライトされます。")
       "info"
       (snd (residentsLookup monthKey
               (set_residentHighlight
                  (λ _, Some (mkHighlight residentName monthKey
                                (ngDatesOf
                                   (findResident
                                      (fst (residentsLookup monthKey w))
                                      residentName))))
                  (snd (residentsLookup monthKey w)))))).
Proof.
  unfold selectResident. unfold bind at 1. rewrite fetchResidents_run.
  unfold bind at 1. unfold modify. unfold bind.
  rewrite fetchResidents_run. reflexivity.
Qed.

(** X15.  Clicking an assigned name in the table selects the resident:
    the highlight then carries the NG dates of the first resident of
    that name in the list the lookup gave, and none when the lookup
    failed or the name is not in the list.  With the month's residents
    cached no request goes out.  When the residents are not cached and
    the request fails, the highlight has no NG dates, the request is
    made a second time, and that second answer alone decides what the
    cache holds afterwards.  Closing the calendar drops the highlight,
    after which a drop on a calendar cell does nothing. *)
Theorem select_resident_highlight (monthKey residentName : string)
    (e : Editing) (w : World) :
  let w' := snd (selectResident monthKey residentName w) in
  let closed := snd (closeCalendar e w') in
  fst (selectResident monthKey residentName w) = Val tt
  ∧ residentHighlight w'
    = Some (mkHighlight residentName monthKey
              (ngDatesOf (findResident (fst (residentsLookup monthKey w))
                            residentName)))
  ∧ (is_Some (residentsCache w !! monthKey) → sent w' = sent w)
  ∧ (residentsCache w !! monthKey = None →
     (∀ l, api_residents backend (length (sent w)) monthKey ≠ HttpOk l) →
     hl_ng_dates <$> residentHighlight w' = Some []
     ∧ sent w'
       = sent w ++ [GET_residents monthKey; GET_residents monthKey]
     ∧ residentsCache w' !! monthKey
       = match api_residents backend (S (length (sent w))) monthKey with
         | HttpOk l => Some l
         | _ => None
         end)
  ∧ residentHighlight closed = None
  ∧ lastChanges closed = lastChanges w
  ∧ ∀ month dateStr ngDayClass raw,
      calendarDrop month dateStr ngDayClass raw closed = (Val None, closed).
Proof.
  intros w' closed. unfold closed, w'. rewrite selectResident_run.
  cbn [fst snd].
  split_and!.
  - reflexivity.
  - unfold notify. cbn [residentHighlight set_notices].
    by rewrite residentsLookup_highlight.
  - intros [l Hl]. unfold residentsLookup. rewrite Hl. cbn [fst snd].
    cbn [residentsCache set_residentHighlight]. rewrite Hl. reflexivity.
  - intros Hmiss Hfail.
    assert (Hr : residentsLookup monthKey w
                 = (None, sending (GET_residents monthKey) w)).
    { unfold residentsLookup. rewrite Hmiss.
      destruct (api_residents backend (length (sent w)) monthKey) eqn:E;
        try reflexivity.
      by destruct (Hfail json). }
    rewrite Hr. cbn [fst snd]. split_and!.
    + unfold notify. cbn [residentHighlight set_notices].
      by rewrite residentsLookup_highlight.
    + unfold residentsLookup.
      cbn [residentsCache set_residentHighlight sending set_sent sent].
      rewrite Hmiss, length_app. simpl length.
      replace (length (sent w) + 1)%nat with (S (length (sent w))) by lia.
      destruct (api_residents backend (S (length (sent w))) monthKey);
        cbn; by rewrite <- app_assoc.
    + unfold residentsLookup.
      cbn [residentsCache set_residentHighlight sending set_sent sent].
      rewrite Hmiss, length_app. simpl length.
      replace (length (sent w) + 1)%nat with (S (length (sent w))) by lia.
      destruct (api_residents backend (S (length (sent w))) monthKey);
        cbn; rewrite ?lookup_insert_eq; done.
  - reflexivity.
  - unfold closeCalendar, bind, modify, ret.
    cbn [snd lastChanges set_residentHighlight notify set_notices].
    unfold residentsLookup.
    destruct (residentsCache w !! monthKey);
      [|destruct (api_residents backend (length (sent w)) monthKey)];
      cbn [fst snd residentsCache set_residentHighlight sending set_sent
           set_residentsCache sent];
      repeat match goal with
        | |- context [match ?c with _ => _ end] => destruct c
        end; reflexivity.
  - intros month dateStr ngDayClass raw. by rewrite calendarDrop_run.
Qed.

Lemma capacityOf_empty_entry (cfgAll : Config) (hospital hosp date : string) :
  cfgAll !! hospital = None →
  capacityOf (<[hospital := ∅]> cfgAll) hosp date = capacityOf cfgAll hosp date.
Proof.
  intros Hnone. unfold capacityOf.
  destruct (decide (hosp = hospital)) as [->|Hne].
  - rewrite lookup_insert_eq, Hnone. simpl. by rewrite !lookup_empty.
  - by rewrite lookup_insert_ne.
Qed.

(** X16.  Opening the calendar of a hospital changes no capacity: a
    hospital the configuration does not know is added to it with no
    entries, every other hospital keeps its own, and the capacity of
    every hospital on every date is what it was.  The only request that
    can go out is the one for the schedule of the current month, and a
    blank name gives an error notice and nothing else. *)
Theorem open_calendar_keeps_capacities (hospital : string)
    (nowYear nowMonth : Z) (e : Editing) (w : World) :
  let w' := snd (openCalendar hospital nowYear nowMonth e w) in
  (∀ hosp date,
     capacityOf (currentCfg w') hosp date = capacityOf (currentCfg w) hosp date)
  ∧ (∀ hosp, hosp ≠ hospital → currentCfg w' !! hosp = currentCfg w !! hosp)
  ∧ (hospital ≠ "" →
     fst (openCalendar hospital nowYear nowMonth e w)
     = Val (mkEditing (Some hospital) nowYear nowMonth)
     ∧ currentCfg w' !! hospital = Some (default ∅ (currentCfg w !! hospital))
     ∧ ∃ w1, currentCfg w1 = currentCfg w' ∧ sent w1 = sent w
             ∧ scheduleCache w1 = scheduleCache w
             ∧ w' = ensuredWorld (monthKeyOf nowYear nowMonth) w1)
  ∧ (hospital = "" →
     w' = notify "病院名を指定してください" "error" w).
Proof.
  intros w'. unfold w', openCalendar.
  destruct (String.eqb_spec hospital "") as [->|Hne].
  - unfold bind, showMessage, modify, ret. cbn [fst snd].
    split_and!; try done.
  - set (w1 := set_currentCfg
                 (λ cfg, match cfg !! hospital with
                         | Some _ => cfg
                         | None => <[hospital := ∅]> cfg
                         end) w).
    assert (Hrun : (modify (set_currentCfg
                      (λ cfg, match cfg !! hospital with
                              | Some _ => cfg
                              | None => <[hospital := ∅]> cfg
                              end)) ;;
                    fetchSchedule (monthKeyOf nowYear nowMonth) ;;
                    ret (mkEditing (Some hospital) nowYear nowMonth)) w
                   = (Val (mkEditing (Some hospital) nowYear nowMonth),
                      ensuredWorld (monthKeyOf nowYear nowMonth) w1)).
    { unfold bind at 1. unfold modify. fold w1. apply fetchSchedule_then. }
    rewrite Hrun. cbn [fst snd].
    assert (Hcfg : currentCfg (ensuredWorld (monthKeyOf nowYear nowMonth) w1)
                   = currentCfg w1).
    { unfold ensuredWorld. destruct (scheduleCache w1 !! _); [done|].
      unfold fetchedWorld.
      destruct (api_schedule backend _ _) as [| | |[d|]]; reflexivity. }
    rewrite Hcfg. unfold w1 at 1 2 3. cbn [currentCfg set_currentCfg].
    split_and!.
    + intros hosp date. destruct (currentCfg w !! hospital) eqn:E; [done|].
      by apply capacityOf_empty_entry.
    + intros hosp Hh. destruct (currentCfg w !! hospital); [done|].
      by rewrite lookup_insert_ne.
    + intros _. split_and!; [done| |].
      * destruct (currentCfg w !! hospital) eqn:E; [by rewrite E|].
        by rewrite lookup_insert_eq.
      * exists w1. split_and!; done.
    + done.
Qed.

(** X17.  The class [ng-day] of a calendar cell and the drop handler:
    a cell drawn under the highlight that is still current carries the
    class only if its date is among the highlight's NG dates, so the
    class adds nothing to the handler's own test; a class left over from
    an earlier drawing, however, refuses the drop by itself. *)
Theorem ng_class_only_matters_when_stale (monthKey : string)
    (year month d : Z) (raw : option DragMeta) (w : World) :
  calendarDrop monthKey (dateStrOf year month d)
    (ngDayClassOf (residentHighlight w) year month d) raw w
  = calendarDrop monthKey (dateStrOf year month d) false raw w
  ∧ (is_Some (residentHighlight w) →
     ∀ dateStr,
       calendarDrop monthKey dateStr true raw w
       = (Val None, notify "NG日にはドロップできません" "error" w)).
Proof.
  split.
  - rewrite !calendarDrop_run. unfold ngDayClassOf.
    destruct (residentHighlight w) as [hl|]; [|done].
    destruct (bool_decide (dateStrOf year month d ∈ hl_ng_dates hl));
      [|by rewrite andb_false_r].
    by rewrite !orb_true_r.
  - intros [hl Hhl] dateStr. rewrite calendarDrop_run, Hhl. reflexivity.
Qed.
End Editor.

(** ** The properties on the sample month *)

(** C1.  On the sample month alice is dragged from General on the 2nd
    onto the university hospital on the 6th, a Saturday that is not among
    her NG dates and has five remaining slots.  The drop handler asks for
    the residents, fails on line 701 and reports it; no move request is
    issued and nothing is logged. *)
Theorem table_drop_sends_no_move :
  let out :=
    snd (tableDrop 540 sampleBackend "2024-01" "2024-01-06" "大学病院"
           sampleWorld) in
  currentDragMeta sampleWorld
  = Some (mkDragMeta "alice" "2024-01-02" (Some "General"))
  ∧ findResident (Some [mkResident "alice" ["2024-01-03"]]) "alice"
    = Some (mkResident "alice" ["2024-01-03"])
  ∧ bool_decide ("2024-01-06" ∈ ["2024-01-03"]) = false
  ∧ remainingAt 540 sampleCfg sampleSchedule "大学病院" "2024-01-06" false = 5
  ∧ sent out = [GET_residents "2024-01"]
  ∧ notices out = [("移動処理エラー: sched is not defined", "error")]
  ∧ lastChanges out = []
  ∧ scheduleCache out = scheduleCache sampleWorld.
Proof. vm_compute. repeat split. Qed.

(** The day of the week of a date string depends on the platform's zone:
    the 2nd of January 2024 reads as Tuesday at UTC+9 and, being midnight
    UTC, as Monday at UTC-5. *)
Remark getDay_depends_on_zone :
  Js.getDay 540 "2024-01-02" = Js.Int 2
  ∧ Js.getDay (-300) "2024-01-02" = Js.Int 1.
Proof. split; vm_compute; reflexivity. Qed.



(** C5 on the sample: alice has two assignments, none on the 6th, and the
    limit is 2. *)
Lemma assign_cap_check_witness :
  assignClick sampleBackend "2024-01-06" "alice" "2024-01" "大学病院"
    sampleWorld
  = (Val tt, notify (capMessage 2) "assign-error" sampleWorld).
Proof.
  destruct (assign_cap_check sampleBackend "2024-01-06" "alice" "2024-01"
              "大学病院" sampleWorld eq_refl) as (_ & _ & _ & H).
  apply H; vm_compute; reflexivity.
Defined.

(** C10 on the sample with the field reading 0: the limit is 2 and bob's
    assign request carries it. *)
Lemma max_assignments_default_witness :
  uiMaxOf (maxAssignmentsValue zeroLimitWorld) = 2
  ∧ ap_max_assignments
      (mkAssignPayload "2024-01" "2024-01-06" "bob" "大学病院" (Js.Int 2))
    = Js.Int (uiMaxOf (maxAssignmentsValue zeroLimitWorld)).
Proof.
  destruct (max_assignments_default 540 sampleBackend zeroLimitWorld eq_refl)
    as (Hfallback & _ & _ & Hassign & _).
  split.
  - apply Hfallback. right. right. exists "0".
    split; vm_compute; reflexivity.
  - apply (Hassign "2024-01-06" "bob" "2024-01" "大学病院"
             [POST_manual_assign
                (mkAssignPayload "2024-01" "2024-01-06" "bob" "大学病院"
                   (Js.Int 2))]).
    + vm_compute. reflexivity.
    + apply list_elem_of_here.
Defined.

(** C2 on the sample: alice dropped onto the 8th, where she already holds
    the university hospital. *)
Lemma candidate_sets_witness :
  ∃ cands,
    fst (calendarDrop 540 sampleBackend "2024-01" "2024-01-08" false
           (Some (mkDragMeta "alice" "2024-01-02" (Some "General")))
           sampleWorld)
    = Val (match cands with
           | [] => None
           | _ :: _ =>
               Some (mkMoveModal "2024-01"
                       (mkDragMeta "alice" "2024-01-02" (Some "General"))
                       "2024-01-08" cands)
           end)
    ∧ "大学病院" ∈ cands.*1.
Proof.
  set (meta := mkDragMeta "alice" "2024-01-02" (Some "General")).
  destruct (candidate_sets 540 sampleBackend "2024-01" "2024-01-08" "alice"
              sampleSchedule sampleWorld eq_refl) as [Hdrop _].
  destruct (Hdrop (mkHighlight "alice" "2024-01" ["2024-01-03"]) meta)
    as (cands & Hrun & Hmem).
  - reflexivity.
  - intros Hin. apply list_elem_of_singleton in Hin. discriminate.
  - discriminate.
  - reflexivity.
  - exists cands. split; [exact Hrun|]. apply Hmem. split.
    + vm_compute. apply list_elem_of_further, list_elem_of_here.
    + right. vm_compute. apply list_elem_of_here.
Defined.


(** C7 on the sample: undoing the last entry leaves the earlier one. *)
Lemma undo_issues_inverse_witness :
  lastChanges (snd (undoLastChange sampleBackend undoWorld))
  = [ChAssign "2024-01" "2024-01-06" "bob" "General"].
Proof.
  apply (proj1 (undo_issues_inverse sampleBackend undoWorld
                  [ChAssign "2024-01" "2024-01-06" "bob" "General"]
                  (ChUnassign "2024-01" "2024-01-02" "alice"
                     ["General"; "大学病院"])
                  eq_refl)).
Defined.

(** C8 on the sample: an assign that the backend refuses leaves the log
    and the cache alone, and so does a calendar drop. *)
Lemma changes_logged_after_confirmation_witness :
  lastChanges
    (snd (assignClick refusingBackend "2024-01-06" "bob" "2024-01" "大学病院"
            sampleWorld))
  = lastChanges sampleWorld
  ∧ scheduleCache
      (snd (calendarDrop 540 refusingBackend "2024-01" "2024-01-04" false
              (Some (mkDragMeta "alice" "2024-01-02" (Some "General")))
              sampleWorld))
    = scheduleCache sampleWorld.
Proof.
  destruct (changes_logged_after_confirmation 540 refusingBackend sampleWorld)
    as (Hassign & _ & _ & Hdrop & _).
  split.
  - destruct (Hassign "2024-01-06" "bob" "2024-01" "大学病院")
      as [(_ & Hconfirmed & _)|(_ & Hlog & _)].
    + vm_compute in Hconfirmed. discriminate.
    + exact Hlog.
  - apply (Hdrop "2024-01" "2024-01-04" false
             (Some (mkDragMeta "alice" "2024-01-02" (Some "General")))).
    exists sampleSchedule. reflexivity.
Defined.

(** C9 on the sample: February is not cached and the backend has no
    schedule to give, so the sentinel is cached; an assign in February
    that the backend confirms with a schedule then replaces it. *)
Lemma failed_fetch_is_cached_witness :
  let w := snd (fetchSchedule sampleBackend "2024-02" sampleWorld) in
  fst (fetchSchedule sampleBackend "2024-02" sampleWorld)
  = Val (Some errorSentinel)
  ∧ scheduleCache w !! "2024-02" = Some errorSentinel
  ∧ scheduleCache
      (snd (assignClick sampleBackend "2024-02-06" "alice" "2024-02" "General"
              w))
    !! "2024-02"
    = Some sampleSchedule.
Proof.
  intros w.
  destruct (failed_fetch_is_cached 540 sampleBackend "2024-02" sampleWorld)
    as (Hfail & _).
  destruct Hfail as [Hval Hcache]; [vm_compute; reflexivity..|].
  split; [exact Hval|]. split; [exact Hcache|].
  destruct (failed_fetch_is_cached 540 sampleBackend "2024-02" w)
    as (_ & _ & _ & Hassign & _).
  apply (Hassign "2024-02-06" "alice" "General" sampleSchedule);
    vm_compute; reflexivity.
Defined.

(** C6 on the sample: alice dropped onto the 3rd, one of her NG dates. *)
Lemma move_local_rejections_witness :
  calendarDrop 540 sampleBackend "2024-01" "2024-01-03" false
    (Some (mkDragMeta "alice" "2024-01-02" (Some "General"))) sampleWorld
  = (Val None, notify "NG日にはドロップできません" "error" sampleWorld).
Proof.
  apply (proj1 (move_local_rejections 540 sampleBackend sampleWorld)
           (mkHighlight "alice" "2024-01" ["2024-01-03"])).
  - reflexivity.
  - right. apply list_elem_of_here.
Defined.

(** C2 fails for the assign dialog: on the 2nd alice holds General, which
    is full, and the dialog does not list it. *)
Lemma dialog_omits_occupied_hospital :
  ∃ modal,
    fst (openAssignModal 540 sampleBackend "2024-01-02" "alice" "2024-01"
           sampleWorld)
    = Val (Some modal)
    ∧ ¬ (∀ h, h ∈ (am_candidates modal).*1
              ↔ h ∈ hospitalsFor sampleSchedule sampleCfg
                ∧ (0 < remainingAt 540 sampleCfg sampleSchedule h
                         "2024-01-02" false
                   ∨ "alice" ∈ assignedAt sampleSchedule "2024-01-02" h)).
Proof.
  eexists. split; [vm_compute; reflexivity|].
  intros H. destruct (H "General") as [_ Hback].
  assert (Hin : "General" ∈ [("大学病院", 1)].*1).
  { apply Hback. split.
    - vm_compute. apply list_elem_of_here.
    - right. vm_compute. apply list_elem_of_here. }
  apply list_elem_of_singleton in Hin. discriminate.
Qed.


(** C6 fails for the calendar.  Moving alice from General to the
    university hospital within the 2nd meets none of the three conditions
    (the date is not NG, the hospitals differ, one slot remains), yet the
    drop is refused; and a drop onto the 4th, where no hospital has a
    slot, is refused only after the holiday lookup went out. *)
Lemma calendar_refuses_same_date_move :
  spec_move_rejected ["2024-01-03"]
    (mkDragMeta "alice" "2024-01-02" (Some "General")) "2024-01-02" "大学病院"
    (remainingAt 540 sampleCfg sampleSchedule "大学病院" "2024-01-02" false)
    (occupies sampleSchedule "2024-01-02" "大学病院" "alice") = false
  ∧ calendarDrop 540 sampleBackend "2024-01" "2024-01-02" false
      (Some (mkDragMeta "alice" "2024-01-02" (Some "General"))) sampleWorld
    = (Val None, notify "同じ日への移動です" "error" sampleWorld)
  ∧ sent (snd (calendarDrop 540 sampleBackend "2024-01" "2024-01-04" false
                 (Some (mkDragMeta "alice" "2024-01-02" (Some "General")))
                 sampleWorld))
    = [GET_is_holiday "2024-01-04"].
Proof. vm_compute. repeat split. Qed.

(** ** The further properties on the sample month *)

Lemma undo_drains_log_witness :
  lastChanges sampleWorld = []
  ∧ undoLastChange sampleBackend sampleWorld
    = (Val tt, notify "取り消す変更はありません" "error" sampleWorld).
Proof.
  split; [reflexivity|].
  apply (proj2 (undo_drains_log 540 sampleBackend 0 sampleWorld)).
  reflexivity.
Defined.

Lemma confirmed_edit_then_undo_witness :
  let w1 :=
    snd (assignClick sampleBackend "2024-01-06" "carol" "2024-01" "General"
           sampleWorld) in
  let w2 := snd (undoLastChange sampleBackend w1) in
  lastChanges w2 = lastChanges sampleWorld
  ∧ sent w2
    = sent w1
      ++ [POST_manual_unassign
            (mkUnassignPayload "2024-01" "2024-01-06" "carol")].
Proof.
  apply (proj1 (confirmed_edit_then_undo sampleBackend sampleWorld eq_refl)
           "2024-01-06" "carol" "2024-01" "General" (Some sampleSchedule));
    vm_compute; reflexivity.
Defined.

Lemma undo_limit_differs_witness :
  uiMaxOf (Some "0") = 2
  ∧ undoMaxOf (Some "0") = Js.Int 0
  ∧ ∃ rest,
      sent (snd (undoLastChange sampleBackend undoWorld))
      = sent undoWorld
        ++ POST_manual_assign
             (mkAssignPayload "2024-01" "2024-01-02" "alice" "General"
                (undoMaxOf (Some "2")))
           :: rest.
Proof.
  destruct (undo_limit_differs sampleBackend (Some "0") eq_refl)
    as (_ & Hzero & _).
  destruct (Hzero "0" eq_refl) as (Hui & Hundo & _).
  - discriminate.
  - reflexivity.
  - split; [exact Hui|]. split; [exact Hundo|].
    destruct (undo_limit_differs sampleBackend (Some "2") eq_refl)
      as (_ & _ & _ & Hsend).
    apply (Hsend undoWorld
             [ChAssign "2024-01" "2024-01-06" "bob" "General"]
             "2024-01" "2024-01-02" "alice" "General" ["大学病院"]);
      reflexivity.
Defined.

Lemma residents_lookup_caches_success_only_witness :
  let w1 := snd (fetchResidents sampleBackend "2024-01" sampleWorld) in
  fst (fetchResidents sampleBackend "2024-01" sampleWorld)
  = Val (Some [mkResident "alice" ["2024-01-03"]])
  ∧ sent w1 = sent sampleWorld ++ [GET_residents "2024-01"]
  ∧ fetchResidents sampleBackend "2024-01" w1
    = (Val (Some [mkResident "alice" ["2024-01-03"]]), w1).
Proof.
  destruct (residents_lookup_caches_success_only sampleBackend "2024-01"
              sampleWorld) as (_ & _ & Hok).
  apply (Hok [mkResident "alice" ["2024-01-03"]]); reflexivity.
Defined.

Lemma cached_month_never_refetched_witness :
  let w' :=
    handleAll 540 sampleBackend
      [EvFetchSchedule "2024-01";
       EvAssignClick "2024-01-06" "carol" "2024-01" "General";
       EvUndo; EvFetchSchedule "2024-02"]
      sampleWorld in
  is_Some (scheduleCache w' !! "2024-01")
  ∧ ∃ rest, sent w' = sent sampleWorld ++ rest ∧ GET_schedule "2024-01" ∉ rest.
Proof.
  apply (cached_month_never_refetched 540 sampleBackend "2024-01").
  exists sampleSchedule. reflexivity.
Defined.

Lemma highlight_marks_only_droppable_witness :
  highlightMark 540 sampleCfg {[ "2024-01" := sampleSchedule ]}
    ["2024-01-03"] "2024-01" "2024-01-09" "General"
  = PreviewDropTarget
  ∧ "General"
    ∈ (dropCandidates 540 sampleCfg sampleSchedule ["General"; "大学病院"]
         "2024-01-09" "alice" false).*1.
Proof.
  assert (H : highlightMark 540 sampleCfg {[ "2024-01" := sampleSchedule ]}
                ["2024-01-03"] "2024-01" "2024-01-09" "General"
              = PreviewDropTarget) by (vm_compute; reflexivity).
  split; [exact H|].
  apply (proj2 (highlight_marks_only_droppable 540 sampleCfg
                  {[ "2024-01" := sampleSchedule ]} ["2024-01-03"]
                  "2024-01" "2024-01-09" "General" H)
           false "alice" ["General"; "大学病院"]).
  apply list_elem_of_here.
Defined.

Lemma sentinel_disables_local_checks_witness :
  let w := snd (fetchSchedule sampleBackend "2024-02" sampleWorld) in
  scheduleCache w !! "2024-02" = Some errorSentinel
  ∧ ∃ rest,
      sent (snd (assignClick sampleBackend "2024-02-06" "alice" "2024-02"
                   "General" w))
      = sent w
        ++ POST_manual_assign
             (mkAssignPayload "2024-02" "2024-02-06" "alice" "General"
                (Js.Int 2))
           :: rest.
Proof.
  set (w := snd (fetchSchedule sampleBackend "2024-02" sampleWorld)).
  assert (H : scheduleCache w !! "2024-02" = Some errorSentinel)
    by (vm_compute; reflexivity).
  split; [exact H|].
  assert (Hfield : integerField (maxAssignmentsValue w) = true)
    by (vm_compute; reflexivity).
  destruct (sentinel_disables_local_checks 540 sampleBackend "2024-02"
              "2024-02-06" "alice" w H) as [_ Hassign].
  apply (proj2 (Hassign Hfield "General")). vm_compute. discriminate.
Defined.

Lemma dateStr_round_trip_witness :
  dateStrOf 2024 1 8 = "2024-01-08"
  ∧ Js.parseIsoDate (dateStrOf 2024 1 8) = Some (2024, 1, 8)
  ∧ substring 0 7 (dateStrOf 2024 1 8) = monthKeyOf 2024 1.
Proof.
  split; [reflexivity|].
  destruct (dateStr_round_trip 2024 1 8) as (Hparse & _ & Hkey).
  - lia.
  - lia.
  - change (lastDateOf 2024 1) with 31. lia.
  - split; [exact Hparse|exact Hkey].
Defined.

Lemma weekday_of_calendar_day_witness :
  Js.getDay 540 (dateStrOf 2024 1 8) = Js.Int (localGetDay 2024 1 8)
  ∧ weekdayOf 540 (dateStrOf 2024 1 8) = Js.Int 0.
Proof.
  destruct (weekday_of_calendar_day 540 2024 1 8) as (_ & Heast & _).
  - lia.
  - lia.
  - change (lastDateOf 2024 1) with 31. lia.
  - apply Heast. lia.
Defined.

Lemma month_navigation_witness :
  let e := mkEditing (Some "General") 2024 1 in
  prevMonth e = mkEditing (Some "General") 2023 12
  ∧ nextMonth (prevMonth e) = e
  ∧ monthKeyOf (editingYear (prevMonth e)) (editingMonth (prevMonth e))
    ≠ monthKeyOf (editingYear e) (editingMonth e).
Proof.
  intros e. split; [reflexivity|].
  destruct (month_navigation sampleBackend e sampleWorld)
    as (Hback & _ & _ & _ & _ & _ & Hkeys).
  - simpl. lia.
  - split; [exact Hback|]. apply Hkeys. simpl. lia.
Defined.

Lemma calendar_grid_layout_witness :
  calendarRows 2024 1 !! 0%nat
  = Some [None; Some 1; Some 2; Some 3; Some 4; Some 5; Some 6]
  ∧ Z.of_nat 1 = localGetDay 2024 1 1.
Proof.
  assert (H : calendarRows 2024 1 !! 0%nat
              = Some [None; Some 1; Some 2; Some 3; Some 4; Some 5; Some 6])
    by (vm_compute; reflexivity).
  split; [exact H|].
  destruct (proj2 (calendar_grid_layout 2024 1) 0%nat _ H) as (_ & _ & Hcol).
  apply (Hcol 1%nat 1). reflexivity.
Defined.

Lemma calendar_save_pins_month_witness :
  let obj : gmap string Z := {[ "2024-01-08" := 1; "1" := 1; "5" := 1 ]} in
  let saved := calSaveObject 2024 1 (dayCells 2024 1 sampleInputs) obj in
  saved !! "2024-01-08" = Some 3
  ∧ saved !! "2024-01-09" = Some 0
  ∧ capacityOf 540 {[ "大学病院" := saved ]} "大学病院" "2024-01-09" = 0
  ∧ capacityOf 540 {[ "大学病院" := obj ]} "大学病院" "2024-01-09" = 1.
Proof.
  intros obj saved.
  destruct (calendar_save_pins_month 540 2024 1 sampleInputs obj)
    as [Hdays _]; [lia|lia|].
  destruct (Hdays 8) as (H8 & _ & _);
    [change (lastDateOf 2024 1) with 31; lia|].
  destruct (Hdays 9) as (H9 & Hcap & _);
    [change (lastDateOf 2024 1) with 31; lia|].
  split; [exact H8|]. split; [exact H9|]. split.
  - apply (Hcap {[ "大学病院" := saved ]} "大学病院"). reflexivity.
  - vm_compute. reflexivity.
Defined.

Lemma bulk_set_then_save_witness :
  let cells :=
    bulkSetForWeekdays 2024 1 bulkWeekdays "2" (dayCells 2024 1 sampleInputs) in
  calSaveObject 2024 1 cells ∅ !! "2024-01-09" = Some 2
  ∧ calSaveObject 2024 1 cells ∅ !! "2024-01-07" = Some 0
  ∧ calSaveObject 2024 1 (bulkClearAll (dayCells 2024 1 sampleInputs)) ∅
      !! "2024-01-08"
    = Some 0.
Proof.
  intros cells.
  destruct (bulk_set_then_save 2024 1 bulkWeekdays "2" sampleInputs ∅)
    as (_ & _ & _ & Hsave).
  destruct (Hsave ltac:(lia) ltac:(lia) 9) as [H9 _];
    [change (lastDateOf 2024 1) with 31; lia|].
  destruct (Hsave ltac:(lia) ltac:(lia) 7) as [H7 _];
    [change (lastDateOf 2024 1) with 31; lia|].
  destruct (Hsave ltac:(lia) ltac:(lia) 8) as [_ H8];
    [change (lastDateOf 2024 1) with 31; lia|].
  split; [exact H9|]. split; [exact H7|exact H8].
Defined.

Lemma save_config_rows_witness :
  newCfgOf sampleCfg sampleRows !! "Clinic" = Some {[ "1" := 2 ]}
  ∧ newCfgOf sampleCfg sampleRows !! "General" = None.
Proof.
  destruct (save_config_rows sampleCfg sampleRows)
    as (Hlast & Habsent & _ & _).
  split.
  - destruct (Hlast [] (mkTableRow "General" "Clinic")
                [mkTableRow "大学病院" "大学病院"]) as [_ Hrename].
    + reflexivity.
    + discriminate.
    + intros r Hr. apply list_elem_of_singleton in Hr. subst r. discriminate.
    + apply Hrename; [discriminate|reflexivity].
  - apply Habsent. intros r Hr. unfold sampleRows in Hr.
    apply elem_of_cons in Hr as [->|Hr]; [discriminate|].
    apply list_elem_of_singleton in Hr. subst r. discriminate.
Defined.

Lemma select_resident_highlight_witness :
  let w' := snd (selectResident flakyBackend "2024-01" "alice" sampleWorld) in
  hl_ng_dates <$> residentHighlight w' = Some []
  ∧ sent w'
    = sent sampleWorld ++ [GET_residents "2024-01"; GET_residents "2024-01"]
  ∧ residentsCache w' !! "2024-01"
    = Some [mkResident "alice" ["2024-01-03"]].
Proof.
  destruct (select_resident_highlight 540 flakyBackend "2024-01" "alice"
              (mkEditing None 2024 1) sampleWorld)
    as (_ & _ & _ & Hfail & _).
  apply Hfail; [reflexivity|]. intros l. discriminate.
Defined.

Lemma open_calendar_keeps_capacities_witness :
  let w' :=
    snd (openCalendar sampleBackend "Clinic" 2024 1 (mkEditing None 2023 12)
           sampleWorld) in
  currentCfg w' !! "Clinic" = Some ∅
  ∧ capacityOf 540 (currentCfg w') "General" "2024-01-09" = 2.
Proof.
  destruct (open_calendar_keeps_capacities 540 sampleBackend "Clinic" 2024 1
              (mkEditing None 2023 12) sampleWorld)
    as (Hcap & _ & Hopen & _).
  destruct Hopen as (_ & Hkey & _); [discriminate|].
  split; [exact Hkey|]. rewrite Hcap. vm_compute. reflexivity.
Defined.

Lemma ng_class_only_matters_when_stale_witness :
  ngDayClassOf (residentHighlight sampleWorld) 2024 1 3 = true
  ∧ calendarDrop 540 sampleBackend "2024-01" "2024-01-04" true None sampleWorld
    = (Val None, notify "NG日にはドロップできません" "error" sampleWorld).
Proof.
  split; [vm_compute; reflexivity|].
  apply (proj2 (ng_class_only_matters_when_stale 540 sampleBackend "2024-01"
                  2024 1 4 None sampleWorld)).
  eexists. reflexivity.
Defined.
